(** * Icon converter: the folder-processing state machine

    A shallow embedding of [src/updater/icon_converter.py] (class
    [IconConverter]) and the properties of its per-folder state machine.

    The program is a sequence of filesystem operations on one icon folder,
    guarded by [try]/[except] blocks.  It is modelled as a state-and-exception
    monad over an explicit filesystem state:

    - an icon folder is a finite map from entry names to nodes; a node is a
      regular file with its text, or a sub-directory whose entries are
      regular files or (opaque) directories.  Names are compared exactly, as
      on a case-sensitive filesystem;
    - the content of a file is the text that a text-mode read returns;
    - the order in which the operating system lists a directory is not
      specified; a directory is listed in the order of its finite map, and
      the theorems hold for whichever entries the scans select;
    - the capabilities the program imports (cairosvg, Pillow, ElementTree,
      [float], glob pattern matching) and the failures of the operating
      system are fields of a record [externals]; every definition is
      parametrised by it;
    - every mutation that succeeds is appended to a trace, so that "no write
      was performed" is a statement about the trace;
    - the operations that can fail are those the program guards with
      [try], and the write of the ledger file; an operation that fails
      leaves its target as it was.  A directory listing, a glob and the
      console prompt always succeed.

    A state holds the ledger as the constructor of [IconConverter] loaded
    it; the two steps of the constructor, the search for the icons root
    and the loading of the ledger, are modelled apart. *)

From stdpp Require Import base decidable option list strings gmap sorting pretty.
From Stdlib Require Import Ascii String.

Local Open Scope string_scope.

(** ** Path names ([pathlib.PurePath.suffix], [.stem], [str.lower]) *)

Module PathName.

(** ASCII lower-casing.  The suffixes the program compares against are
    ASCII and contain no [k], so for those comparisons this agrees with
    [str.lower]. *)
Definition lower_ascii (c : ascii) : ascii :=
  let n := nat_of_ascii c in
  if (65 <=? n)%nat && (n <=? 90)%nat then ascii_of_nat (n + 32) else c.

Fixpoint lower (s : string) : string :=
  match s with
  | EmptyString => EmptyString
  | String c r => String (lower_ascii c) (lower r)
  end.

(** [rsplit_dot name = Some (b, a)] when [name = b ++ "." ++ a] and [a]
    holds no dot: the split at [name.rfind('.')]. *)
Fixpoint rsplit_dot (name : string) : option (string * string) :=
  match name with
  | EmptyString => None
  | String c r =>
      match rsplit_dot r with
      | Some (b, a) => Some (String c b, a)
      | None => if Ascii.eqb c "." then Some (EmptyString, r) else None
      end
  end.

Definition is_empty (s : string) : bool :=
  match s with EmptyString => true | _ => false end.

(** [i = name.rfind('.'); if 0 < i < len(name) - 1: name[i:] else ''] *)
Definition suffix (name : string) : string :=
  match rsplit_dot name with
  | Some (b, a) =>
      if negb (is_empty b) && negb (is_empty a) then String "." a else ""
  | None => ""
  end.

(** [i = name.rfind('.'); if 0 < i < len(name) - 1: name[:i] else name] *)
Definition stem (name : string) : string :=
  match rsplit_dot name with
  | Some (b, a) =>
      if negb (is_empty b) && negb (is_empty a) then b else name
  | None => name
  end.

(** [file.suffix.lower() == ext] *)
Definition has_ext (ext name : string) : bool :=
  String.eqb (lower (suffix name)) ext.

(** [s.rstrip('px')]: drop every trailing character that is [p] or [x]. *)
Fixpoint rstrip_px (s : string) : string :=
  match s with
  | EmptyString => EmptyString
  | String c r =>
      match rstrip_px r with
      | EmptyString =>
          if Ascii.eqb c "p" || Ascii.eqb c "x" then EmptyString
          else String c EmptyString
      | r' => String c r'
      end
  end.

End PathName.
Export PathName.

(** ** The filesystem of one icon folder *)

Definition content := string.

(** An entry of a sub-directory of the icon folder. *)
Inductive leaf :=
| LFile (c : content)
| LDir.

(** An entry of the icon folder. *)
Inductive node :=
| File (c : content)
| Dir (kids : gmap string leaf).

Definition is_file (n : node) : bool :=
  match n with File _ => true | Dir _ => false end.

Definition path := list string.

(** Operations of the operating system, with paths relative to the icon
    folder.  The same type names the operations an environment may refuse
    and the entries of the trace of mutations. *)
Inductive op :=
| OpRead (p : path)
| OpWrite (p : path)
| OpUnlink (p : path)
| OpMkdir (p : path)
| OpLedgerWrite.

Global Instance op_eq_dec : EqDecision op.
Proof. solve_decision. Defined.

Inductive codec := PNG | JPEG | ICO.

(** What the program imports.  [pyfloat] stands for Python's [float]. *)
Record externals := {
  image : Type;
  pyfloat : Type;
  (** [Path.glob]: does the entry name match the pattern? *)
  glob_match : string -> string -> bool;
  (** [cairosvg is not None] *)
  cairosvg_installed : bool;
  (** [cairosvg.svg2png]: the raster, or an exception *)
  svg2png : content -> option content;
  (** [Image.open] *)
  image_open : content -> option image;
  (** [img.resize((size, size), LANCZOS)] *)
  resize : image -> N -> option image;
  (** [resized.mode == 'RGBA'] *)
  mode_rgba : image -> bool;
  (** [Image.new('RGB', ..., white)] then [paste] under the alpha mask *)
  flatten_white : image -> option image;
  (** the encoder behind [Image.save] *)
  save : codec -> image -> option content;
  (** [ET.parse(p).getroot()] then [.get('width')], [.get('height')] *)
  root_size_attrs : content -> option (option string * option string);
  (** [float(s)], [None] for [ValueError] *)
  float_of : string -> option pyfloat;
  (** [v == 800] *)
  feq800 : pyfloat -> bool;
  (** does the operating system refuse this operation? *)
  faulty : op -> bool
}.

(** [self] and the icon folder being processed. *)
Record state := mkState {
  converted_files : gset string;
  ledger_file : option (list string);
  folder : gmap string node;
  trace : list op
}.

Definition set_folder (d : gmap string node) (st : state) : state :=
  mkState (converted_files st) (ledger_file st) d (trace st).

Definition log_op (o : op) (st : state) : state :=
  mkState (converted_files st) (ledger_file st) (folder st) (trace st ++ [o]).

(** [self.converted_files.add(folder_name)] *)
Definition add_to_ledger (folder_name : string) (st : state) : state :=
  mkState ({[folder_name]} ∪ converted_files st)
    (ledger_file st) (folder st) (trace st).

(** ** The monad: a result or a raised exception, and the state left behind *)

Inductive res (A : Type) :=
| Ok (a : A)
| Raised.
Arguments Ok {A} a.
Arguments Raised {A}.

Definition M (A : Type) : Type := state -> res A * state.

Definition ret {A} (a : A) : M A := fun st => (Ok a, st).

Definition raise {A} : M A := fun st => (Raised, st).

Definition bind {A B} (m : M A) (k : A -> M B) : M B :=
  fun st =>
    match m st with
    | (Ok a, st1) => k a st1
    | (Raised, st1) => (Raised, st1)
    end.

(** [try: m  except Exception: h] *)
Definition catch {A} (m : M A) (h : M A) : M A :=
  fun st =>
    match m st with
    | (Ok a, st1) => (Ok a, st1)
    | (Raised, st1) => h st1
    end.

(** [try: m  except Exception as e: logger.error(...)] *)
Definition attempt (m : M unit) : M unit := catch m (ret tt).

Definition gets {A} (f : state -> A) : M A := fun st => (Ok (f st), st).

Definition modify (f : state -> state) : M unit := fun st => (Ok tt, f st).

Definition of_option {A} (o : option A) : M A :=
  match o with Some a => ret a | None => raise end.

Notation "'let*' x ':=' m 'in' k" := (bind m (fun x => k))
  (at level 10, x pattern, m at level 100, k at level 200).
Notation "m ';;' k" := (bind m (fun _ => k))
  (at level 100, k at level 200, right associativity).

(** How a block of a function body ends: with a [return], or by falling
    through to the statement after it. *)
Inductive flow (A : Type) :=
| Return (b : bool)
| Continue (a : A).
Arguments Return {A} b.
Arguments Continue {A} a.

Definition is_Some_b {A} (o : option A) : bool :=
  match o with Some _ => true | None => false end.

Fixpoint for_each {A} (l : list A) (body : A -> M unit) : M unit :=
  match l with
  | [] => ret tt
  | x :: r => body x ;; for_each r body
  end.

(** ** The icons root *)

Inductive rentry :=
| RFile
| RDir (d : gmap string node).

Definition is_rdir (e : rentry) : bool :=
  match e with RDir _ => true | RFile => false end.

(** [self], the entries of [self.base_path] ([None] when it does not
    exist), and the trace of mutations, each under the name of the folder
    whose processing performed it. *)
Record world := mkWorld {
  w_converted : gset string;
  w_ledger : option (list string);
  w_icons : option (gmap string rentry);
  w_trace : list (string * op)
}.

(** The entry [name] of the icons root. *)
Definition icon_folder (w : world) (name : string) : option rentry :=
  match w_icons w with
  | Some icons => icons !! name
  | None => None
  end.

(** The state in which the folder [d] of the world [w] is processed. *)
Definition enter (w : world) (d : gmap string node) : state :=
  mkState (w_converted w) (w_ledger w) d [].

(** ** The program *)

Definition SIZES : list N := [64; 128; 256; 512; 1024]%N.
Definition OUTPUT_FORMATS : list string := ["ico"; "png"; "jpg"].

Section Program.

Context (E : externals).

(** *** Operating-system calls on the icon folder *)

(** [p.exists()] for an entry of the icon folder *)
Definition path_exists (n : string) : M bool :=
  gets (fun st => match folder st !! n with Some _ => true | None => false end).

(** [open(p, 'r', encoding='utf-8')] then [f.read()] *)
Definition fs_read (n : string) : M content :=
  fun st =>
    match folder st !! n with
    | Some (File c) =>
        if faulty E (OpRead [n]) then (Raised, st) else (Ok c, st)
    | _ => (Raised, st)
    end.

(** [open(p, 'w', encoding='utf-8')] then [f.write(c)] *)
Definition fs_write (n : string) (c : content) : M unit :=
  fun st =>
    match folder st !! n with
    | Some (Dir _) => (Raised, st)
    | _ =>
        if faulty E (OpWrite [n]) then (Raised, st)
        else (Ok tt, log_op (OpWrite [n])
                       (set_folder (<[n := File c]> (folder st)) st))
    end.

(** [p.unlink()] for an entry of the icon folder *)
Definition fs_unlink (n : string) : M unit :=
  fun st =>
    match folder st !! n with
    | Some (File _) =>
        if faulty E (OpUnlink [n]) then (Raised, st)
        else (Ok tt, log_op (OpUnlink [n])
                       (set_folder (delete n (folder st)) st))
    | _ => (Raised, st)
    end.

(** [(folder_path / d).mkdir(exist_ok=True)] *)
Definition mkdir_exist_ok (d : string) : M unit :=
  fun st =>
    match folder st !! d with
    | Some (Dir _) => (Ok tt, st)
    | Some (File _) => (Raised, st)
    | None =>
        if faulty E (OpMkdir [d]) then (Raised, st)
        else (Ok tt, log_op (OpMkdir [d])
                       (set_folder (<[d := Dir ∅]> (folder st)) st))
    end.

(** writing the file [d/n] of a sub-directory *)
Definition sub_write (d n : string) (c : content) : M unit :=
  fun st =>
    match folder st !! d with
    | Some (Dir kids) =>
        match kids !! n with
        | Some LDir => (Raised, st)
        | _ =>
            if faulty E (OpWrite [d; n]) then (Raised, st)
            else (Ok tt, log_op (OpWrite [d; n])
                           (set_folder (<[d := Dir (<[n := LFile c]> kids)]>
                                          (folder st)) st))
        end
    | _ => (Raised, st)
    end.

(** [file.unlink()] for the entry [d/n] of a sub-directory *)
Definition sub_unlink (d n : string) : M unit :=
  fun st =>
    match folder st !! d with
    | Some (Dir kids) =>
        match kids !! n with
        | Some (LFile _) =>
            if faulty E (OpUnlink [d; n]) then (Raised, st)
            else (Ok tt, log_op (OpUnlink [d; n])
                           (set_folder (<[d := Dir (delete n kids)]>
                                          (folder st)) st))
        | _ => (Raised, st)
        end
    | _ => (Raised, st)
    end.

(** [dir_path.glob(pattern)]: the names of the entries that match, in the
    order the directory lists them. *)
Definition glob (pattern : string) (kids : gmap string leaf) : list string :=
  filter (fun n => glob_match E pattern n = true) (map fst (map_to_list kids)).

(** *** [_save_converted_list] *)

Definition _save_converted_list : M unit :=
  fun st =>
    if faulty E OpLedgerWrite then (Raised, st)
    else (Ok tt,
          mkState (converted_files st)
            (Some (merge_sort String.le (elements (converted_files st))))
            (folder st) (trace st ++ [OpLedgerWrite])).

(** *** [_svg_to_png] *)

Definition _svg_to_png (svg_path output_path : string) : M bool :=
  catch
    (if negb (cairosvg_installed E) then ret false
     else
       let* markup := fs_read svg_path in
       let* raster := of_option (svg2png E markup) in
       fs_write output_path raster ;;
       ret true)
    (ret false).

(** *** [_check_svg_size] *)

(** [not v] for an attribute value: absent or empty *)
Definition falsy (v : option string) : bool :=
  match v with
  | None => true
  | Some s => is_empty s
  end.

Definition size_ok (width height : option string) : bool :=
  if falsy width || falsy height then false
  else
    let width_str := rstrip_px (default "" width) in
    let height_str := rstrip_px (default "" height) in
    match float_of E width_str, float_of E height_str with
    | Some width_val, Some height_val =>
        feq800 E width_val && feq800 E height_val
    | _, _ => false
    end.

Definition _check_svg_size (svg_path : string) : M bool :=
  catch
    (let* markup := fs_read svg_path in
     let* attrs := of_option (root_size_attrs E markup) in
     ret (size_ok (fst attrs) (snd attrs)))
    (ret false).

(** *** [_wait_for_user_input]: prints and blocks on [input]; no effect on
    the filesystem, and [EOFError]/[KeyboardInterrupt] are swallowed. *)
Definition _wait_for_user_input (folder_name : string) : M unit := ret tt.

(** *** [_delete_converted_files] *)

Definition variant_pattern (base_name format_dir : string) : string :=
  base_name ++ "_*." ++
    (if negb (String.eqb format_dir "ico") then format_dir else "ico").

(** the body of [for format_dir in self.OUTPUT_FORMATS]; on an entry that
    exists but is not a directory the glob yields nothing *)
Definition delete_in (base_name format_dir : string) : M unit :=
  let* entry := gets (fun st => folder st !! format_dir) in
  match entry with
  | Some (Dir kids) =>
      for_each (glob (variant_pattern base_name format_dir) kids)
        (fun file => attempt (sub_unlink format_dir file))
  | _ => ret tt
  end.

Definition _delete_converted_files (base_name : string) : M unit :=
  for_each OUTPUT_FORMATS (delete_in base_name).

(** *** [_create_variants] *)

(** [resized.save(folder_path / d / name, fmt)].  What a failed encode
    leaves at the destination is Pillow's business: the destination is
    left as it was. *)
Definition save_as (d name : string) (fmt : codec) (img : image E) : M unit :=
  let* bytes := of_option (save E fmt img) in
  sub_write d name bytes.

Definition variant_name (base_name : string) (size : N) (ext : string) : string :=
  base_name ++ "_" ++ pretty size ++ "." ++ ext.

(** the body of [for size in self.SIZES] *)
Definition create_size (base_name : string) (img : image E) (size : N) : M unit :=
  let* resized := of_option (resize E img size) in
  mkdir_exist_ok "png" ;;
  save_as "png" (variant_name base_name size "png") PNG resized ;;
  mkdir_exist_ok "jpg" ;;
  (if mode_rgba E resized then
     let* bg := of_option (flatten_white E resized) in
     save_as "jpg" (variant_name base_name size "jpg") JPEG bg
   else
     save_as "jpg" (variant_name base_name size "jpg") JPEG resized) ;;
  mkdir_exist_ok "ico" ;;
  save_as "ico" (variant_name base_name size "ico") ICO resized.

Definition temp_name (base_name : string) : string :=
  "_temp_" ++ base_name ++ ".png".

Definition _create_variants (source_path base_name : string) : M bool :=
  catch
    (let png_temp := temp_name base_name in
     if has_ext ".svg" source_path then
       let* rendered := _svg_to_png source_path png_temp in
       if negb rendered then ret false
       else
         let* present := path_exists png_temp in
         if negb present then ret false
         else
           let* raster := fs_read png_temp in
           let* img := of_option (image_open E raster) in
           for_each SIZES (create_size base_name img) ;;
           let* present := path_exists png_temp in
           (if present then fs_unlink png_temp else ret tt) ;;
           ret true
     else ret false)
    (ret false).

(** *** [_svg_to_xml] and [_xml_to_svg] *)

Definition _svg_to_xml (svg_path : string) : M bool :=
  catch
    (let xml_path := stem svg_path ++ ".xml" in
     let* content := fs_read svg_path in
     fs_write xml_path content ;;
     ret true)
    (ret false).

Definition _xml_to_svg (xml_path : string) : M bool :=
  catch
    (let svg_path := stem xml_path ++ ".svg" in
     let* content := fs_read xml_path in
     fs_write svg_path content ;;
     ret true)
    (ret false).

(** *** [process_icon_folder] *)

Definition listing (d : gmap string node) : list (string * node) :=
  map_to_list d.

(** lines 267-273: the last marker of each kind in listing order *)
Definition scan_markers (d : gmap string node) : option string * option string :=
  fold_left
    (fun acc file =>
       if is_file (snd file) && has_ext ".updatesvg" (fst file)
       then (Some (fst file), snd acc)
       else if is_file (snd file) && has_ext ".updatexml" (fst file)
       then (fst acc, Some (fst file))
       else acc)
    (listing d) (None, None).

(** lines 283-292 and 371-380: the last vector file and the last XML file
    in listing order *)
Definition scan_sources (d : gmap string node) : option string * option string :=
  fold_left
    (fun acc file =>
       if is_file (snd file) then
         if has_ext ".svg" (fst file) then (Some (fst file), snd acc)
         else if has_ext ".xml" (fst file) then (fst acc, Some (fst file))
         else acc
       else acc)
    (listing d) (None, None).

(** lines 296-312 and 324-340: delete the variants of [base_name], the
    stale source and the marker; a failed deletion is logged and the next
    one is tried. *)
Definition invalidate (source marker : string) : M unit :=
  let base_name := stem source in
  _delete_converted_files base_name ;;
  attempt (fs_unlink source) ;;
  attempt (fs_unlink marker).

(** lines 295-320, entered with [update_svg_file] and [svg_file] set;
    continues with the new value of [svg_file]. *)
Definition handle_updatesvg (update_svg_file svg_file : string)
    (xml_file : option string) : M (flow (option string)) :=
  invalidate svg_file update_svg_file ;;
  match xml_file with
  | Some xml =>
      let* present := path_exists xml in
      if present then
        _xml_to_svg xml ;;
        ret (Continue (Some (stem xml ++ ".svg")))
      else ret (Return false)
  | None => ret (Return false)
  end.

(** lines 323-348, entered with [update_xml_file] and [xml_file] set. *)
Definition handle_updatexml (update_xml_file xml_file : string)
    (svg_file : option string) : M (flow unit) :=
  invalidate xml_file update_xml_file ;;
  match svg_file with
  | Some svg =>
      let* present := path_exists svg in
      if present then
        _svg_to_xml svg ;;
        ret (Continue tt)
      else ret (Return false)
  | None => ret (Return false)
  end.

(** lines 351-364 *)
Definition regenerate (folder_name : string) (svg_file : option string) :
    M (flow unit) :=
  match svg_file with
  | Some svg =>
      let* present := path_exists svg in
      if present then
        let* sized := _check_svg_size svg in
        if negb sized then
          _wait_for_user_input folder_name ;;
          ret (Return false)
        else
          let* success := _create_variants svg (stem svg) in
          if success then ret (Return true) else ret (Return false)
      else ret (Continue tt)
  | None => ret (Continue tt)
  end.

(** lines 276-364 *)
Definition marker_processing (folder_name : string)
    (update_svg_file update_xml_file : option string) : M (flow unit) :=
  let* ledger := gets converted_files in
  if negb (bool_decide (folder_name ∈ ledger)) then ret (Return true)
  else
    let* d := gets folder in
    let svg_file := fst (scan_sources d) in
    let xml_file := snd (scan_sources d) in
    let* after_svg :=
      match update_svg_file, svg_file with
      | Some marker, Some svg => handle_updatesvg marker svg xml_file
      | _, _ => ret (Continue svg_file)
      end in
    match after_svg with
    | Return b => ret (Return b)
    | Continue svg_file =>
        let* after_xml :=
          match update_xml_file, xml_file with
          | Some marker, Some xml => handle_updatexml marker xml svg_file
          | _, _ => ret (Continue tt)
          end in
        match after_xml with
        | Return b => ret (Return b)
        | Continue _ => regenerate folder_name svg_file
        end
    end.

(** lines 371-392: find the vector file and the XML file and make the
    pair complete; continues with [svg_file]. *)
Definition sync_asset_pair : M (flow string) :=
  let* d := gets folder in
  let svg_file := fst (scan_sources d) in
  let xml_file := snd (scan_sources d) in
  match svg_file, xml_file with
  | None, None => ret (Return false)
  | Some svg, None => _svg_to_xml svg ;; ret (Continue svg)
  | None, Some xml => _xml_to_svg xml ;; ret (Continue (stem xml ++ ".svg"))
  | Some svg, Some _ => ret (Continue svg)
  end.

(** lines 405-406 *)
Definition record (folder_name : string) : M unit :=
  modify (add_to_ledger folder_name) ;;
  _save_converted_list.

(** lines 395-410 *)
Definition convert_new (folder_name svg_file : string) : M bool :=
  let* present := path_exists svg_file in
  if present then
    let* sized := _check_svg_size svg_file in
    if negb sized then
      _wait_for_user_input folder_name ;;
      ret false
    else
      let* success := _create_variants svg_file (stem svg_file) in
      if success then
        record folder_name ;;
        ret true
      else ret false
  else ret false.

(** lines 366-410 *)
Definition normal_processing (folder_name : string) : M bool :=
  let* ledger := gets converted_files in
  if bool_decide (folder_name ∈ ledger) then ret true
  else
    let* synced := sync_asset_pair in
    match synced with
    | Return b => ret b
    | Continue svg_file => convert_new folder_name svg_file
    end.

Definition process_icon_folder (folder_name : string) : M bool :=
  let* d := gets folder in
  let update_svg_file := fst (scan_markers d) in
  let update_xml_file := snd (scan_markers d) in
  let* early :=
    if is_Some_b update_svg_file || is_Some_b update_xml_file
    then marker_processing folder_name update_svg_file update_xml_file
    else ret (Continue tt) in
  match early with
  | Return b => ret b
  | Continue _ => normal_processing folder_name
  end.

(** *** [run] and [main] *)

(** [process_icon_folder(folder)] for the folder [name] of the icons
    root: the folder is looked up, processed, and written back; its trace
    is filed under its name. *)
Definition process_in (name : string) (w : world) : res bool * world :=
  match w_icons w with
  | Some icons =>
      match icons !! name with
      | Some (RDir d) =>
          let r := process_icon_folder name (enter w d) in
          (fst r,
           mkWorld (converted_files (snd r)) (ledger_file (snd r))
             (Some (<[name := RDir (folder (snd r))]> icons))
             (w_trace w ++ map (pair name) (trace (snd r))))
      | _ => (Raised, w)
      end
  | None => (Raised, w)
  end.

(** lines 430-437: the tally of one pass *)
Fixpoint run_loop (folders : list string) (successful failed : nat)
    (w : world) : res (nat * nat) * world :=
  match folders with
  | [] => (Ok (successful, failed), w)
  | folder :: rest =>
      match process_in folder w with
      | (Ok true, w1) => run_loop rest (S successful) failed w1
      | (Ok false, w1) => run_loop rest successful (S failed) w1
      | (Raised, w1) => (Raised, w1)
      end
  end.

(** [sorted(d for d in self.base_path.iterdir() if d.is_dir())] *)
Definition icon_folders (icons : gmap string rentry) : list string :=
  merge_sort String.le
    (map fst (filter (fun e => is_rdir (snd e) = true) (map_to_list icons))).

Definition run (w : world) : res bool * world :=
  match w_icons w with
  | None => (Ok false, w)
  | Some icons =>
      match icon_folders icons with
      | [] => (Ok false, w)
      | folders =>
          match run_loop folders 0 0 w with
          | (Ok (_, failed), w1) => (Ok (Nat.eqb failed 0), w1)
          | (Raised, w1) => (Raised, w1)
          end
      end
  end.

(** [main]: the exit code, for a converter that was constructed *)
Definition main (w : world) : nat * world :=
  match run w with
  | (Ok true, w1) => (0, w1)
  | (Ok false, w1) => (1, w1)
  | (Raised, w1) => (1, w1)
  end.

End Program.

(** ** Predicates on folders, and the scan the program performs *)

(** The folder holds a regular file with extension [ext]. *)
Definition has_file (ext : string) (d : gmap string node) : Prop :=
  exists name c, d !! name = Some (File c) /\ has_ext ext name = true.

(** The folder holds no regular file with extension [ext]. *)
Definition no_file (ext : string) (d : gmap string node) : Prop :=
  forall name c, d !! name = Some (File c) -> has_ext ext name = false.

(** The scans keep the last entry that satisfies a test. *)
Definition pick (p : string * node -> bool) (l : list (string * node))
    (acc : option string) : option string :=
  fold_left (fun acc file => if p file then Some (fst file) else acc) l acc.

Definition file_with (ext : string) (file : string * node) : bool :=
  is_file (snd file) && has_ext ext (fst file).

(** A computation that never raises. *)
Definition safe {A} (m : M A) : Prop :=
  forall st, exists a, fst (m st) = Ok a.

(** [m] takes every state to one related to it by [R]. *)
Definition preserves {A} (R : relation state) (m : M A) : Prop :=
  forall st, R st (snd (m st)).

(** From [st] to [st'] the in-memory ledger and the ledger file are kept,
    the trace only grows, by mutations other than a write of the ledger
    file, and only entries of the icon folder whose name satisfies
    [touched] may differ. *)
Definition changes_only (touched : string -> Prop) : relation state :=
  fun st st' =>
    converted_files st' = converted_files st /\
    ledger_file st' = ledger_file st /\
    (forall n, ~ touched n -> folder st' !! n = folder st !! n) /\
    exists l, trace st' = (trace st ++ l)%list /\ OpLedgerWrite ∉ l.

(** The name of one of the three output sub-directories. *)
Definition in_formats (n : string) : Prop := n ∈ OUTPUT_FORMATS.

(** The normal processing of the folder in state [st] reaches the variant
    generator with the vector file [svg], and the generator succeeds. *)
Definition generation_succeeds (E : externals) (st : state) (svg : string) : Prop :=
  fst (sync_asset_pair E st) = Ok (Continue svg) /\
  fst (_check_svg_size E svg (snd (sync_asset_pair E st))) = Ok true /\
  fst (_create_variants E svg (stem svg) (snd (sync_asset_pair E st))) = Ok true.

(** The state the variant generator leaves in that case. *)
Definition generated (E : externals) (st : state) (svg : string) : state :=
  snd (_create_variants E svg (stem svg) (snd (sync_asset_pair E st))).

(** What an invalidation for [base_name], [source] and [marker] may do to
    the icon folder: an entry is never created; a regular file is kept as
    it is, or removed when it is [source] or [marker]; a sub-directory
    stays a sub-directory, and each of its entries is kept as it is, or
    removed when the sub-directory is an output directory and the entry is
    a regular file whose name matches the pattern of [base_name]. *)
Definition invalidated (E : externals) (base_name source marker : string) :
    relation state :=
  fun st st' =>
    forall n,
      match folder st !! n with
      | Some (Dir kids) =>
          exists kids',
            folder st' !! n = Some (Dir kids') /\
            forall k,
              kids' !! k = kids !! k \/
              (kids' !! k = None /\ in_formats n /\
               glob_match E (variant_pattern base_name n) k = true /\
               exists c, kids !! k = Some (LFile c))
      | Some (File c) =>
          folder st' !! n = Some (File c) \/
          ((n = source \/ n = marker) /\ folder st' !! n = None)
      | None => folder st' !! n = None
      end.

(** From [st] to [st'] only entries of the icon folder whose name satisfies
    [touched] may differ. *)
Definition touches (touched : string -> Prop) : relation state :=
  fun st st' => forall n, ~ touched n -> folder st' !! n = folder st !! n.

(** The markup declares a width and a height that both equal 800: what
    [_check_svg_size] computes from the text of the file. *)
Definition declares_800 (E : externals) (markup : content) : bool :=
  match root_size_attrs E markup with
  | Some attrs => size_ok E (fst attrs) (snd attrs)
  | None => false
  end.

(** The sub-directory [d] of the icon folder holds the regular file [k]. *)
Definition has_variant (st : state) (d k : string) : Prop :=
  exists kids c, folder st !! d = Some (Dir kids) /\ kids !! k = Some (LFile c).

(** The writes into sub-directories among the mutations [t]. *)
Definition is_sub_write (o : op) : bool :=
  match o with
  | OpWrite [_; _] => true
  | _ => false
  end.

Definition sub_writes (t : list op) : list op :=
  filter (fun o => is_sub_write o = true) t.

(** The three writes of one size, and the writes of the whole matrix, in
    the order the generator performs them. *)
Definition writes_of (base_name : string) (size : N) : list op :=
  [OpWrite ["png"; variant_name base_name size "png"];
   OpWrite ["jpg"; variant_name base_name size "jpg"];
   OpWrite ["ico"; variant_name base_name size "ico"]].

Definition variant_writes (base_name : string) : list op :=
  flat_map (writes_of base_name) SIZES.

(** From [st] to [st'] the regular files of the sub-directories are still
    regular files, every other regular file of a sub-directory was written
    in between, and the writes into sub-directories were exactly [ws]. *)
Definition extends (ws : list op) : relation state :=
  fun st st' =>
    (forall d k, has_variant st d k -> has_variant st' d k) /\
    (forall d k, has_variant st' d k ->
       has_variant st d k \/ OpWrite [d; k] ∈ ws) /\
    exists t, trace st' = (trace st ++ t)%list /\ sub_writes t = ws.

(** The matrix of variants: the output directory and the part of the file
    name that follows the base name, for every size and format. *)
Definition matrix : list (string * string) :=
  flat_map
    (fun size =>
       [("png", "_" ++ pretty size ++ ".png");
        ("jpg", "_" ++ pretty size ++ ".jpg");
        ("ico", "_" ++ pretty size ++ ".ico")])
    SIZES.

(** From [st] to [st'] the markers [m] and [mx] were both deleted, [m]
    before [mx]. *)
Definition consumed_in_order (m mx : string) : relation state :=
  fun st st' =>
    folder st' !! m = None /\
    folder st' !! mx = None /\
    exists t1 t2 t3,
      trace st' = (trace st ++ t1 ++ [OpUnlink [m]] ++ t2
                     ++ [OpUnlink [mx]] ++ t3)%list.

(** [name] ends with [post]. *)
Definition ends_with (post name : string) : bool :=
  (String.length post <=? String.length name)%nat
  && String.eqb
       (substring (String.length name - String.length post)
          (String.length post) name) post.

(** For the patterns of [base_name] the glob of the environment matches
    literally: a name that matches [{base_name}_*.{format}] begins with
    [{base_name}_] and ends with [.{format}].  This is what [Path.glob]
    does on a case-sensitive filesystem when [base_name] holds none of the
    characters the pattern language gives a meaning to. *)
Definition literal_glob (E : externals) (base_name : string) : Prop :=
  forall d k,
    in_formats d ->
    glob_match E (variant_pattern base_name d) k = true ->
    String.prefix (base_name ++ "_") k = true /\
    ends_with (String "." d) k = true.

(** From [st] to [st'] the writes into sub-directories were exactly [ws]. *)
Definition writes (ws : list op) : relation state :=
  fun st st' => exists t, trace st' = (trace st ++ t)%list /\ sub_writes t = ws.

(** From [st] to [st'] no regular file appeared in a sub-directory. *)
Definition no_new_variant : relation state :=
  fun st st' => forall d k, has_variant st' d k -> has_variant st d k.

(** The state [s] that the marker blocks of a regeneration from [st] leave
    for the variant generator: the ledger is as in [st] and no variant was
    written, the marker [m] is gone, no regular file of an output directory
    matches the pattern of the old base name, and the regenerated vector
    file [svg'] holds the text [c] (or its name is taken by a directory). *)
Definition regen_ready (E : externals) (st : state) (m svg svg' : string)
    (c : content) (s : state) : Prop :=
  changes_only (fun _ => True) st s /\
  writes [] st s /\
  folder s !! m = None /\
  (forall d k, in_formats d ->
     glob_match E (variant_pattern (stem svg) d) k = true ->
     ~ has_variant s d k) /\
  (folder s !! svg' = Some (File c) \/
   exists kids, folder s !! svg' = Some (Dir kids)).

(** ** A concrete environment, for running the program on examples *)

Module Toy.

(** A pattern with one star, matched literally and case-sensitively. *)
Definition glob1 (pattern name : string) : bool :=
  match String.index 0 "*" pattern with
  | Some i =>
      let pre := substring 0 i pattern in
      let post := substring (S i) (String.length pattern - S i) pattern in
      (String.length pre + String.length post <=? String.length name)%nat
      && String.prefix pre name
      && String.eqb
           (substring (String.length name - String.length post)
              (String.length post) name) post
  | None => String.eqb pattern name
  end.

Definition attrs (markup : content) : option (option string * option string) :=
  if String.eqb markup "<svg width=800px height=800/>" then Some (Some "800px", Some "800")
  else if String.eqb markup "<svg width=500 height=500/>" then Some (Some "500", Some "500")
  else if String.eqb markup "<svg width=800 height=500/>" then Some (Some "800", Some "500")
  else if String.eqb markup "<svg/>" then Some (None, None)
  else None.

Definition number (s : string) : option N :=
  if String.eqb s "800" then Some 800%N
  else if String.eqb s "500" then Some 500%N
  else None.

Definition tag (fmt : codec) : string :=
  match fmt with PNG => "png:" | JPEG => "jpeg:" | ICO => "ico:" end.

Definition encode (fmt : codec) (img : string) : option content :=
  Some (tag fmt ++ img).

(** an encoder that fails on the lossy format *)
Definition encode_no_jpeg (fmt : codec) (img : string) : option content :=
  match fmt with JPEG => None | _ => Some (tag fmt ++ img) end.

Definition env (refuse : op -> bool)
    (encoder : codec -> string -> option content) : externals := {|
  image := string;
  pyfloat := N;
  glob_match := glob1;
  cairosvg_installed := true;
  svg2png := fun markup => Some ("raster:" ++ markup);
  image_open := fun raster => Some raster;
  resize := fun img size => Some (pretty size ++ ":" ++ img);
  mode_rgba := fun _ => true;
  flatten_white := fun img => Some ("white:" ++ img);
  save := encoder;
  root_size_attrs := attrs;
  float_of := number;
  feq800 := N.eqb 800;
  faulty := refuse
|}.

(** nothing is refused *)
Definition calm : externals := env (fun _ => false) encode.

(** the ledger file cannot be written *)
Definition read_only_ledger : externals :=
  env (fun o => bool_decide (o = OpLedgerWrite)) encode.

(** one entry of the folder cannot be deleted *)
Definition undeletable (n : string) : externals :=
  env (fun o => bool_decide (o = OpUnlink [n])) encode.

(** one entry of the folder cannot be read as text *)
Definition unreadable (n : string) : externals :=
  env (fun o => bool_decide (o = OpRead [n])) encode.

(** the lossy encoder raises *)
Definition broken_jpeg : externals := env (fun _ => false) encode_no_jpeg.

Definition good : content := "<svg width=800px height=800/>".
Definition small : content := "<svg width=500 height=500/>".

End Toy.


(** ** Concrete folders *)

Module Examples.

Import Toy.

(** a ledgered folder with a [.updatesvg] marker and an XML file, but no
    vector file *)
Definition marker_no_vector : state :=
  mkState {["foo"]} (Some ["foo"])
    (list_to_map [("redo.updatesvg", File ""); ("foo.xml", File good)]) [].

(** a ledgered folder with its asset pair and no marker *)
Definition converted : state :=
  mkState {["foo"]} (Some ["foo"])
    (list_to_map [("foo.svg", File good); ("foo.xml", File good)]) [].

(** a new folder whose [jpg] entry is a regular file, not a directory *)
Definition jpg_is_a_file : state :=
  mkState ∅ None
    (list_to_map [("foo.svg", File good); ("jpg", File "")]) [].

(** a new folder with a conforming vector file *)
Definition fresh : state :=
  mkState ∅ None (list_to_map [("foo.svg", File good)]) [].

(** an icons root with two new folders *)
Definition two_folders : world :=
  mkWorld ∅ None
    (Some (list_to_map
       [("aaa", RDir (list_to_map [("foo.svg", File good)]));
        ("bbb", RDir (list_to_map [("bar.svg", File good)]))])) [].

(** a converted folder with old variants, a stray file in [png], files
    of another icon, a sub-directory of its own and a note *)
Definition cluttered : state :=
  mkState {["foo"]} (Some ["foo"])
    (list_to_map
       [("foo.svg", File good); ("foo.xml", File good);
        ("redo.updatesvg", File ""); ("notes.txt", File "keep");
        ("png", Dir (list_to_map
           [("foo_64.png", LFile "old"); ("foo_32.png", LFile "old");
            ("bar_64.png", LFile "other"); ("foo_64.jpg", LFile "stray");
            ("foo_dir.png", LDir)]));
        ("thumbs", Dir (list_to_map [("foo_1.png", LFile "mine")]))]) [].

(** a ledgered folder that holds a vector file only, of the wrong size *)
Definition converted_then_edited : state :=
  mkState {["foo"]} (Some ["foo"])
    (list_to_map [("foo.svg", File small)]) [].

(** a new folder that holds an XML file only *)
Definition fresh_xml : state :=
  mkState ∅ None (list_to_map [("foo.xml", File good)]) [].

(** a new folder with a vector file of the wrong size *)
Definition fresh_small : state :=
  mkState ∅ None
    (list_to_map [("foo.svg", File small);
                  ("png", Dir (list_to_map [("foo_64.png", LFile "old")]))]) [].

(** a ledgered folder with both markers, a stale vector file of the wrong
    size and a conforming XML file *)
Definition both_markers : state :=
  mkState {["foo"]} (Some ["foo"])
    (list_to_map
       [("foo.svg", File small); ("foo.xml", File good);
        ("a.updatesvg", File ""); ("b.updatexml", File "");
        ("png", Dir (list_to_map [("foo_32.png", LFile "old")]))]) [].

(** a ledgered folder with both markers and a vector file, but no XML file *)
Definition both_markers_no_xml : state :=
  mkState {["foo"]} (Some ["foo"])
    (list_to_map
       [("foo.svg", File good);
        ("a.updatesvg", File ""); ("b.updatexml", File "")]) [].

(** a ledgered folder with a [.updatesvg] marker, a stale vector file, its
    XML file and an old variant *)
Definition marked : state :=
  mkState {["foo"]} (Some ["foo"])
    (list_to_map
       [("foo.svg", File small); ("foo.xml", File good);
        ("redo.updatesvg", File "");
        ("png", Dir (list_to_map [("foo_32.png", LFile "old")]))]) [].

End Examples.

(** ** The constructor: [_find_icons_folder] and [_load_converted_list] *)

(** *** [_find_icons_folder] *)

(** Where the icons root was found. *)
Inductive found :=
| InParent
| InSame
| InSubdirectory (name : string).

(** [(d / name).is_dir()], for a directory given by its entries and
    whether each is a directory. *)
Definition is_dir (d : gmap string bool) (name : string) : bool :=
  match d !! name with
  | Some true => true
  | _ => false
  end.

(** [parent] lists [exec_path.parent] and [same] lists [exec_path];
    [None] stands for [FileNotFoundError]. *)
Definition _find_icons_folder (parent same : gmap string bool) : option found :=
  if is_dir parent "icons" then Some InParent
  else if is_dir same "icons" then Some InSame
  else
    match filter (fun item => snd item && String.eqb (fst item) "icons" = true)
            (map_to_list same) with
    | item :: _ => Some (InSubdirectory (fst item))
    | [] => None
    end.

(** *** [str.strip] and the lines of a text file *)

(** A string is the UTF-8 encoding of a text.  The characters [str.strip]
    removes are those for which [str.isspace] holds: U+0009 to U+000D,
    U+001C to U+0020, U+0085, U+00A0, U+1680, U+2000 to U+200A, U+2028,
    U+2029, U+202F, U+205F and U+3000; they are encoded on one, two or
    three bytes. *)
Definition space1 (a : ascii) : bool :=
  let n := nat_of_ascii a in
  ((9 <=? n)%nat && (n <=? 13)%nat) || ((28 <=? n)%nat && (n <=? 32)%nat).

Definition space2 (a b : ascii) : bool :=
  (nat_of_ascii a =? 194)%nat &&
  ((nat_of_ascii b =? 133)%nat || (nat_of_ascii b =? 160)%nat).

Definition space3 (a b c : ascii) : bool :=
  let x := nat_of_ascii a in
  let y := nat_of_ascii b in
  let z := nat_of_ascii c in
  ((x =? 225)%nat && (y =? 154)%nat && (z =? 128)%nat) ||
  ((x =? 226)%nat && (y =? 128)%nat &&
   (((128 <=? z)%nat && (z <=? 138)%nat) ||
    (z =? 168)%nat || (z =? 169)%nat || (z =? 175)%nat)) ||
  ((x =? 226)%nat && (y =? 129)%nat && (z =? 159)%nat) ||
  ((x =? 227)%nat && (y =? 128)%nat && (z =? 128)%nat).

(** [str.lstrip], on the bytes of the text *)
Fixpoint lstrip (l : list ascii) : list ascii :=
  match l with
  | [] => []
  | a :: r =>
      if space1 a then lstrip r
      else
        match r with
        | [] => l
        | b :: r2 =>
            if space2 a b then lstrip r2
            else
              match r2 with
              | [] => l
              | c :: r3 => if space3 a b c then lstrip r3 else l
              end
        end
  end.

(** [str.rstrip], on the bytes of the text in reverse order *)
Fixpoint rstrip_reversed (l : list ascii) : list ascii :=
  match l with
  | [] => []
  | c :: r =>
      if space1 c then rstrip_reversed r
      else
        match r with
        | [] => l
        | b :: r2 =>
            if space2 b c then rstrip_reversed r2
            else
              match r2 with
              | [] => l
              | a :: r3 => if space3 a b c then rstrip_reversed r3 else l
              end
        end
  end.

(** [s.strip()] *)
Definition py_strip (s : string) : string :=
  string_of_list_ascii
    (lstrip (rev (rstrip_reversed (rev (list_ascii_of_string s))))).

Definition newline : string := String "010" EmptyString.

(** [for line in f] on a file opened in text mode with universal
    newlines: a line ends after a line feed, a carriage return or a
    carriage return and a line feed, each of which is read as a line
    feed; [cur] holds the characters of the line read so far. *)
Fixpoint text_lines (cur text : string) : list string :=
  match text with
  | EmptyString => if is_empty cur then [] else [cur]
  | String c r =>
      if Ascii.eqb c "010" then (cur ++ newline) :: text_lines "" r
      else if Ascii.eqb c "013" then
        match r with
        | String c2 r2 =>
            if Ascii.eqb c2 "010" then (cur ++ newline) :: text_lines "" r2
            else (cur ++ newline) :: text_lines "" r
        | EmptyString => [cur ++ newline]
        end
      else text_lines (cur ++ String c EmptyString) r
  end.

(** the text [_save_converted_list] writes: [f.write(filename + '\n')]
    for each name *)
Definition ledger_text (lines : list string) : string :=
  fold_right (fun name text => name ++ newline ++ text) "" lines.

(** *** [_load_converted_list] *)

(** [set(line.strip() for line in f if line.strip())] *)
Definition parse_ledger (text : string) : gset string :=
  list_to_set
    (filter (fun line => is_empty line = false)
       (map py_strip (text_lines "" text))).

(** The ledger file is [../.converted], seen from an icon folder. *)
Definition ledger_read : op := OpRead [".."; ".converted"].

Definition _load_converted_list (E : externals) : M unit :=
  fun st =>
    match ledger_file st with
    | Some lines =>
        if faulty E ledger_read then (Raised, st)
        else (Ok tt,
              mkState (parse_ledger (ledger_text lines)) (ledger_file st)
                (folder st) (trace st))
    | None =>
        (Ok tt, mkState ∅ (ledger_file st) (folder st) (trace st))
    end.

(** The name is one line of text. *)
Definition one_line (name : string) : bool :=
  forallb (fun c => negb (Ascii.eqb c "010" || Ascii.eqb c "013"))
    (list_ascii_of_string name).

(** ** The ledger and its file *)

(** The ledger file holds the names of the in-memory ledger and no other;
    a ledger file that does not exist stands for the empty ledger. *)
Definition in_sync (st : state) : Prop :=
  match ledger_file st with
  | Some lines => forall n, n ∈ lines <-> n ∈ converted_files st
  | None => converted_files st = ∅
  end.

(** [s] consists of the characters [p] and [x] only. *)
Fixpoint px_run (s : string) : bool :=
  match s with
  | EmptyString => true
  | String c r => (Ascii.eqb c "p" || Ascii.eqb c "x") && px_run r
  end.

(** ** The entries a folder's processing works on *)

(** A vector file, an XML file, a temporary raster or an output
    directory, by name. *)
Definition own_entry (n : string) : Prop :=
  has_ext ".svg" n = true \/ has_ext ".xml" n = true \/
  (exists base_name, n = temp_name base_name) \/ in_formats n.

(** An update marker, by name. *)
Definition marker_entry (n : string) : Prop :=
  has_ext ".updatesvg" n = true \/ has_ext ".updatexml" n = true.

(** ** More environments and folders *)

Module Samples.

Import Toy.

(** the environment of a machine on which cairosvg is not installed *)
Definition no_cairosvg : externals := {|
  image := string;
  pyfloat := N;
  glob_match := glob1;
  cairosvg_installed := false;
  svg2png := fun markup => Some ("raster:" ++ markup);
  image_open := fun raster => Some raster;
  resize := fun img size => Some (pretty size ++ ":" ++ img);
  mode_rgba := fun _ => true;
  flatten_white := fun img => Some ("white:" ++ img);
  save := encode;
  root_size_attrs := attrs;
  float_of := number;
  feq800 := N.eqb 800;
  faulty := fun _ => false
|}.

(** a new folder into which a marker was dropped *)
Definition dropped_in : state :=
  mkState {["bar"]} (Some ["bar"])
    (list_to_map [("foo.svg", File good); ("redo.updatesvg", File "")]) [].

(** a new folder that holds a note only *)
Definition no_sources : state :=
  mkState ∅ None (list_to_map [("notes.txt", File "todo")]) [].

(** an icons root whose two folders are converted and hold no marker,
    beside a stray file *)
Definition all_converted : world :=
  mkWorld {["aaa"; "bbb"]} (Some ["aaa"; "bbb"])
    (Some (list_to_map
       [("aaa", RDir (list_to_map [("foo.svg", File good)]));
        ("bbb", RDir (list_to_map [("bar.svg", File small)]));
        ("README.md", RFile)])) [].

(** a ledgered folder with a [.updatesvg] marker, a stale vector file, an
    XML file of the wrong size and an old variant *)
Definition marked_small : state :=
  mkState {["foo"]} (Some ["foo"])
    (list_to_map
       [("foo.svg", File good); ("foo.xml", File small);
        ("redo.updatesvg", File "");
        ("png", Dir (list_to_map [("foo_32.png", LFile "old")]))]) [].

(** a converter with two names in its ledger and no ledger file yet *)
Definition two_names : state :=
  mkState ({["my icon"]} ∪ {["logo"]}) None ∅ [].

(** an icons root that holds files only *)
Definition no_folders : world :=
  mkWorld ∅ None (Some (list_to_map [("README.md", RFile)])) [].

(** a ledgered folder that holds the two markers and nothing else *)
Definition markers_only : state :=
  mkState {["foo"]} (Some ["foo"])
    (list_to_map [("a.updatesvg", File ""); ("b.updatexml", File "")]) [].

(** a ledgered folder with both markers and an XML file, but no vector
    file *)
Definition both_markers_no_svg : state :=
  mkState {["foo"]} (Some ["foo"])
    (list_to_map
       [("foo.xml", File good);
        ("a.updatesvg", File ""); ("b.updatexml", File "")]) [].

(** a ledgered folder that holds two icons, [foo] and [foo_bar], a marker
    and the variants of both *)
Definition two_icons : state :=
  mkState {["foo"]} (Some ["foo"])
    (list_to_map
       [("foo.svg", File good); ("foo.xml", File good);
        ("foo_bar.svg", File good); ("redo.updatesvg", File "");
        ("png", Dir (list_to_map
           [("foo_64.png", LFile "old");
            ("foo_bar_64.png", LFile "sibling");
            ("foobar_64.png", LFile "other");
            ("foo_64.jpg", LFile "stray")]))]) [].

End Samples.
(** ** Facts about path names *)

Section PathFacts.

Lemma eqb_true (a b : string) : String.eqb a b = true <-> a = b.
Proof. apply String.eqb_eq. Qed.

(** An entry name has at most one extension. *)
Lemma has_ext_functional (e1 e2 name : string) :
  has_ext e1 name = true -> has_ext e2 name = true -> e1 = e2.
Proof.
  unfold has_ext. rewrite !eqb_true. congruence.
Qed.

Lemma has_ext_other (e1 e2 name : string) :
  e1 <> e2 -> has_ext e1 name = true -> has_ext e2 name = false.
Proof.
  intros Hne H1. destruct (has_ext e2 name) eqn:H2; [|done].
  destruct Hne. eapply has_ext_functional; eauto.
Qed.

Lemma append_cons c (s t : string) : String c s ++ t = String c (s ++ t).
Proof. reflexivity. Qed.

Lemma append_nil (t : string) : "" ++ t = t.
Proof. reflexivity. Qed.

Lemma append_empty_r (s : string) : s ++ "" = s.
Proof. induction s as [|c s IH]; [done|]. by rewrite append_cons, IH. Qed.

Lemma rsplit_dot_join name b a :
  rsplit_dot name = Some (b, a) -> name = b ++ String "." a.
Proof.
  revert b. induction name as [|c r IH]; intros b; simpl; [done|].
  destruct (rsplit_dot r) as [[b' a']|].
  - intros [= <- <-]. rewrite append_cons. f_equal. by apply IH.
  - destruct (Ascii.eqb c ".") eqn:Hc; [|done].
    apply Ascii.eqb_eq in Hc as ->. by intros [= <- <-].
Qed.

Lemma rsplit_dot_app s a :
  rsplit_dot a = None -> rsplit_dot (s ++ String "." a) = Some (s, a).
Proof.
  intros Ha. induction s as [|c r IH].
  - rewrite append_nil. simpl. by rewrite Ha.
  - rewrite append_cons. simpl. by rewrite IH.
Qed.

(** A name is its stem followed by its suffix. *)
Lemma stem_suffix name : name = stem name ++ suffix name.
Proof.
  unfold stem, suffix.
  destruct (rsplit_dot name) as [[b a]|] eqn:H.
  - destruct (negb (is_empty b) && negb (is_empty a)).
    + by apply rsplit_dot_join.
    + by rewrite append_empty_r.
  - by rewrite append_empty_r.
Qed.

Lemma suffix_nonempty_stem name :
  suffix name <> "" -> stem name <> "".
Proof.
  unfold stem, suffix.
  destruct (rsplit_dot name) as [[b a]|]; [|done].
  destruct b, a; simpl; intros H; solve [by destruct H | done].
Qed.

Lemma has_ext_stem_nonempty ext name :
  ext <> "" -> has_ext ext name = true -> stem name <> "".
Proof.
  unfold has_ext. rewrite eqb_true. intros Hext Hn.
  apply suffix_nonempty_stem. intros Hs. rewrite Hs in Hn. simpl in Hn.
  congruence.
Qed.

(** The name built from a non-empty stem and an extension without dots. *)
Lemma suffix_join s a :
  rsplit_dot a = None -> a <> "" -> s <> "" ->
  suffix (s ++ String "." a) = String "." a /\ stem (s ++ String "." a) = s.
Proof.
  intros Ha Hne Hs. unfold suffix, stem. rewrite rsplit_dot_app by done.
  destruct s; [done|]. destruct a; [done|]. done.
Qed.

Lemma has_ext_join s a :
  rsplit_dot a = None -> a <> "" -> s <> "" ->
  has_ext (lower (String "." a)) (s ++ String "." a) = true.
Proof.
  intros Ha Hne Hs. unfold has_ext.
  rewrite (proj1 (suffix_join s a Ha Hne Hs)). apply String.eqb_refl.
Qed.

(** Two names with different extensions are different names. *)
Lemma has_ext_ne e1 e2 n1 n2 :
  has_ext e1 n1 = true -> has_ext e2 n2 = true -> e1 <> e2 -> n1 <> n2.
Proof.
  intros H1 H2 Hne ->. apply Hne. eapply has_ext_functional; eauto.
Qed.

Lemma has_ext_format n : n ∈ OUTPUT_FORMATS -> has_ext "" n = true.
Proof.
  unfold OUTPUT_FORMATS. rewrite list_elem_of_In. simpl.
  intros [<-|[<-|[<-|[]]]]; reflexivity.
Qed.

Lemma append_assoc (s t u : string) : (s ++ t) ++ u = s ++ t ++ u.
Proof.
  induction s as [|c s IH]; [done|]. by rewrite !append_cons, IH.
Qed.

Lemma has_ext_temp base : has_ext ".png" (temp_name base) = true.
Proof.
  unfold temp_name. rewrite <- append_assoc.
  by apply (has_ext_join ("_temp_" ++ base) "png").
Qed.

Lemma has_ext_xml_of s : s <> "" -> has_ext ".xml" (s ++ ".xml") = true.
Proof. intros Hs. by apply (has_ext_join s "xml"). Qed.

Lemma has_ext_svg_of s : s <> "" -> has_ext ".svg" (s ++ ".svg") = true.
Proof. intros Hs. by apply (has_ext_join s "svg"). Qed.

Lemma stem_svg_of s : s <> "" -> stem (s ++ ".svg") = s.
Proof. intros Hs. by apply (suffix_join s "svg"). Qed.

Lemma stem_xml_of s : s <> "" -> stem (s ++ ".xml") = s.
Proof. intros Hs. by apply (suffix_join s "xml"). Qed.

End PathFacts.

(** ** Facts about the directory scans *)

Section Scans.

Implicit Types (d : gmap string node) (l : list (string * node)).

Lemma pick_None p l acc :
  pick p l acc = None <-> acc = None /\ Forall (fun x => p x = false) l.
Proof.
  revert acc. induction l as [|x l IH]; intros acc; simpl.
  - split; [intros ->; split; [done|constructor] | by intros [-> _]].
  - unfold pick in *. rewrite IH. destruct (p x) eqn:Hp.
    + split; [by intros [? _] | intros [_ HF]].
      inversion HF; subst. congruence.
    + split; intros [-> HF]; split; try done.
      * by constructor.
      * by inversion HF.
Qed.

Lemma pick_Some p l acc name :
  pick p l acc = Some name ->
  acc = Some name \/ exists x, x ∈ l /\ p x = true /\ fst x = name.
Proof.
  revert acc. induction l as [|x l IH]; intros acc; simpl; [by left|].
  intros H. apply IH in H as [H | (y & Hy & Hp & Hn)].
  - destruct (p x) eqn:Hp; [|by left].
    right. exists x. split; [left|]. split; congruence.
  - right. exists y. split; [by right|done].
Qed.

Lemma scan_markers_fst_pick l a b :
  fst (fold_left
    (fun acc file =>
       if is_file (snd file) && has_ext ".updatesvg" (fst file)
       then (Some (fst file), snd acc)
       else if is_file (snd file) && has_ext ".updatexml" (fst file)
       then (fst acc, Some (fst file))
       else acc) l (a, b)) = pick (file_with ".updatesvg") l a.
Proof.
  revert a b. induction l as [|x l IH]; intros a b; simpl; [done|].
  unfold file_with at 2.
  destruct (is_file x.2 && has_ext ".updatesvg" x.1); simpl; [apply IH|].
  destruct (is_file x.2 && has_ext ".updatexml" x.1); apply IH.
Qed.

Lemma scan_markers_snd_pick l a b :
  snd (fold_left
    (fun acc file =>
       if is_file (snd file) && has_ext ".updatesvg" (fst file)
       then (Some (fst file), snd acc)
       else if is_file (snd file) && has_ext ".updatexml" (fst file)
       then (fst acc, Some (fst file))
       else acc) l (a, b)) = pick (file_with ".updatexml") l b.
Proof.
  revert a b. induction l as [|x l IH]; intros a b; simpl; [done|].
  unfold file_with at 2.
  destruct (is_file x.2) eqn:Hf; simpl; [|apply IH].
  destruct (has_ext ".updatesvg" x.1) eqn:H1; simpl.
  - rewrite (has_ext_other ".updatesvg" ".updatexml") by done. apply IH.
  - destruct (has_ext ".updatexml" x.1); apply IH.
Qed.

Lemma scan_sources_fst_pick l a b :
  fst (fold_left
    (fun acc file =>
       if is_file (snd file) then
         if has_ext ".svg" (fst file) then (Some (fst file), snd acc)
         else if has_ext ".xml" (fst file) then (fst acc, Some (fst file))
         else acc
       else acc) l (a, b)) = pick (file_with ".svg") l a.
Proof.
  revert a b. induction l as [|x l IH]; intros a b; simpl; [done|].
  unfold file_with at 2.
  destruct (is_file x.2); simpl; [|apply IH].
  destruct (has_ext ".svg" x.1); simpl; [apply IH|].
  destruct (has_ext ".xml" x.1); apply IH.
Qed.

Lemma scan_sources_snd_pick l a b :
  snd (fold_left
    (fun acc file =>
       if is_file (snd file) then
         if has_ext ".svg" (fst file) then (Some (fst file), snd acc)
         else if has_ext ".xml" (fst file) then (fst acc, Some (fst file))
         else acc
       else acc) l (a, b)) = pick (file_with ".xml") l b.
Proof.
  revert a b. induction l as [|x l IH]; intros a b; simpl; [done|].
  unfold file_with at 2.
  destruct (is_file x.2); simpl; [|apply IH].
  destruct (has_ext ".svg" x.1) eqn:H1; simpl.
  - rewrite (has_ext_other ".svg" ".xml") by done. apply IH.
  - destruct (has_ext ".xml" x.1); apply IH.
Qed.

(** What a scan of the whole folder finds. *)
Lemma pick_listing_None ext d :
  pick (file_with ext) (listing d) None = None <-> no_file ext d.
Proof.
  rewrite pick_None, Forall_forall. unfold no_file, listing, file_with.
  split.
  - intros [_ H] name c Hin.
    specialize (H (name, File c)). simpl in H. apply H.
    by apply elem_of_map_to_list.
  - intros H. split; [done|]. intros [name [c|kids]] Hin; simpl; [|done].
    apply elem_of_map_to_list in Hin. eauto.
Qed.

Lemma pick_listing_Some ext d name :
  pick (file_with ext) (listing d) None = Some name ->
  exists c, d !! name = Some (File c) /\ has_ext ext name = true.
Proof.
  intros H. apply pick_Some in H as [H | ([n e] & Hin & Hp & Hn)]; [done|].
  simpl in Hn. subst n. unfold file_with in Hp. simpl in Hp.
  apply andb_true_iff in Hp as [Hf He].
  apply elem_of_map_to_list in Hin.
  destruct e; [eauto | done].
Qed.

Lemma pick_listing_has ext d :
  has_file ext d -> exists name, pick (file_with ext) (listing d) None = Some name.
Proof.
  intros (n & c & Hn & He).
  destruct (pick (file_with ext) (listing d) None) as [m|] eqn:Hp; [eauto|].
  apply pick_listing_None in Hp. rewrite (Hp n c Hn) in He. done.
Qed.

Lemma update_svg_file_pick d :
  fst (scan_markers d) = pick (file_with ".updatesvg") (listing d) None.
Proof. apply scan_markers_fst_pick. Qed.

Lemma update_xml_file_pick d :
  snd (scan_markers d) = pick (file_with ".updatexml") (listing d) None.
Proof. apply scan_markers_snd_pick. Qed.

Lemma svg_file_pick d :
  fst (scan_sources d) = pick (file_with ".svg") (listing d) None.
Proof. apply scan_sources_fst_pick. Qed.

Lemma xml_file_pick d :
  snd (scan_sources d) = pick (file_with ".xml") (listing d) None.
Proof. apply scan_sources_snd_pick. Qed.

End Scans.

(** ** Facts about the monad and the operating-system calls *)

Section MonadFacts.

Context (E : externals).

Lemma bind_Ok {A B} (m : M A) (k : A -> M B) st a st1 :
  m st = (Ok a, st1) -> bind m k st = k a st1.
Proof. unfold bind. by intros ->. Qed.

Lemma bind_Raised {A B} (m : M A) (k : A -> M B) st st1 :
  m st = (Raised, st1) -> bind m k st = (Raised, st1).
Proof. unfold bind. by intros ->. Qed.

Lemma bind_Ok_inv {A B} (m : M A) (k : A -> M B) st b st2 :
  bind m k st = (Ok b, st2) ->
  exists a st1, m st = (Ok a, st1) /\ k a st1 = (Ok b, st2).
Proof.
  unfold bind. destruct (m st) as [[a|] st1]; [eauto | done].
Qed.

Lemma catch_Ok_inv {A} (m h : M A) st a st2 :
  catch m h st = (Ok a, st2) ->
  m st = (Ok a, st2) \/ exists st1, m st = (Raised, st1) /\ h st1 = (Ok a, st2).
Proof.
  unfold catch. destruct (m st) as [[a'|] st1]; [by left | eauto].
Qed.

Lemma safe_ret {A} (a : A) : safe (ret a).
Proof. intros st. by exists a. Qed.

Lemma safe_gets {A} (f : state -> A) : safe (gets f).
Proof. intros st. by exists (f st). Qed.

Lemma safe_bind {A B} (m : M A) (k : A -> M B) :
  safe m -> (forall a, safe (k a)) -> safe (bind m k).
Proof.
  intros Hm Hk st. unfold bind.
  destruct (Hm st) as [a Ha]. destruct (m st) as [[a'|] st1]; [|done].
  apply Hk.
Qed.

Lemma safe_catch {A} (m h : M A) : safe h -> safe (catch m h).
Proof.
  intros Hh st. unfold catch.
  destruct (m st) as [[a|] st1]; [by exists a | apply Hh].
Qed.

Lemma safe_attempt (m : M unit) : safe (attempt m).
Proof. apply safe_catch, safe_ret. Qed.

Lemma safe_for_each {A} (l : list A) (body : A -> M unit) :
  (forall x, safe (body x)) -> safe (for_each l body).
Proof.
  intros Hb. induction l as [|x l IH]; simpl; [apply safe_ret|].
  apply safe_bind; [apply Hb | intros _; apply IH].
Qed.

Lemma safe_run {A} (m : M A) st :
  safe m -> exists a, m st = (Ok a, snd (m st)).
Proof.
  intros Hm. destruct (Hm st) as [a Ha]. exists a.
  destruct (m st); simpl in *; congruence.
Qed.

Lemma safe_run_unit (m : M unit) st : safe m -> m st = (Ok tt, snd (m st)).
Proof. intros Hm. destruct (safe_run m st Hm) as [[] H]. done. Qed.

Lemma safe_delete_in base_name format_dir : safe (delete_in E base_name format_dir).
Proof.
  unfold delete_in. apply safe_bind; [apply safe_gets|].
  intros [[c|kids]|]; try apply safe_ret.
  apply safe_for_each. intros x. apply safe_attempt.
Qed.

Lemma safe_delete_converted_files base_name :
  safe (_delete_converted_files E base_name).
Proof. apply safe_for_each. intros x. apply safe_delete_in. Qed.

Lemma safe_invalidate source marker : safe (invalidate E source marker).
Proof.
  unfold invalidate. apply safe_bind; [apply safe_delete_converted_files|].
  intros _. apply safe_bind; intros; apply safe_attempt.
Qed.

(** *** The body of [process_icon_folder], one block at a time *)

Lemma process_icon_folder_unfold name st :
  process_icon_folder E name st =
    match
      (if is_Some_b (fst (scan_markers (folder st)))
          || is_Some_b (snd (scan_markers (folder st)))
       then marker_processing E name (fst (scan_markers (folder st)))
              (snd (scan_markers (folder st))) st
       else (Ok (Continue tt), st))
    with
    | (Ok (Return b), st1) => (Ok b, st1)
    | (Ok (Continue _), st1) => normal_processing E name st1
    | (Raised, st1) => (Raised, st1)
    end.
Proof.
  unfold process_icon_folder, bind, gets, ret.
  destruct (is_Some_b _ || is_Some_b _); [|done].
  destruct (marker_processing _ _ _ _ _) as [[[b|[]]|] st1]; done.
Qed.

Lemma normal_processing_ledgered name st :
  name ∈ converted_files st -> normal_processing E name st = (Ok true, st).
Proof.
  intros H. unfold normal_processing, bind, gets, ret.
  by rewrite bool_decide_eq_true_2.
Qed.

(** lines 276-364 for a ledgered folder *)
Lemma marker_processing_ledgered name usf uxf st :
  name ∈ converted_files st ->
  marker_processing E name usf uxf st =
    (let svg_file := fst (scan_sources (folder st)) in
     let xml_file := snd (scan_sources (folder st)) in
     let* after_svg :=
       match usf, svg_file with
       | Some marker, Some svg => handle_updatesvg E marker svg xml_file
       | _, _ => ret (Continue svg_file)
       end in
     match after_svg with
     | Return b => ret (Return b)
     | Continue svg_file =>
         let* after_xml :=
           match uxf, xml_file with
           | Some marker, Some xml => handle_updatexml E marker xml svg_file
           | _, _ => ret (Continue tt)
           end in
         match after_xml with
         | Return b => ret (Return b)
         | Continue _ => regenerate E name svg_file
         end
     end) st.
Proof.
  intros H. unfold marker_processing at 1. unfold bind at 1, gets at 1.
  rewrite bool_decide_eq_true_2 by done. simpl. reflexivity.
Qed.

Lemma marker_processing_unledgered name usf uxf st :
  name ∉ converted_files st ->
  marker_processing E name usf uxf st = (Ok (Return true), st).
Proof.
  intros H. unfold marker_processing, bind, gets, ret.
  by rewrite bool_decide_eq_false_2.
Qed.

Lemma handle_updatexml_no_vector marker xml st :
  handle_updatexml E marker xml None st
    = (Ok (Return false), snd (invalidate E xml marker st)).
Proof.
  unfold handle_updatexml.
  by rewrite (bind_Ok _ _ _ _ _ (safe_run_unit _ st (safe_invalidate xml marker))).
Qed.

(** lines 366-410 for a folder that is not in the ledger *)
Lemma normal_processing_new name st :
  name ∉ converted_files st ->
  normal_processing E name st =
    match sync_asset_pair E st with
    | (Ok (Return b), st1) => (Ok b, st1)
    | (Ok (Continue svg), st1) => convert_new E name svg st1
    | (Raised, st1) => (Raised, st1)
    end.
Proof.
  intros H. unfold normal_processing, bind, gets, ret.
  rewrite bool_decide_eq_false_2 by done.
  destruct (sync_asset_pair E st) as [[[b|svg]|] st1]; done.
Qed.

Lemma safe_svg_to_xml svg : safe (_svg_to_xml E svg).
Proof. apply safe_catch, safe_ret. Qed.

Lemma safe_xml_to_svg xml : safe (_xml_to_svg E xml).
Proof. apply safe_catch, safe_ret. Qed.

Lemma sync_asset_pair_eq st :
  sync_asset_pair E st =
    match fst (scan_sources (folder st)), snd (scan_sources (folder st)) with
    | None, None => (Ok (Return false), st)
    | Some svg, None => (Ok (Continue svg), snd (_svg_to_xml E svg st))
    | None, Some xml =>
        (Ok (Continue (stem xml ++ ".svg")), snd (_xml_to_svg E xml st))
    | Some svg, Some _ => (Ok (Continue svg), st)
    end.
Proof.
  unfold sync_asset_pair, bind at 1, gets at 1.
  destruct (fst (scan_sources (folder st))) as [svg|],
    (snd (scan_sources (folder st))) as [xml|]; try done.
  - destruct (safe_run _ st (safe_svg_to_xml svg)) as [b Hb].
    by rewrite (bind_Ok _ _ _ _ _ Hb).
  - destruct (safe_run _ st (safe_xml_to_svg xml)) as [b Hb].
    by rewrite (bind_Ok _ _ _ _ _ Hb).
Qed.

End MonadFacts.

(** ** Facts about [run] *)

Section RunFacts.

Context (E : externals).

Lemma run_loop_app pre rest successful failed w :
  run_loop E (pre ++ rest) successful failed w =
    match run_loop E pre successful failed w with
    | (Ok (s1, f1), w1) => run_loop E rest s1 f1 w1
    | (Raised, w1) => (Raised, w1)
    end.
Proof.
  revert successful failed w.
  induction pre as [|x pre IH]; intros successful failed w; simpl; [done|].
  destruct (process_in E x w) as [[[]|] w1]; auto.
Qed.

Lemma process_in_folder name w d :
  icon_folder w name = Some (RDir d) ->
  process_in E name w =
    (fst (process_icon_folder E name (enter w d)),
     mkWorld (converted_files (snd (process_icon_folder E name (enter w d))))
       (ledger_file (snd (process_icon_folder E name (enter w d))))
       (Some (<[name := RDir (folder (snd (process_icon_folder E name (enter w d))))]>
                (default ∅ (w_icons w))))
       (w_trace w ++ map (pair name)
          (trace (snd (process_icon_folder E name (enter w d)))))).
Proof.
  unfold icon_folder, process_in. destruct (w_icons w) as [icons|]; [|done].
  by intros ->.
Qed.

End RunFacts.

(** ** Frame conditions: what each operation may change *)

Section Frames.

Context (E : externals).

Global Instance changes_only_preorder touched : PreOrder (changes_only touched).
Proof.
  split.
  - intros st. split; [done|]. split; [done|]. split; [done|].
    exists []. rewrite app_nil_r. split; [done|]. apply not_elem_of_nil.
  - intros st1 st2 st3 (Hc1 & Hl1 & Hf1 & l1 & Ht1 & Hn1)
      (Hc2 & Hl2 & Hf2 & l2 & Ht2 & Hn2).
    split; [congruence|]. split; [congruence|]. split.
    + intros n Hn. rewrite Hf2, Hf1; done.
    + exists (l1 ++ l2)%list. rewrite Ht2, Ht1, app_assoc. split; [done|].
      rewrite elem_of_app. tauto.
Qed.

Lemma changes_only_mono (P Q : string -> Prop) st st' :
  (forall n, P n -> Q n) -> changes_only P st st' -> changes_only Q st st'.
Proof.
  intros HPQ (Hc & Hl & Hf & Ht).
  split; [done|]. split; [done|]. split; [|done].
  intros n Hn. apply Hf. intros HP. apply Hn, HPQ, HP.
Qed.

Section Generic.

Context (R : relation state) `{!PreOrder R}.

Lemma preserves_ret {A} (a : A) : preserves R (ret a).
Proof. intros st. simpl. reflexivity. Qed.

Lemma preserves_raise {A} : preserves R (@raise A).
Proof. intros st. simpl. reflexivity. Qed.

Lemma preserves_gets {A} (f : state -> A) : preserves R (gets f).
Proof. intros st. simpl. reflexivity. Qed.

Lemma preserves_of_option {A} (o : option A) : preserves R (of_option o).
Proof. destruct o; [apply preserves_ret | apply preserves_raise]. Qed.

Lemma preserves_bind {A B} (m : M A) (k : A -> M B) :
  preserves R m -> (forall a, preserves R (k a)) -> preserves R (bind m k).
Proof.
  intros Hm Hk st. unfold bind. specialize (Hm st).
  destruct (m st) as [[a|] st1]; simpl in *; [|done].
  etransitivity; [exact Hm | apply Hk].
Qed.

Lemma preserves_catch {A} (m h : M A) :
  preserves R m -> preserves R h -> preserves R (catch m h).
Proof.
  intros Hm Hh st. unfold catch. specialize (Hm st).
  destruct (m st) as [[a|] st1]; simpl in *; [done|].
  etransitivity; [exact Hm | apply Hh].
Qed.

Lemma preserves_attempt (m : M unit) : preserves R m -> preserves R (attempt m).
Proof. intros Hm. apply preserves_catch; [done | apply preserves_ret]. Qed.

Lemma preserves_for_each {A} (l : list A) (body : A -> M unit) :
  (forall x, preserves R (body x)) -> preserves R (for_each l body).
Proof.
  intros Hb. induction l as [|x l IH]; simpl; [apply preserves_ret|].
  apply preserves_bind; [apply Hb | intros _; apply IH].
Qed.

Lemma preserves_for_each_in {A} (l : list A) (body : A -> M unit) :
  (forall x, x ∈ l -> preserves R (body x)) -> preserves R (for_each l body).
Proof.
  induction l as [|x l IH]; intros Hb; simpl; [apply preserves_ret|].
  apply preserves_bind; [apply Hb; left | intros _; apply IH].
  intros y Hy. apply Hb. by right.
Qed.

Lemma preserves_if {A} (b : bool) (m1 m2 : M A) :
  preserves R m1 -> preserves R m2 -> preserves R (if b then m1 else m2).
Proof. by destruct b. Qed.

End Generic.

Lemma preserves_mono {A} (P Q : string -> Prop) (m : M A) :
  (forall n, P n -> Q n) ->
  preserves (changes_only P) m -> preserves (changes_only Q) m.
Proof. intros HPQ Hm st. eapply changes_only_mono; [exact HPQ | apply Hm]. Qed.

(** *** The operating-system calls *)

Lemma changes_only_log o d st (touched : string -> Prop) :
  o <> OpLedgerWrite ->
  (forall n, ~ touched n -> d !! n = folder st !! n) ->
  changes_only touched st (log_op o (set_folder d st)).
Proof.
  intros Ho H. split; [done|]. split; [done|]. split; [done|].
  exists [o]. split; [done|]. rewrite list_elem_of_singleton. congruence.
Qed.

Lemma fs_read_changes n : preserves (changes_only (fun _ => False)) (fs_read E n).
Proof.
  intros st. unfold fs_read.
  destruct (folder st !! n) as [[c|kids]|]; try reflexivity.
  destruct (faulty E _); reflexivity.
Qed.

Lemma fs_write_changes n c : preserves (changes_only (eq n)) (fs_write E n c).
Proof.
  intros st. unfold fs_write.
  assert (changes_only (eq n) st
            (log_op (OpWrite [n]) (set_folder (<[n:=File c]> (folder st)) st))).
  { apply changes_only_log; [done|]. intros m Hm. by rewrite lookup_insert_ne. }
  destruct (folder st !! n) as [[c'|kids]|]; try reflexivity;
    destruct (faulty E _); simpl; done || reflexivity.
Qed.

Lemma fs_unlink_changes n : preserves (changes_only (eq n)) (fs_unlink E n).
Proof.
  intros st. unfold fs_unlink.
  destruct (folder st !! n) as [[c'|kids]|]; try reflexivity.
  destruct (faulty E _); simpl; [reflexivity|].
  apply changes_only_log; [done|]. intros m Hm. by rewrite lookup_delete_ne.
Qed.

Lemma mkdir_exist_ok_changes d : preserves (changes_only (eq d)) (mkdir_exist_ok E d).
Proof.
  intros st. unfold mkdir_exist_ok.
  destruct (folder st !! d) as [[c'|kids]|]; try reflexivity.
  destruct (faulty E _); simpl; [reflexivity|].
  apply changes_only_log; [done|]. intros m Hm. by rewrite lookup_insert_ne.
Qed.

Lemma sub_write_changes d n c : preserves (changes_only (eq d)) (sub_write E d n c).
Proof.
  intros st. unfold sub_write.
  destruct (folder st !! d) as [[c'|kids]|]; try reflexivity.
  destruct (kids !! n) as [[c'|]|]; try reflexivity;
    (destruct (faulty E _); simpl; [reflexivity|]);
    (apply changes_only_log; [done|]); intros m Hm; by rewrite lookup_insert_ne.
Qed.

Lemma sub_unlink_changes d n : preserves (changes_only (eq d)) (sub_unlink E d n).
Proof.
  intros st. unfold sub_unlink.
  destruct (folder st !! d) as [[c'|kids]|]; try reflexivity.
  destruct (kids !! n) as [[c'|]|]; try reflexivity.
  destruct (faulty E _); simpl; [reflexivity|].
  apply changes_only_log; [done|]; intros m Hm; by rewrite lookup_insert_ne.
Qed.

Lemma path_exists_changes (P : string -> Prop) n :
  preserves (changes_only P) (path_exists n).
Proof. apply preserves_gets, _. Qed.

(** *** The methods of [IconConverter] *)

Lemma check_svg_size_state svg st :
  exists b, _check_svg_size E svg st = (Ok b, st).
Proof.
  unfold _check_svg_size, catch, bind, fs_read, of_option, ret, raise.
  destruct (folder st !! svg) as [[c|kids]|]; eauto.
  destruct (faulty E _); eauto.
  destruct (root_size_attrs E c); eauto.
Qed.

Lemma check_svg_size_true svg st :
  fst (_check_svg_size E svg st) = Ok true ->
  exists c, folder st !! svg = Some (File c) /\
            _check_svg_size E svg st = (Ok true, st).
Proof.
  unfold _check_svg_size, catch, bind, fs_read, of_option, ret, raise.
  destruct (folder st !! svg) as [[c|kids]|]; simpl; try done.
  destruct (faulty E _); simpl; try done.
  destruct (root_size_attrs E c); simpl; try done.
  intros [= ->]. eauto.
Qed.

Lemma svg_to_png_changes src out :
  preserves (changes_only (eq out)) (_svg_to_png E src out).
Proof.
  unfold _svg_to_png. apply preserves_catch; try apply _; [|apply preserves_ret, _].
  apply preserves_if; try apply _; [apply preserves_ret, _|].
  apply preserves_bind; try apply _.
  { eapply preserves_mono; [|apply fs_read_changes]. done. }
  intros markup. apply preserves_bind; try apply _; [apply preserves_of_option, _|].
  intros raster. apply preserves_bind; try apply _; [apply fs_write_changes|].
  intros _. apply preserves_ret, _.
Qed.

Lemma svg_to_xml_changes svg :
  preserves (changes_only (eq (stem svg ++ ".xml"))) (_svg_to_xml E svg).
Proof.
  unfold _svg_to_xml. apply preserves_catch; try apply _; [|apply preserves_ret, _].
  apply preserves_bind; try apply _.
  { eapply preserves_mono; [|apply fs_read_changes]. done. }
  intros c. apply preserves_bind; try apply _; [apply fs_write_changes|].
  intros _. apply preserves_ret, _.
Qed.

Lemma xml_to_svg_changes xml :
  preserves (changes_only (eq (stem xml ++ ".svg"))) (_xml_to_svg E xml).
Proof.
  unfold _xml_to_svg. apply preserves_catch; try apply _; [|apply preserves_ret, _].
  apply preserves_bind; try apply _.
  { eapply preserves_mono; [|apply fs_read_changes]. done. }
  intros c. apply preserves_bind; try apply _; [apply fs_write_changes|].
  intros _. apply preserves_ret, _.
Qed.

Lemma save_as_changes d name fmt img :
  preserves (changes_only (eq d)) (save_as E d name fmt img).
Proof.
  unfold save_as. apply preserves_bind; try apply _; [apply preserves_of_option, _|].
  intros bytes. apply sub_write_changes.
Qed.

Lemma create_size_changes base img size :
  preserves (changes_only in_formats) (create_size E base img size).
Proof.
  assert (Hin : forall d, d ∈ OUTPUT_FORMATS -> forall n, d = n -> in_formats n)
    by (by intros d Hd n <-).
  assert (Hpng : "png" ∈ OUTPUT_FORMATS) by (apply list_elem_of_In; simpl; tauto).
  assert (Hjpg : "jpg" ∈ OUTPUT_FORMATS) by (apply list_elem_of_In; simpl; tauto).
  assert (Hico : "ico" ∈ OUTPUT_FORMATS) by (apply list_elem_of_In; simpl; tauto).
  unfold create_size.
  apply preserves_bind; try apply _; [apply preserves_of_option, _|]. intros resized.
  apply preserves_bind; try apply _.
  { eapply preserves_mono; [apply (Hin _ Hpng)|apply mkdir_exist_ok_changes]. }
  intros _. apply preserves_bind; try apply _.
  { eapply preserves_mono; [apply (Hin _ Hpng)|apply save_as_changes]. }
  intros _. apply preserves_bind; try apply _.
  { eapply preserves_mono; [apply (Hin _ Hjpg)|apply mkdir_exist_ok_changes]. }
  intros _. apply preserves_bind; try apply _.
  { apply preserves_if; try apply _.
    - apply preserves_bind; try apply _; [apply preserves_of_option, _|]. intros bg.
      eapply preserves_mono; [apply (Hin _ Hjpg)|apply save_as_changes].
    - eapply preserves_mono; [apply (Hin _ Hjpg)|apply save_as_changes]. }
  intros _. apply preserves_bind; try apply _.
  { eapply preserves_mono; [apply (Hin _ Hico)|apply mkdir_exist_ok_changes]. }
  intros _. eapply preserves_mono; [apply (Hin _ Hico)|apply save_as_changes].
Qed.

Lemma create_variants_changes src base :
  preserves (changes_only (fun n => n = temp_name base \/ in_formats n))
    (_create_variants E src base).
Proof.
  unfold _create_variants.
  apply preserves_catch; try apply _; [|apply preserves_ret, _].
  apply preserves_if; try apply _; [|apply preserves_ret, _].
  apply preserves_bind; try apply _.
  { eapply preserves_mono; [|apply svg_to_png_changes]. intros n <-. by left. }
  intros rendered. apply preserves_if; try apply _; [apply preserves_ret, _|].
  apply preserves_bind; try apply _; [apply path_exists_changes|].
  intros present. apply preserves_if; try apply _; [apply preserves_ret, _|].
  apply preserves_bind; try apply _.
  { eapply preserves_mono; [|apply fs_read_changes]. done. }
  intros raster. apply preserves_bind; try apply _; [apply preserves_of_option, _|].
  intros img. apply preserves_bind; try apply _.
  { apply preserves_for_each; try apply _. intros size.
    eapply preserves_mono; [|apply create_size_changes]. intros n Hn. by right. }
  intros _. apply preserves_bind; try apply _; [apply path_exists_changes|].
  intros present'. apply preserves_bind; try apply _; [|intros; apply preserves_ret, _].
  apply preserves_if; try apply _; [|apply preserves_ret, _].
  eapply preserves_mono; [|apply fs_unlink_changes]. intros n <-. by left.
Qed.

Lemma delete_in_changes base format_dir :
  preserves (changes_only (eq format_dir)) (delete_in E base format_dir).
Proof.
  unfold delete_in. apply preserves_bind; try apply _; [apply preserves_gets, _|].
  intros [[c|kids]|]; try apply preserves_ret, _.
  apply preserves_for_each; try apply _. intros file.
  apply preserves_attempt; try apply _. apply sub_unlink_changes.
Qed.

Lemma delete_converted_files_changes base :
  preserves (changes_only in_formats) (_delete_converted_files E base).
Proof.
  apply preserves_for_each_in; try apply _. intros format_dir Hin.
  eapply preserves_mono; [|apply delete_in_changes]. by intros n <-.
Qed.

Lemma invalidate_changes source marker :
  preserves (changes_only (fun n => n = source \/ n = marker \/ in_formats n))
    (invalidate E source marker).
Proof.
  unfold invalidate. apply preserves_bind; try apply _.
  { eapply preserves_mono; [|apply delete_converted_files_changes]. auto. }
  intros _. apply preserves_bind; try apply _.
  { apply preserves_attempt; try apply _.
    eapply preserves_mono; [|apply fs_unlink_changes]. intros n <-. auto. }
  intros _. apply preserves_attempt; try apply _.
  eapply preserves_mono; [|apply fs_unlink_changes]. intros n <-. auto.
Qed.

(** *** The folder alone *)

Global Instance touches_preorder touched : PreOrder (touches touched).
Proof.
  split.
  - by intros st n Hn.
  - intros st1 st2 st3 H12 H23 n Hn. by rewrite H23, H12.
Qed.

Lemma changes_only_touches {A} (P : string -> Prop) (m : M A) :
  preserves (changes_only P) m -> preserves (touches P) m.
Proof. intros Hm st. by destruct (Hm st) as (_ & _ & Hf & _). Qed.

Lemma check_svg_size_eq svg st :
  _check_svg_size E svg st =
    (Ok match folder st !! svg with
        | Some (File c) => negb (faulty E (OpRead [svg])) && declares_800 E c
        | _ => false
        end, st).
Proof.
  unfold _check_svg_size, catch, bind, fs_read, of_option, ret, raise, declares_800.
  destruct (folder st !! svg) as [[c|kids]|]; try done.
  destruct (faulty E _); try done.
  destruct (root_size_attrs E c); done.
Qed.

Lemma record_touches (P : string -> Prop) name :
  preserves (touches P) (record E name).
Proof.
  intros st n Hn. unfold record, bind, modify, _save_converted_list.
  destruct (faulty E OpLedgerWrite); done.
Qed.

Lemma convert_new_touches name svg :
  preserves (touches (fun n => n = temp_name (stem svg) \/ in_formats n))
    (convert_new E name svg).
Proof.
  unfold convert_new.
  apply preserves_bind; try apply _; [apply preserves_gets, _|].
  intros present. apply preserves_if; try apply _; [|apply preserves_ret, _].
  apply preserves_bind; try apply _.
  { intros st. rewrite check_svg_size_eq. reflexivity. }
  intros sized. apply preserves_if; try apply _.
  { apply preserves_bind; try apply _; intros; apply preserves_ret, _. }
  apply preserves_bind; try apply _.
  { apply changes_only_touches, create_variants_changes. }
  intros success. apply preserves_if; try apply _; [|apply preserves_ret, _].
  apply preserves_bind; try apply _; [apply record_touches|].
  intros _. apply preserves_ret, _.
Qed.

(** *** A copy that does not fail *)

Lemma svg_to_xml_copies svg c st :
  folder st !! svg = Some (File c) ->
  faulty E (OpRead [svg]) = false ->
  faulty E (OpWrite [stem svg ++ ".xml"]) = false ->
  (forall kids, folder st !! (stem svg ++ ".xml") <> Some (Dir kids)) ->
  _svg_to_xml E svg st =
    (Ok true,
     log_op (OpWrite [stem svg ++ ".xml"])
       (set_folder (<[stem svg ++ ".xml" := File c]> (folder st)) st)).
Proof.
  intros Hfile Hr Hw Hdir.
  unfold _svg_to_xml, catch, bind, fs_read, fs_write, ret.
  rewrite Hfile, Hr.
  destruct (folder st !! (stem svg ++ ".xml")) as [[c'|kids]|] eqn:Hx;
    rewrite ?Hw; try done.
  by destruct (Hdir kids).
Qed.

Lemma xml_to_svg_copies xml c st :
  folder st !! xml = Some (File c) ->
  faulty E (OpRead [xml]) = false ->
  faulty E (OpWrite [stem xml ++ ".svg"]) = false ->
  (forall kids, folder st !! (stem xml ++ ".svg") <> Some (Dir kids)) ->
  _xml_to_svg E xml st =
    (Ok true,
     log_op (OpWrite [stem xml ++ ".svg"])
       (set_folder (<[stem xml ++ ".svg" := File c]> (folder st)) st)).
Proof.
  intros Hfile Hr Hw Hdir.
  unfold _xml_to_svg, catch, bind, fs_read, fs_write, ret.
  rewrite Hfile, Hr.
  destruct (folder st !! (stem xml ++ ".svg")) as [[c'|kids]|] eqn:Hx;
    rewrite ?Hw; try done.
  by destruct (Hdir kids).
Qed.

(** The two outcomes of the copy. *)
Lemma svg_to_xml_cases svg st :
  _svg_to_xml E svg st = (Ok false, st) \/
  exists c,
    folder st !! svg = Some (File c) /\
    (forall kids, folder st !! (stem svg ++ ".xml") <> Some (Dir kids)) /\
    _svg_to_xml E svg st =
      (Ok true,
       log_op (OpWrite [stem svg ++ ".xml"])
         (set_folder (<[stem svg ++ ".xml" := File c]> (folder st)) st)).
Proof.
  unfold _svg_to_xml, catch, bind, fs_read, fs_write, ret.
  destruct (folder st !! svg) as [[c|kids]|] eqn:Hfile; auto.
  destruct (faulty E (OpRead [svg])); auto.
  destruct (folder st !! (stem svg ++ ".xml")) as [[c'|kids]|] eqn:Hx.
  - destruct (faulty E (OpWrite _)); [by left|].
    right. exists c. split; [done|]. split; done.
  - by left.
  - destruct (faulty E (OpWrite _)); [by left|].
    right. exists c. split; [done|]. split; done.
Qed.

Lemma xml_to_svg_cases xml st :
  _xml_to_svg E xml st = (Ok false, st) \/
  exists c,
    folder st !! xml = Some (File c) /\
    (forall kids, folder st !! (stem xml ++ ".svg") <> Some (Dir kids)) /\
    _xml_to_svg E xml st =
      (Ok true,
       log_op (OpWrite [stem xml ++ ".svg"])
         (set_folder (<[stem xml ++ ".svg" := File c]> (folder st)) st)).
Proof.
  unfold _xml_to_svg, catch, bind, fs_read, fs_write, ret.
  destruct (folder st !! xml) as [[c|kids]|] eqn:Hfile; auto.
  destruct (faulty E (OpRead [xml])); auto.
  destruct (folder st !! (stem xml ++ ".svg")) as [[c'|kids]|] eqn:Hx.
  - destruct (faulty E (OpWrite _)); [by left|].
    right. exists c. split; [done|]. split; done.
  - by left.
  - destruct (faulty E (OpWrite _)); [by left|].
    right. exists c. split; [done|]. split; done.
Qed.

(** lines 395-399: the size gate *)
Lemma convert_new_wrong_size name svg c st :
  folder st !! svg = Some (File c) ->
  declares_800 E c = false ->
  convert_new E name svg st = (Ok false, st).
Proof.
  intros Hfile Hsize.
  unfold convert_new, bind at 1, path_exists at 1, gets at 1. rewrite Hfile.
  unfold bind at 1. rewrite check_svg_size_eq, Hfile, Hsize, andb_false_r.
  reflexivity.
Qed.

(** lines 351-355: the size gate of the regeneration *)
Lemma regenerate_wrong_size name svg c st :
  folder st !! svg = Some (File c) ->
  declares_800 E c = false ->
  regenerate E name (Some svg) st = (Ok (Return false), st).
Proof.
  intros Hfile Hsize.
  unfold regenerate, bind at 1, path_exists at 1, gets at 1. rewrite Hfile.
  unfold bind at 1. rewrite check_svg_size_eq, Hfile, Hsize, andb_false_r.
  reflexivity.
Qed.

End Frames.

(** ** What an invalidation deletes *)

Section Invalidation.

Context (E : externals) (base_name source marker : string).

Local Abbreviation R := (invalidated E base_name source marker).

Global Instance invalidated_preorder : PreOrder R.
Proof.
  split.
  - intros st n. destruct (folder st !! n) as [[c|kids]|]; eauto.
  - intros st1 st2 st3 H12 H23 n. specialize (H12 n).
    destruct (folder st1 !! n) as [[c|kids1]|].
    + destruct H12 as [H12 | [Hn H12]].
      * specialize (H23 n). rewrite H12 in H23. done.
      * specialize (H23 n). rewrite H12 in H23. auto.
    + destruct H12 as (kids2 & H2 & Hk2).
      specialize (H23 n). rewrite H2 in H23.
      destruct H23 as (kids3 & H3 & Hk3).
      exists kids3. split; [done|]. intros k.
      destruct (Hk3 k) as [Hs3 | (Hn3 & Hf & Hg & c & Hc)];
        destruct (Hk2 k) as [Hs2 | (Hn2 & Hf' & Hg' & c' & Hc')].
      * left. congruence.
      * right. rewrite Hs3. eauto 6.
      * right. rewrite <- Hs2. eauto 6.
      * right. eauto 6.
    + specialize (H23 n). by rewrite H12 in H23.
Qed.

Lemma invalidated_same_folder st st' :
  folder st' = folder st -> R st st'.
Proof.
  intros Heq n. rewrite Heq.
  destruct (folder st !! n) as [[c|kids]|]; eauto.
Qed.

Lemma sub_unlink_invalidated d k :
  in_formats d ->
  glob_match E (variant_pattern base_name d) k = true ->
  preserves R (sub_unlink E d k).
Proof.
  intros Hd Hk st. unfold sub_unlink.
  destruct (folder st !! d) as [[c|kids]|] eqn:Hdir; try reflexivity.
  destruct (kids !! k) as [[c|]|] eqn:Hkid; try reflexivity.
  destruct (faulty E _); [reflexivity|].
  intros n. cbn [snd folder log_op set_folder].
  destruct (decide (n = d)) as [->|Hne].
  - rewrite Hdir. exists (delete k kids). split; [by rewrite lookup_insert_eq|].
    intros k'. destruct (decide (k' = k)) as [->|Hk'].
    + right. rewrite lookup_delete_eq. eauto 6.
    + left. by rewrite lookup_delete_ne.
  - rewrite lookup_insert_ne by done.
    destruct (folder st !! n) as [[c'|kids']|]; eauto.
Qed.

Lemma fs_unlink_invalidated n :
  n = source \/ n = marker -> preserves R (fs_unlink E n).
Proof.
  intros Hn st. unfold fs_unlink.
  destruct (folder st !! n) as [[c|kids]|] eqn:Hfile; try reflexivity.
  destruct (faulty E _); [reflexivity|].
  intros m. cbn [snd folder log_op set_folder].
  destruct (decide (m = n)) as [->|Hne].
  - rewrite Hfile. right. by rewrite lookup_delete_eq.
  - rewrite lookup_delete_ne by done.
    destruct (folder st !! m) as [[c'|kids']|]; eauto.
Qed.

Lemma delete_in_invalidated d :
  in_formats d -> preserves R (delete_in E base_name d).
Proof.
  intros Hd. unfold delete_in.
  apply preserves_bind; try apply _; [apply preserves_gets, _|].
  intros [[c|kids]|]; try apply preserves_ret, _.
  apply preserves_for_each_in; try apply _. intros file Hfile.
  apply preserves_attempt; try apply _.
  apply sub_unlink_invalidated; [done|].
  unfold glob in Hfile. by apply list_elem_of_filter in Hfile as [? _].
Qed.

Lemma delete_converted_files_invalidated :
  preserves R (_delete_converted_files E base_name).
Proof.
  apply preserves_for_each_in; try apply _. intros d Hd.
  by apply delete_in_invalidated.
Qed.

End Invalidation.

Lemma invalidate_invalidated (E : externals) (source marker : string) :
  preserves (invalidated E (stem source) source marker)
    (invalidate E source marker).
Proof.
  unfold invalidate.
  apply preserves_bind; try apply _; [apply delete_converted_files_invalidated|].
  intros _. apply preserves_bind; try apply _.
  { apply preserves_attempt; try apply _. apply fs_unlink_invalidated. by left. }
  intros _. apply preserves_attempt; try apply _.
  apply fs_unlink_invalidated. by right.
Qed.

(** ** What a successful generation leaves *)

Section Generation.

Context (E : externals).

Lemma extends_refl st : extends [] st st.
Proof.
  split; [done|]. split; [auto|]. exists []. by rewrite app_nil_r.
Qed.

Lemma extends_trans ws1 ws2 st1 st2 st3 :
  extends ws1 st1 st2 -> extends ws2 st2 st3 -> extends (ws1 ++ ws2) st1 st3.
Proof.
  intros (H1 & B1 & t1 & Ht1 & Hw1) (H2 & B2 & t2 & Ht2 & Hw2).
  split; [auto|]. split.
  - intros d k Hv. rewrite elem_of_app.
    destruct (B2 d k Hv) as [Hv2|?]; [|auto].
    destruct (B1 d k Hv2); auto.
  - exists (t1 ++ t2)%list. rewrite Ht2, Ht1, app_assoc. split; [done|].
    unfold sub_writes in *. by rewrite filter_app, Hw1, Hw2.
Qed.

Lemma extends_nil_l ws st1 st2 st3 :
  extends [] st1 st2 -> extends ws st2 st3 -> extends ws st1 st3.
Proof. intros H1 H2. apply (extends_trans [] ws st1 st2 st3 H1 H2). Qed.

Lemma extends_nil_r ws st1 st2 st3 :
  extends ws st1 st2 -> extends [] st2 st3 -> extends ws st1 st3.
Proof.
  intros H1 H2. rewrite <- (app_nil_r ws).
  apply (extends_trans ws [] st1 st2 st3 H1 H2).
Qed.

(** A mutation of the folder itself, of an entry that is not a
    sub-directory, adds no write into a sub-directory. *)
Lemma extends_root o d st n :
  is_sub_write o = false ->
  (forall kids, folder st !! n <> Some (Dir kids)) ->
  (forall kids, d !! n = Some (Dir kids) -> kids = ∅) ->
  (forall m, m <> n -> d !! m = folder st !! m) ->
  extends [] st (log_op o (set_folder d st)).
Proof.
  intros Ho Hn Hnew Hd. split; [|split].
  - intros d' k (kids & c & Hdir & Hk). exists kids, c. split; [|done].
    cbn [folder log_op set_folder]. rewrite Hd; [done|].
    intros ->. by destruct (Hn kids).
  - intros d' k (kids & c & Hdir & Hk). left.
    cbn [folder log_op set_folder] in Hdir.
    destruct (decide (d' = n)) as [->|Hne].
    + rewrite (Hnew kids Hdir) in Hk. by rewrite lookup_empty in Hk.
    + exists kids, c. by rewrite <- Hd.
  - exists [o]. split; [done|]. unfold sub_writes.
    rewrite filter_cons_False; [done|]. by rewrite Ho.
Qed.

Lemma fs_write_ok n c st st' :
  fs_write E n c st = (Ok tt, st') ->
  extends [] st st' /\ folder st' !! n = Some (File c).
Proof.
  unfold fs_write. intros H.
  assert (Hn : forall kids, folder st !! n <> Some (Dir kids)).
  { intros kids Hk. rewrite Hk in H. done. }
  assert (st' = log_op (OpWrite [n]) (set_folder (<[n:=File c]> (folder st)) st))
    as ->.
  { destruct (folder st !! n) as [[c'|kids]|]; try done;
      destruct (faulty E _); by inversion H. }
  split.
  - apply (extends_root _ _ _ n); [done | done | |].
    + rewrite lookup_insert_eq. done.
    + intros m Hm. by rewrite lookup_insert_ne.
  - cbn [folder log_op set_folder]. by rewrite lookup_insert_eq.
Qed.

Lemma fs_unlink_ok n st st' :
  fs_unlink E n st = (Ok tt, st') ->
  extends [] st st' /\ folder st' !! n = None.
Proof.
  unfold fs_unlink. intros H.
  destruct (folder st !! n) as [[c'|kids]|] eqn:Hn; try done.
  destruct (faulty E _); [done|]. inversion H; subst st'. split.
  - apply (extends_root _ _ _ n); [done | by rewrite Hn | |].
    + rewrite lookup_delete_eq. done.
    + intros m Hm. by rewrite lookup_delete_ne.
  - cbn [folder log_op set_folder]. by rewrite lookup_delete_eq.
Qed.

Lemma mkdir_exist_ok_ok d st st' :
  mkdir_exist_ok E d st = (Ok tt, st') ->
  extends [] st st' /\ exists kids, folder st' !! d = Some (Dir kids).
Proof.
  unfold mkdir_exist_ok. intros H.
  destruct (folder st !! d) as [[c'|kids]|] eqn:Hd; try done.
  - inversion H; subst st'. split; [apply extends_refl | eauto].
  - destruct (faulty E _); [done|]. inversion H; subst st'. split.
    + apply (extends_root _ _ _ d); [done | by rewrite Hd | |].
      * rewrite lookup_insert_eq. by intros kids [= <-].
      * intros m Hm. by rewrite lookup_insert_ne.
    + cbn [folder log_op set_folder]. rewrite lookup_insert_eq. eauto.
Qed.

Lemma sub_write_ok d n c st st' :
  sub_write E d n c st = (Ok tt, st') ->
  extends [OpWrite [d; n]] st st' /\ has_variant st' d n.
Proof.
  unfold sub_write. intros H.
  destruct (folder st !! d) as [[c'|kids]|] eqn:Hd; try done.
  assert (Hn : kids !! n <> Some LDir) by (intros Hk; by rewrite Hk in H).
  assert (st' = log_op (OpWrite [d; n])
            (set_folder (<[d:=Dir (<[n:=LFile c]> kids)]> (folder st)) st)) as ->.
  { destruct (kids !! n) as [[c'|]|]; try done;
      destruct (faulty E _); by inversion H. }
  split; [split; [|split]|].
  - intros d' k (kids' & c' & Hdir & Hk).
    unfold has_variant. cbn [folder log_op set_folder].
    destruct (decide (d' = d)) as [->|Hne].
    + rewrite Hd in Hdir. injection Hdir as <-.
      rewrite lookup_insert_eq.
      destruct (decide (k = n)) as [->|Hkn].
      * exists (<[n:=LFile c]> kids), c. by rewrite lookup_insert_eq.
      * exists (<[n:=LFile c]> kids), c'. by rewrite lookup_insert_ne.
    + exists kids', c'. by rewrite lookup_insert_ne.
  - intros d' k (kids' & c' & Hdir & Hk).
    cbn [folder log_op set_folder] in Hdir.
    destruct (decide (d' = d)) as [->|Hne].
    + rewrite lookup_insert_eq in Hdir. injection Hdir as <-.
      destruct (decide (k = n)) as [->|Hkn].
      * right. apply list_elem_of_singleton. done.
      * left. rewrite lookup_insert_ne in Hk by done. by exists kids, c'.
    + left. rewrite lookup_insert_ne in Hdir by done. by exists kids', c'.
  - exists [OpWrite [d; n]]. done.
  - exists (<[n:=LFile c]> kids), c. cbn [folder log_op set_folder].
    by rewrite !lookup_insert_eq.
Qed.

Lemma save_as_ok d n fmt img st st' :
  save_as E d n fmt img st = (Ok tt, st') ->
  extends [OpWrite [d; n]] st st' /\ has_variant st' d n.
Proof.
  unfold save_as. intros H.
  apply bind_Ok_inv in H as (bytes & st1 & Hb & H).
  destruct (save E fmt img) as [b|]; [|done].
  unfold of_option, ret in Hb. injection Hb as -> ->.
  by apply sub_write_ok in H.
Qed.

(** One iteration of [for size in self.SIZES]. *)
Lemma create_size_ok base img size st st' :
  create_size E base img size st = (Ok tt, st') ->
  extends (writes_of base size) st st' /\
  has_variant st' "png" (variant_name base size "png") /\
  has_variant st' "jpg" (variant_name base size "jpg") /\
  has_variant st' "ico" (variant_name base size "ico").
Proof.
  unfold create_size. intros H.
  apply bind_Ok_inv in H as (resized & s0 & H0 & H).
  destruct (resize E img size) as [r|]; [|done].
  unfold of_option, ret in H0. injection H0 as -> ->.
  apply bind_Ok_inv in H as ([] & s1 & H1 & H).
  apply bind_Ok_inv in H as ([] & s2 & H2 & H).
  apply bind_Ok_inv in H as ([] & s3 & H3 & H).
  apply bind_Ok_inv in H as ([] & s4 & H4 & H).
  apply bind_Ok_inv in H as ([] & s5 & H5 & H6).
  apply mkdir_exist_ok_ok in H1 as [E1 _].
  apply save_as_ok in H2 as [E2 V2].
  apply mkdir_exist_ok_ok in H3 as [E3 _].
  assert (extends [OpWrite ["jpg"; variant_name base size "jpg"]] s3 s4 /\
          has_variant s4 "jpg" (variant_name base size "jpg")) as [E4 V4].
  { destruct (mode_rgba E resized).
    - apply bind_Ok_inv in H4 as (bg & s & Hbg & H4).
      destruct (flatten_white E resized) as [w|]; [|done].
      unfold of_option, ret in Hbg. injection Hbg as -> ->.
      by apply save_as_ok in H4.
    - by apply save_as_ok in H4. }
  apply mkdir_exist_ok_ok in H5 as [E5 _].
  apply save_as_ok in H6 as [E6 V6].
  pose proof (extends_nil_l _ _ _ _ E1 E2) as E12.
  pose proof (extends_nil_l _ _ _ _ E3 E4) as E34.
  pose proof (extends_nil_l _ _ _ _ E5 E6) as E56.
  pose proof (extends_trans _ _ _ _ _ E34 E56) as E36.
  pose proof (extends_trans _ _ _ _ _ E12 E36) as Eall.
  split; [exact Eall|].
  split; [apply E36, V2|]. split; [apply E56, V4 | exact V6].
Qed.

Lemma for_each_create_size_ok base img sizes st st' :
  for_each sizes (create_size E base img) st = (Ok tt, st') ->
  extends (flat_map (writes_of base) sizes) st st' /\
  forall size, size ∈ sizes ->
    has_variant st' "png" (variant_name base size "png") /\
    has_variant st' "jpg" (variant_name base size "jpg") /\
    has_variant st' "ico" (variant_name base size "ico").
Proof.
  revert st. induction sizes as [|size sizes IH]; intros st H.
  - inversion H; subst. split; [apply extends_refl|].
    intros size Hin. by apply elem_of_nil in Hin.
  - simpl in H. apply bind_Ok_inv in H as ([] & s1 & H1 & H).
    apply create_size_ok in H1 as (E1 & Vp & Vj & Vi).
    apply IH in H as (E2 & Hall).
    split; [exact (extends_trans _ _ _ _ _ E1 E2)|].
    intros size' Hin. apply list.elem_of_cons in Hin as [->|Hin]; [|by apply Hall].
    destruct E2 as [Hkeep _]. auto.
Qed.

Lemma fs_read_ok n st c st' :
  fs_read E n st = (Ok c, st') -> st' = st /\ folder st !! n = Some (File c).
Proof.
  unfold fs_read. destruct (folder st !! n) as [[c'|kids]|]; try done.
  destruct (faulty E _); [done|]. by intros [= -> ->].
Qed.

Lemma svg_to_png_ok src out st st' :
  _svg_to_png E src out st = (Ok true, st') -> extends [] st st'.
Proof.
  unfold _svg_to_png. intros H.
  apply catch_Ok_inv in H as [H | (s & _ & H)]; [|done].
  destruct (cairosvg_installed E); [|done]. simpl in H.
  apply bind_Ok_inv in H as (markup & s1 & H1 & H).
  apply fs_read_ok in H1 as [-> _].
  apply bind_Ok_inv in H as (raster & s2 & H2 & H).
  destruct (svg2png E markup) as [r|]; [|done].
  unfold of_option, ret in H2. injection H2 as -> ->.
  apply bind_Ok_inv in H as ([] & s3 & H3 & H).
  unfold ret in H. injection H as ->.
  by apply fs_write_ok in H3 as [? _].
Qed.

(** A generation that returns [True]: the whole matrix was written, in
    order, nothing else was written into a sub-directory, and the
    intermediate raster is gone. *)
Lemma create_variants_ok src base st st' :
  _create_variants E src base st = (Ok true, st') ->
  extends (variant_writes base) st st' /\
  (forall size, size ∈ SIZES ->
     has_variant st' "png" (variant_name base size "png") /\
     has_variant st' "jpg" (variant_name base size "jpg") /\
     has_variant st' "ico" (variant_name base size "ico")) /\
  folder st' !! temp_name base = None.
Proof.
  unfold _create_variants. intros H.
  apply catch_Ok_inv in H as [H | (s & _ & H)]; [|done].
  destruct (has_ext ".svg" src); [|done].
  apply bind_Ok_inv in H as (rendered & s1 & H1 & H).
  destruct rendered; [|done]. cbn [negb] in H.
  apply svg_to_png_ok in H1.
  apply bind_Ok_inv in H as (present & s2 & H2 & H).
  unfold path_exists, gets in H2. injection H2 as <- <-.
  destruct (folder s1 !! temp_name base) as [e|]; [|done]. cbn [negb] in H.
  apply bind_Ok_inv in H as (raster & s3 & H3 & H).
  apply fs_read_ok in H3 as [-> _].
  apply bind_Ok_inv in H as (img & s4 & H4 & H).
  destruct (image_open E raster) as [i|]; [|done].
  unfold of_option, ret in H4. injection H4 as -> ->.
  apply bind_Ok_inv in H as ([] & s5 & H5 & H).
  apply for_each_create_size_ok in H5 as [E5 V5].
  apply bind_Ok_inv in H as (present & s6 & H6 & H).
  unfold path_exists, gets in H6. injection H6 as <- <-.
  apply bind_Ok_inv in H as ([] & s7 & H7 & H).
  unfold ret in H. injection H as ->.
  destruct (folder s5 !! temp_name base) as [e'|] eqn:Htemp.
  - apply fs_unlink_ok in H7 as [E7 Hgone].
    split; [|split; [|done]].
    + eapply extends_nil_l; [exact H1|]. eapply extends_nil_r; eauto.
    + intros size Hin. destruct E7 as [Hkeep _].
      destruct (V5 size Hin) as (? & ? & ?). auto.
  - unfold ret in H7. injection H7 as <-.
    split; [|split; [|done]].
    + eapply extends_nil_l; [exact H1 | exact E5].
    + done.
Qed.

Lemma svg_to_xml_extends svg st : extends [] st (snd (_svg_to_xml E svg st)).
Proof.
  destruct (svg_to_xml_cases E svg st) as [-> | (c & _ & Hdir & ->)].
  - apply extends_refl.
  - apply (extends_root _ _ _ (stem svg ++ ".xml")); [done | done | |].
    + rewrite lookup_insert_eq. done.
    + intros m Hm. by rewrite lookup_insert_ne.
Qed.

Lemma xml_to_svg_extends xml st : extends [] st (snd (_xml_to_svg E xml st)).
Proof.
  destruct (xml_to_svg_cases E xml st) as [-> | (c & _ & Hdir & ->)].
  - apply extends_refl.
  - apply (extends_root _ _ _ (stem xml ++ ".svg")); [done | done | |].
    + rewrite lookup_insert_eq. done.
    + intros m Hm. by rewrite lookup_insert_ne.
Qed.

Lemma record_ok name st st' :
  record E name st = (Ok tt, st') ->
  extends [] st st' /\ folder st' = folder st /\
  converted_files st' = {[name]} ∪ converted_files st /\
  trace st' = (trace st ++ [OpLedgerWrite])%list.
Proof.
  unfold record, bind, modify, _save_converted_list. cbn [add_to_ledger].
  destruct (faulty E OpLedgerWrite); [done|]. intros [= <-].
  split; [|done]. split; [done|]. split; [auto|]. by exists [OpLedgerWrite].
Qed.

(** lines 395-408 when they return [True] *)
Lemma convert_new_ok name svg st st' :
  convert_new E name svg st = (Ok true, st') ->
  (exists c, folder st !! svg = Some (File c) /\ declares_800 E c = true) /\
  extends (variant_writes (stem svg)) st st' /\
  (forall size, size ∈ SIZES ->
     has_variant st' "png" (variant_name (stem svg) size "png") /\
     has_variant st' "jpg" (variant_name (stem svg) size "jpg") /\
     has_variant st' "ico" (variant_name (stem svg) size "ico")) /\
  folder st' !! temp_name (stem svg) = None /\
  converted_files st' = {[name]} ∪ converted_files st.
Proof.
  unfold convert_new. intros H.
  apply bind_Ok_inv in H as (present & s1 & H1 & H).
  unfold path_exists, gets in H1. injection H1 as <- <-.
  destruct (folder st !! svg) as [e|] eqn:Hsvg; [|done].
  apply bind_Ok_inv in H as (sized & s2 & H2 & H).
  rewrite check_svg_size_eq, Hsvg in H2. injection H2 as <- <-.
  destruct e as [c|kids]; [|done].
  destruct (negb (faulty E (OpRead [svg])) && declares_800 E c) eqn:Hsize;
    [|done].
  apply andb_true_iff in Hsize as [_ Hsize]. simpl in H.
  apply bind_Ok_inv in H as (success & s3 & H3 & H).
  destruct success; [|done].
  pose proof (create_variants_changes E svg (stem svg) st) as Hch.
  rewrite H3 in Hch. destruct Hch as (Hconv & _). cbn [snd] in Hconv.
  apply create_variants_ok in H3 as (E3 & V3 & T3).
  apply bind_Ok_inv in H as ([] & s4 & H4 & H).
  unfold ret in H. injection H as ->.
  apply record_ok in H4 as (E4 & Hf & Hc & _).
  split; [eauto|]. split; [eapply extends_nil_r; eauto|].
  split; [|split].
  - intros size Hin. destruct E4 as [Hkeep _].
    destruct (V3 size Hin) as (? & ? & ?). auto.
  - by rewrite Hf.
  - by rewrite Hc, Hconv.
Qed.

(** *** A generation that fails after the rendering *)

Lemma svg_to_png_written src out st st' :
  _svg_to_png E src out st = (Ok true, st') ->
  exists raster, folder st' !! out = Some (File raster).
Proof.
  unfold _svg_to_png. intros H.
  apply catch_Ok_inv in H as [H | (s & _ & H)]; [|done].
  destruct (cairosvg_installed E); [|done]. cbn [negb] in H.
  apply bind_Ok_inv in H as (markup & s1 & H1 & H).
  apply bind_Ok_inv in H as (raster & s2 & H2 & H).
  apply bind_Ok_inv in H as ([] & s3 & H3 & H).
  unfold ret in H. injection H as ->.
  apply fs_write_ok in H3 as [_ H3]. eauto.
Qed.

Lemma fs_unlink_raised n st st' :
  fs_unlink E n st = (Raised, st') -> st' = st.
Proof.
  unfold fs_unlink. destruct (folder st !! n) as [[c|kids]|]; try congruence.
  destruct (faulty E _); congruence.
Qed.

(** Every path through the generator that returns [False] after the
    rendering succeeded leaves the intermediate raster in the folder: the
    clean-up of lines 217-218 is reached only by a run that returns
    [True]. *)
Lemma create_variants_failure_keeps_temp src base st s1 :
  has_ext ".svg" src = true ->
  _svg_to_png E src (temp_name base) st = (Ok true, s1) ->
  fst (_create_variants E src base st) = Ok false ->
  exists raster,
    folder (snd (_create_variants E src base st)) !! temp_name base
      = Some (File raster).
Proof.
  intros Hext Hrender.
  destruct (svg_to_png_written _ _ _ _ Hrender) as [raster Htemp].
  assert (Hfmt : ~ in_formats (temp_name base)).
  { intros Hin. apply has_ext_format in Hin.
    pose proof (has_ext_functional _ _ _ Hin (has_ext_temp base)). done. }
  destruct (_create_variants E src base st) as [r s'] eqn:Hrun.
  cbn [fst snd]. intros ->. exists raster.
  unfold _create_variants, catch in Hrun. rewrite Hext in Hrun.
  rewrite (bind_Ok _ _ _ _ _ Hrender) in Hrun. cbn [negb] in Hrun.
  unfold bind at 1, path_exists at 1, gets at 1 in Hrun.
  rewrite Htemp in Hrun. cbn [negb] in Hrun.
  unfold bind at 1 in Hrun.
  destruct (fs_read E (temp_name base) s1) as [[bytes|] s2] eqn:Hread.
  2:{ unfold fs_read in Hread. rewrite Htemp in Hread.
      destruct (faulty E _); [|done]. injection Hread as <-.
      unfold ret in Hrun. by injection Hrun as <-. }
  apply fs_read_ok in Hread as [-> _].
  unfold bind at 1 in Hrun.
  destruct (image_open E bytes) as [img|].
  2:{ unfold of_option, raise, ret in Hrun. by injection Hrun as <-. }
  unfold of_option, ret at 1 in Hrun. unfold bind at 1 in Hrun.
  pose proof (preserves_for_each (touches in_formats) SIZES (create_size E base img)
                (fun size => changes_only_touches _ _ (create_size_changes E base img size))
                s1) as Hkeep.
  destruct (for_each SIZES (create_size E base img) s1) as [[[]|] s3];
    cbn [snd] in Hkeep.
  2:{ unfold ret in Hrun. injection Hrun as <-. by rewrite Hkeep. }
  assert (Htemp3 : folder s3 !! temp_name base = Some (File raster))
    by (by rewrite Hkeep).
  unfold bind at 1, path_exists at 1, gets at 1 in Hrun. rewrite Htemp3 in Hrun.
  unfold bind at 1 in Hrun.
  destruct (fs_unlink E (temp_name base) s3) as [[[]|] s4] eqn:Hunlink.
  - unfold ret in Hrun. by injection Hrun.
  - apply fs_unlink_raised in Hunlink as ->.
    unfold ret in Hrun. by injection Hrun as <-.
Qed.

(** *** The matrix *)

Lemma variant_writes_matrix base :
  variant_writes base
    = map (fun p => OpWrite [fst p; base ++ snd p]) matrix.
Proof. reflexivity. Qed.

Lemma matrix_NoDup : NoDup matrix.
Proof. apply (bool_decide_unpack _). vm_compute. exact I. Qed.

Lemma variant_writes_length base : List.length (variant_writes base) = 15.
Proof. reflexivity. Qed.

Lemma variant_writes_NoDup base : NoDup (variant_writes base).
Proof.
  rewrite variant_writes_matrix.
  assert (Hinj : Inj (=) (=)
            (fun p : string * string => OpWrite [fst p; base ++ snd p])).
  { intros [d1 t1] [d2 t2] [= -> Ht]. f_equal.
    by apply (inj (String.app base)) in Ht. }
  apply (NoDup_fmap_2 _), matrix_NoDup.
Qed.

End Generation.

(** ** The marker blocks *)

Section Markers.

Context (E : externals).

(** A regular file other than the stale source and the marker survives
    the invalidation. *)
Lemma invalidate_keeps_file source marker n c st :
  folder st !! n = Some (File c) ->
  n <> source -> n <> marker ->
  folder (snd (invalidate E source marker st)) !! n = Some (File c).
Proof.
  intros Hn Hs Hm.
  pose proof (invalidate_invalidated E source marker st n) as HR.
  rewrite Hn in HR. destruct HR as [HR | [[?|?] _]]; done.
Qed.

Lemma invalidate_run source marker st :
  invalidate E source marker st = (Ok tt, snd (invalidate E source marker st)).
Proof. apply safe_run_unit, safe_invalidate. Qed.

(** lines 314-320 *)
Lemma handle_updatesvg_no_xml marker svg st :
  handle_updatesvg E marker svg None st
    = (Ok (Return false), snd (invalidate E svg marker st)).
Proof.
  unfold handle_updatesvg.
  by rewrite (bind_Ok _ _ _ _ _ (invalidate_run svg marker st)).
Qed.

Lemma handle_updatesvg_with_xml marker svg xml c st :
  folder st !! xml = Some (File c) ->
  xml <> svg -> xml <> marker ->
  handle_updatesvg E marker svg (Some xml) st
    = (Ok (Continue (Some (stem xml ++ ".svg"))),
       snd (_xml_to_svg E xml (snd (invalidate E svg marker st)))).
Proof.
  intros Hx Hs Hm. unfold handle_updatesvg.
  rewrite (bind_Ok _ _ _ _ _ (invalidate_run svg marker st)).
  unfold bind at 1, path_exists at 1, gets at 1.
  rewrite (invalidate_keeps_file svg marker xml c st) by done.
  destruct (safe_run _ (snd (invalidate E svg marker st)) (safe_xml_to_svg E xml))
    as [b Hb].
  by rewrite (bind_Ok _ _ _ _ _ Hb).
Qed.

(** lines 342-348 *)
Lemma handle_updatexml_with_svg marker xml svg e st :
  folder (snd (invalidate E xml marker st)) !! svg = Some e ->
  handle_updatexml E marker xml (Some svg) st
    = (Ok (Continue tt),
       snd (_svg_to_xml E svg (snd (invalidate E xml marker st)))).
Proof.
  intros Hs. unfold handle_updatexml.
  rewrite (bind_Ok _ _ _ _ _ (invalidate_run xml marker st)).
  unfold bind at 1, path_exists at 1, gets at 1. rewrite Hs.
  destruct (safe_run _ (snd (invalidate E xml marker st)) (safe_svg_to_xml E svg))
    as [b Hb].
  by rewrite (bind_Ok _ _ _ _ _ Hb).
Qed.

Lemma handle_updatexml_svg_gone marker xml svg st :
  folder (snd (invalidate E xml marker st)) !! svg = None ->
  handle_updatexml E marker xml (Some svg) st
    = (Ok (Return false), snd (invalidate E xml marker st)).
Proof.
  intros Hs. unfold handle_updatexml.
  rewrite (bind_Ok _ _ _ _ _ (invalidate_run xml marker st)).
  unfold bind at 1, path_exists at 1, gets at 1. by rewrite Hs.
Qed.

(** The names the scans select are different names. *)
Lemma scanned_names_differ d (e1 e2 n1 n2 : string) :
  pick (file_with e1) (listing d) None = Some n1 ->
  pick (file_with e2) (listing d) None = Some n2 ->
  e1 <> e2 -> n1 <> n2.
Proof.
  intros H1 H2 Hne.
  apply pick_listing_Some in H1 as (_ & _ & H1).
  apply pick_listing_Some in H2 as (_ & _ & H2).
  by eapply has_ext_ne.
Qed.

(** The [.updatesvg] block returns only when no XML file was found. *)
Lemma handle_updatesvg_returns marker svg st b s1 :
  fst (scan_markers (folder st)) = Some marker ->
  fst (scan_sources (folder st)) = Some svg ->
  handle_updatesvg E marker svg (snd (scan_sources (folder st))) st
    = (Ok (Return b), s1) ->
  snd (scan_sources (folder st)) = None.
Proof.
  rewrite update_svg_file_pick, svg_file_pick, xml_file_pick.
  intros Hm Hs H.
  destruct (pick (file_with ".xml") (listing (folder st)) None) as [xml|] eqn:Hx;
    [|done].
  pose proof Hx as Hfile. apply pick_listing_Some in Hfile as (c & Hfile & _).
  rewrite (handle_updatesvg_with_xml marker svg xml c st) in H; [done|done| |].
  - by eapply (scanned_names_differ _ ".xml" ".svg").
  - by eapply (scanned_names_differ _ ".xml" ".updatesvg").
Qed.

(** lines 351-364 *)
Lemma regenerate_eq name svg st :
  regenerate E name (Some svg) st =
    match folder st !! svg with
    | None => (Ok (Continue tt), st)
    | Some entry =>
        if match entry with
           | File c => negb (faulty E (OpRead [svg])) && declares_800 E c
           | Dir _ => false
           end
        then
          match _create_variants E svg (stem svg) st with
          | (Ok success, st1) => (Ok (Return success), st1)
          | (Raised, st1) => (Raised, st1)
          end
        else (Ok (Return false), st)
    end.
Proof.
  unfold regenerate, bind at 1, path_exists at 1, gets at 1.
  destruct (folder st !! svg) as [entry|] eqn:Hentry; [|done].
  unfold bind at 1. rewrite check_svg_size_eq, Hentry.
  destruct entry as [c|kids]; [|done].
  destruct (negb (faulty E (OpRead [svg])) && declares_800 E c); [|done].
  cbn [negb]. unfold bind.
  destruct (_create_variants E svg (stem svg) st) as [[[]|] st1]; done.
Qed.

(** *** What the marker processing leaves alone *)

Lemma check_svg_size_whole P svg :
  preserves (changes_only P) (_check_svg_size E svg).
Proof. intros st. rewrite check_svg_size_eq. reflexivity. Qed.

Lemma regenerate_changes name svg_file :
  preserves (changes_only (fun _ => True)) (regenerate E name svg_file).
Proof.
  unfold regenerate. destruct svg_file as [svg|]; [|apply preserves_ret, _].
  apply preserves_bind; try apply _; [apply preserves_gets, _|].
  intros present. apply preserves_if; try apply _; [|apply preserves_ret, _].
  apply preserves_bind; try apply _; [apply check_svg_size_whole|].
  intros sized. apply preserves_if; try apply _.
  { apply preserves_bind; try apply _; intros; apply preserves_ret, _. }
  apply preserves_bind; try apply _.
  { eapply preserves_mono; [|apply create_variants_changes]. done. }
  intros success. apply preserves_if; try apply _; apply preserves_ret, _.
Qed.

Lemma handle_updatesvg_changes marker svg xml_file :
  preserves (changes_only (fun _ => True)) (handle_updatesvg E marker svg xml_file).
Proof.
  unfold handle_updatesvg. apply preserves_bind; try apply _.
  { eapply preserves_mono; [|apply invalidate_changes]. done. }
  intros _. destruct xml_file as [xml|]; [|apply preserves_ret, _].
  apply preserves_bind; try apply _; [apply preserves_gets, _|].
  intros present. apply preserves_if; try apply _; [|apply preserves_ret, _].
  apply preserves_bind; try apply _; [|intros; apply preserves_ret, _].
  eapply preserves_mono; [|apply xml_to_svg_changes]. done.
Qed.

Lemma handle_updatexml_changes marker xml svg_file :
  preserves (changes_only (fun _ => True)) (handle_updatexml E marker xml svg_file).
Proof.
  unfold handle_updatexml. apply preserves_bind; try apply _.
  { eapply preserves_mono; [|apply invalidate_changes]. done. }
  intros _. destruct svg_file as [svg|]; [|apply preserves_ret, _].
  apply preserves_bind; try apply _; [apply preserves_gets, _|].
  intros present. apply preserves_if; try apply _; [|apply preserves_ret, _].
  apply preserves_bind; try apply _; [|intros; apply preserves_ret, _].
  eapply preserves_mono; [|apply svg_to_xml_changes]. done.
Qed.

(** The marker processing never writes the ledger. *)
Lemma marker_processing_changes name usf uxf :
  preserves (changes_only (fun _ => True)) (marker_processing E name usf uxf).
Proof.
  unfold marker_processing.
  apply preserves_bind; try apply _; [apply preserves_gets, _|].
  intros ledger. apply preserves_if; try apply _; [apply preserves_ret, _|].
  apply preserves_bind; try apply _; [apply preserves_gets, _|].
  intros d. apply preserves_bind; try apply _.
  { destruct usf as [m|]; [|apply preserves_ret, _].
    destruct (fst (scan_sources d)) as [svg|]; [|apply preserves_ret, _].
    apply handle_updatesvg_changes. }
  intros [b|svg_file]; [apply preserves_ret, _|].
  apply preserves_bind; try apply _.
  { destruct uxf as [m|]; [|apply preserves_ret, _].
    destruct (snd (scan_sources d)) as [xml|]; [|apply preserves_ret, _].
    apply handle_updatexml_changes. }
  intros [b|[]]; [apply preserves_ret, _|]. apply regenerate_changes.
Qed.

(** [process_icon_folder] on a ledgered folder: the marker processing,
    and success when it falls through. *)
Lemma process_icon_folder_ledgered name st :
  name ∈ converted_files st ->
  process_icon_folder E name st =
    if is_Some_b (fst (scan_markers (folder st)))
       || is_Some_b (snd (scan_markers (folder st)))
    then
      match marker_processing E name (fst (scan_markers (folder st)))
              (snd (scan_markers (folder st))) st with
      | (Ok (Return b), st1) => (Ok b, st1)
      | (Ok (Continue _), st1) => (Ok true, st1)
      | (Raised, st1) => (Raised, st1)
      end
    else (Ok true, st).
Proof.
  intros Hin. rewrite process_icon_folder_unfold.
  destruct (is_Some_b _ || is_Some_b _); [|by apply normal_processing_ledgered].
  pose proof (marker_processing_changes name (fst (scan_markers (folder st)))
                (snd (scan_markers (folder st))) st) as (Hconv & _).
  destruct (marker_processing _ _ _ _ _) as [[[b|[]]|] st1]; try done.
  apply normal_processing_ledgered. simpl in Hconv. by rewrite Hconv.
Qed.

End Markers.

(** ** A marker-driven regeneration in which nothing fails *)

Section Regeneration.

Context (E : externals).

Global Instance writes_nil_preorder : PreOrder (writes []).
Proof.
  split.
  - intros st. exists []. by rewrite app_nil_r.
  - intros st1 st2 st3 (t1 & Ht1 & Hw1) (t2 & Ht2 & Hw2).
    exists (t1 ++ t2)%list. rewrite Ht2, Ht1, app_assoc. split; [done|].
    unfold sub_writes in *. by rewrite filter_app, Hw1, Hw2.
Qed.

Lemma writes_trans ws1 ws2 st1 st2 st3 :
  writes ws1 st1 st2 -> writes ws2 st2 st3 -> writes (ws1 ++ ws2) st1 st3.
Proof.
  intros (t1 & Ht1 & Hw1) (t2 & Ht2 & Hw2).
  exists (t1 ++ t2)%list. rewrite Ht2, Ht1, app_assoc. split; [done|].
  unfold sub_writes in *. by rewrite filter_app, Hw1, Hw2.
Qed.

Lemma extends_writes ws st st' : extends ws st st' -> writes ws st st'.
Proof. by intros (_ & _ & H). Qed.

Lemma extends_no_new st st' : extends [] st st' -> no_new_variant st st'.
Proof.
  intros (_ & H & _) d k Hv. destruct (H d k Hv) as [?|Hin]; [done|].
  by apply elem_of_nil in Hin.
Qed.

Global Instance no_new_variant_preorder : PreOrder no_new_variant.
Proof.
  split.
  - by intros st d k.
  - intros st1 st2 st3 H12 H23 d k Hv. auto.
Qed.

Lemma invalidated_no_new base source marker st st' :
  invalidated E base source marker st st' -> no_new_variant st st'.
Proof.
  intros HR d k (kids' & c & Hdir & Hk). specialize (HR d).
  destruct (folder st !! d) as [[c'|kids]|] eqn:Hst.
  - destruct HR as [HR | [_ HR]]; congruence.
  - destruct HR as (kids2 & Hdir2 & Hall).
    assert (kids2 = kids') as -> by congruence.
    exists kids, c. split; [done|].
    destruct (Hall k) as [Hsame | (Hnone & _)]; congruence.
  - congruence.
Qed.

Lemma writes_log o d st :
  is_sub_write o = false -> writes [] st (log_op o (set_folder d st)).
Proof.
  intros Ho. exists [o]. split; [done|]. unfold sub_writes.
  rewrite filter_cons_False; [done|]. by rewrite Ho.
Qed.

Lemma sub_unlink_writes d k : preserves (writes []) (sub_unlink E d k).
Proof.
  intros st. unfold sub_unlink.
  destruct (folder st !! d) as [[c|kids]|]; try reflexivity.
  destruct (kids !! k) as [[c|]|]; try reflexivity.
  destruct (faulty E _); [reflexivity|]. by apply writes_log.
Qed.

Lemma fs_unlink_writes n : preserves (writes []) (fs_unlink E n).
Proof.
  intros st. unfold fs_unlink.
  destruct (folder st !! n) as [[c|kids]|]; try reflexivity.
  destruct (faulty E _); [reflexivity|]. by apply writes_log.
Qed.

Lemma invalidate_writes source marker :
  preserves (writes []) (invalidate E source marker).
Proof.
  unfold invalidate, _delete_converted_files.
  apply preserves_bind; try apply _.
  { apply preserves_for_each; try apply _. intros d. unfold delete_in.
    apply preserves_bind; try apply _; [apply preserves_gets, _|].
    intros [[c|kids]|]; try apply preserves_ret, _.
    apply preserves_for_each; try apply _. intros file.
    apply preserves_attempt; try apply _. apply sub_unlink_writes. }
  intros _. apply preserves_bind; try apply _.
  { apply preserves_attempt; try apply _. apply fs_unlink_writes. }
  intros _. apply preserves_attempt; try apply _. apply fs_unlink_writes.
Qed.

(** *** The deletions are complete when no deletion is refused *)

Hypothesis no_unlink_fault : forall p, faulty E (OpUnlink p) = false.

Lemma sub_unlink_removes d k st :
  ~ has_variant (snd (attempt (sub_unlink E d k) st)) d k.
Proof.
  unfold attempt, catch, sub_unlink.
  destruct (folder st !! d) as [[c|kids]|] eqn:Hd;
    try (intros (kids' & c' & Hdir & _); simpl in Hdir; congruence).
  destruct (kids !! k) as [[c|]|] eqn:Hk;
    try (intros (kids' & c' & Hdir & Hk'); simpl in Hdir; congruence).
  rewrite no_unlink_fault. intros (kids' & c' & Hdir & Hk').
  cbn [snd folder log_op set_folder] in Hdir.
  rewrite lookup_insert_eq in Hdir. injection Hdir as <-.
  by rewrite lookup_delete_eq in Hk'.
Qed.

Lemma bind_safe {A B} (m : M A) (k : A -> M B) st :
  safe m -> exists a, m st = (Ok a, snd (m st)) /\ bind m k st = k a (snd (m st)).
Proof.
  intros Hm. destruct (safe_run m st Hm) as [a Ha]. exists a.
  split; [done|]. by apply bind_Ok.
Qed.

Lemma sub_unlink_no_new d k : preserves no_new_variant (sub_unlink E d k).
Proof.
  intros st. unfold sub_unlink.
  destruct (folder st !! d) as [[c|kids]|] eqn:Hd; try reflexivity.
  destruct (kids !! k) as [[c|]|] eqn:Hk; try reflexivity.
  destruct (faulty E _); [reflexivity|].
  intros d' k' (kids' & c' & Hdir & Hk').
  cbn [snd folder log_op set_folder] in Hdir.
  destruct (decide (d' = d)) as [->|Hne].
  - rewrite lookup_insert_eq in Hdir. injection Hdir as <-.
    exists kids, c'. split; [done|].
    destruct (decide (k' = k)) as [->|Hkk].
    + by rewrite lookup_delete_eq in Hk'.
    + by rewrite lookup_delete_ne in Hk'.
  - rewrite lookup_insert_ne in Hdir by done. by exists kids', c'.
Qed.

Lemma fs_unlink_no_new n : preserves no_new_variant (fs_unlink E n).
Proof.
  intros st. unfold fs_unlink.
  destruct (folder st !! n) as [[c|kids]|] eqn:Hn; try reflexivity.
  destruct (faulty E _); [reflexivity|].
  intros d' k' (kids' & c' & Hdir & Hk').
  cbn [snd folder log_op set_folder] in Hdir.
  destruct (decide (d' = n)) as [->|Hne].
  - by rewrite lookup_delete_eq in Hdir.
  - rewrite lookup_delete_ne in Hdir by done. by exists kids', c'.
Qed.

Lemma delete_in_no_new base d : preserves no_new_variant (delete_in E base d).
Proof.
  unfold delete_in.
  apply preserves_bind; try apply _; [apply preserves_gets, _|].
  intros [[c|kids]|]; try apply preserves_ret, _.
  apply preserves_for_each; try apply _. intros file.
  apply preserves_attempt; try apply _. apply sub_unlink_no_new.
Qed.

Lemma for_each_unlink_complete d l st k :
  k ∈ l ->
  ~ has_variant
      (snd (for_each l (fun file => attempt (sub_unlink E d file)) st)) d k.
Proof.
  revert st. induction l as [|x l IH]; intros st Hin.
  { by apply elem_of_nil in Hin. }
  cbn [for_each].
  destruct (bind_safe (attempt (sub_unlink E d x))
              (fun _ => for_each l (fun file => attempt (sub_unlink E d file)))
              st (safe_attempt _)) as ([] & _ & ->).
  apply list.elem_of_cons in Hin as [->|Hin]; [|by apply IH].
  intros Hv. apply (sub_unlink_removes d x st).
  revert Hv. apply (preserves_for_each no_new_variant).
  intros file. apply preserves_attempt; try apply _. apply sub_unlink_no_new.
Qed.

Lemma delete_in_complete base d k st :
  glob_match E (variant_pattern base d) k = true ->
  ~ has_variant (snd (delete_in E base d st)) d k.
Proof.
  intros Hmatch. unfold delete_in, bind at 1, gets at 1.
  destruct (folder st !! d) as [[c|kids]|] eqn:Hd;
    try (intros (kids' & c' & Hdir & _); simpl in Hdir; congruence).
  destruct (decide (k ∈ glob E (variant_pattern base d) kids)) as [Hin|Hout].
  - by apply for_each_unlink_complete.
  - intros Hv.
    apply (preserves_for_each no_new_variant) in Hv;
      [|intros file; apply preserves_attempt; try apply _; apply sub_unlink_no_new].
    destruct Hv as (kids' & c' & Hdir & Hk).
    assert (kids' = kids) as -> by congruence.
    apply Hout. unfold glob. apply list_elem_of_filter. split; [done|].
    apply list_elem_of_fmap. exists (k, LFile c'). split; [done|].
    by apply elem_of_map_to_list.
Qed.

Lemma for_each_delete_in_complete base l d k st :
  d ∈ l ->
  glob_match E (variant_pattern base d) k = true ->
  ~ has_variant (snd (for_each l (delete_in E base) st)) d k.
Proof.
  intros Hin Hmatch. revert st Hin. induction l as [|x l IH]; intros st Hin.
  { by apply elem_of_nil in Hin. }
  cbn [for_each].
  destruct (bind_safe (delete_in E base x) (fun _ => for_each l (delete_in E base))
              st (safe_delete_in E base x)) as ([] & _ & ->).
  destruct (decide (d = x)) as [->|Hne].
  - intros Hv. apply (delete_in_complete base x k st Hmatch).
    revert Hv. apply (preserves_for_each no_new_variant).
    intros d'. apply delete_in_no_new.
  - apply IH. apply list.elem_of_cons in Hin as [?|?]; done.
Qed.

(** lines 296-312 when no deletion is refused: the variants that match
    are gone, and so are the stale source and the marker. *)
Lemma invalidate_complete source marker st :
  let st' := snd (invalidate E source marker st) in
  (forall d k, in_formats d ->
     glob_match E (variant_pattern (stem source) d) k = true ->
     ~ has_variant st' d k) /\
  (forall c1 c2,
     folder st !! source = Some (File c1) ->
     folder st !! marker = Some (File c2) ->
     ~ in_formats source -> ~ in_formats marker ->
     folder st' !! source = None /\ folder st' !! marker = None).
Proof.
  intros st'. subst st'. unfold invalidate.
  destruct (bind_safe (_delete_converted_files E (stem source))
              (fun _ => attempt (fs_unlink E source);; attempt (fs_unlink E marker))
              st (safe_delete_converted_files E _)) as ([] & _ & ->).
  set (sa := snd (_delete_converted_files E (stem source) st)).
  destruct (bind_safe (attempt (fs_unlink E source))
              (fun _ => attempt (fs_unlink E marker))
              sa (safe_attempt _)) as ([] & _ & ->).
  set (sb := snd (attempt (fs_unlink E source) sa)).
  split.
  - intros d k Hd Hmatch Hv.
    apply (for_each_delete_in_complete (stem source) OUTPUT_FORMATS d k st Hd Hmatch).
    fold (_delete_converted_files E (stem source)). fold sa.
    assert (no_new_variant sa sb) as Hab
      by exact (preserves_attempt no_new_variant _ (fs_unlink_no_new source) sa).
    assert (no_new_variant sb (snd (attempt (fs_unlink E marker) sb))) as Hbc
      by exact (preserves_attempt no_new_variant _ (fs_unlink_no_new marker) sb).
    apply Hab, Hbc, Hv.
  - intros c1 c2 Hs Hm Hsf Hmf.
    pose proof (delete_converted_files_changes E (stem source) st) as (_ & _ & Hfa & _).
    fold sa in Hfa.
    assert (Hsa : folder sa !! source = Some (File c1)) by (by rewrite Hfa).
    assert (Hma : folder sa !! marker = Some (File c2)) by (by rewrite Hfa).
    assert (Hsb : folder sb !! source = None /\
                  (source <> marker -> folder sb !! marker = Some (File c2))).
    { subst sb. unfold attempt, catch, fs_unlink. rewrite Hsa, no_unlink_fault.
      cbn [snd folder log_op set_folder]. rewrite lookup_delete_eq.
      split; [done|]. intros Hne. by rewrite lookup_delete_ne. }
    destruct Hsb as [Hsb Hmb].
    destruct (decide (source = marker)) as [<-|Hne].
    + assert (snd (attempt (fs_unlink E source) sb) = sb) as ->; [|done].
      unfold attempt, catch, fs_unlink. by rewrite Hsb.
    + unfold attempt, catch, fs_unlink. rewrite (Hmb Hne), no_unlink_fault.
      cbn [snd folder log_op set_folder]. rewrite lookup_delete_eq.
      by rewrite lookup_delete_ne.
Qed.

Hypothesis no_fault : forall o, faulty E o = false.

Lemma not_format_with_ext ext n :
  ext <> "" -> has_ext ext n = true -> ~ in_formats n.
Proof.
  intros Hext Hn Hin. apply has_ext_format in Hin.
  apply Hext. eapply has_ext_functional; eauto.
Qed.

(** After the [.updatesvg] block. *)
Lemma ready_after_updatesvg st m svg xml c :
  fst (scan_markers (folder st)) = Some m ->
  fst (scan_sources (folder st)) = Some svg ->
  snd (scan_sources (folder st)) = Some xml ->
  folder st !! xml = Some (File c) ->
  regen_ready E st m svg (stem xml ++ ".svg") c
    (snd (_xml_to_svg E xml (snd (invalidate E svg m st)))).
Proof.
  rewrite update_svg_file_pick, svg_file_pick, xml_file_pick.
  intros Hm Hsvg Hxml Hc.
  pose proof Hm as Hm'. apply pick_listing_Some in Hm' as (cm & Hmf & Hme).
  pose proof Hsvg as Hs'. apply pick_listing_Some in Hs' as (cs & Hsf & Hse).
  pose proof Hxml as Hx'. apply pick_listing_Some in Hx' as (cx & Hxf & Hxe).
  assert (Hstem : stem xml <> "") by (by apply (has_ext_stem_nonempty ".xml")).
  assert (Hnew : has_ext ".svg" (stem xml ++ ".svg") = true)
    by (by apply has_ext_svg_of).
  set (s1 := snd (invalidate E svg m st)).
  assert (Hx1 : folder s1 !! xml = Some (File c)).
  { apply invalidate_keeps_file; [done| |].
    - by eapply (has_ext_ne ".xml" ".svg").
    - by eapply (has_ext_ne ".xml" ".updatesvg"). }
  destruct (invalidate_complete svg m st) as [Hgone Hroot]. fold s1 in Hgone, Hroot.
  destruct (Hroot cs cm Hsf Hmf) as [_ Hm1].
  { by apply (not_format_with_ext ".svg"). }
  { by apply (not_format_with_ext ".updatesvg"). }
  pose proof (invalidate_changes E svg m st) as Hch1. fold s1 in Hch1.
  pose proof (invalidate_writes svg m st) as Hw1. fold s1 in Hw1.
  pose proof (xml_to_svg_changes E xml s1) as Hch2.
  pose proof (xml_to_svg_extends E xml s1) as Hex2.
  set (s2 := snd (_xml_to_svg E xml s1)) in *.
  split; [|split; [|split; [|split]]].
  - etransitivity; [eapply changes_only_mono; [|exact Hch1] |
                    eapply changes_only_mono; [|exact Hch2]]; done.
  - etransitivity; [exact Hw1 | by apply extends_writes].
  - destruct Hch2 as (_ & _ & Hf & _). rewrite Hf; [done|].
    by eapply (has_ext_ne ".svg" ".updatesvg").
  - intros d k Hd Hmatch Hv. apply (Hgone d k Hd Hmatch).
    by apply (extends_no_new _ _ Hex2).
  - destruct (folder s1 !! (stem xml ++ ".svg")) as [[c'|kids]|] eqn:Htarget.
    + left. subst s2.
      rewrite (xml_to_svg_copies E xml c s1) by (done || by rewrite Htarget).
      cbn [snd folder log_op set_folder]. by rewrite lookup_insert_eq.
    + right. exists kids. subst s2.
      destruct (xml_to_svg_cases E xml s1) as [-> | (? & _ & Hdir & _)];
        [done | by destruct (Hdir kids)].
    + left. subst s2.
      rewrite (xml_to_svg_copies E xml c s1) by (done || by rewrite Htarget).
      cbn [snd folder log_op set_folder]. by rewrite lookup_insert_eq.
Qed.

(** After the [.updatexml] block, when there is one. *)
Lemma ready_after_updatexml st m svg xml mx c s2 :
  fst (scan_markers (folder st)) = Some m ->
  snd (scan_markers (folder st)) = Some mx ->
  snd (scan_sources (folder st)) = Some xml ->
  regen_ready E st m svg (stem xml ++ ".svg") c s2 ->
  exists s4,
    handle_updatexml E mx xml (Some (stem xml ++ ".svg")) s2
      = (Ok (Continue tt), s4) /\
    regen_ready E st m svg (stem xml ++ ".svg") c s4.
Proof.
  rewrite update_svg_file_pick, update_xml_file_pick, xml_file_pick.
  intros Hm Hmx Hxml (Hch & Hw & Hgone & Hclean & Hnew).
  apply pick_listing_Some in Hm as (cm & _ & Hme).
  apply pick_listing_Some in Hmx as (cmx & _ & Hmxe).
  apply pick_listing_Some in Hxml as (cx & _ & Hxe).
  assert (Hstem : stem xml <> "") by (by apply (has_ext_stem_nonempty ".xml")).
  assert (Hext : has_ext ".svg" (stem xml ++ ".svg") = true)
    by (by apply has_ext_svg_of).
  assert (Hne1 : stem xml ++ ".svg" <> xml) by (by eapply (has_ext_ne ".svg" ".xml")).
  assert (Hne2 : stem xml ++ ".svg" <> mx)
    by (by eapply (has_ext_ne ".svg" ".updatexml")).
  set (svg' := stem xml ++ ".svg") in *.
  set (s3 := snd (invalidate E xml mx s2)).
  pose proof (invalidate_invalidated E xml mx s2) as HR. fold s3 in HR.
  pose proof (invalidate_changes E xml mx s2) as Hch3. fold s3 in Hch3.
  pose proof (invalidate_writes xml mx s2) as Hw3. fold s3 in Hw3.
  assert (Hnew3 : folder s3 !! svg' = Some (File c) \/
                  exists kids, folder s3 !! svg' = Some (Dir kids)).
  { destruct Hnew as [Hfile | [kids Hdir]].
    - left. by apply invalidate_keeps_file.
    - right. specialize (HR svg'). rewrite Hdir in HR.
      destruct HR as (kids' & ? & _). eauto. }
  assert (Hsome : exists e, folder s3 !! svg' = Some e).
  { destruct Hnew3 as [? | [kids ?]]; eauto. }
  destruct Hsome as [e He].
  exists (snd (_svg_to_xml E svg' s3)).
  split; [by apply (handle_updatexml_with_svg E mx xml svg' e s2)|].
  pose proof (svg_to_xml_changes E svg' s3) as Hch4.
  pose proof (svg_to_xml_extends E svg' s3) as Hex4.
  assert (Hpartner : has_ext ".xml" (stem svg' ++ ".xml") = true).
  { subst svg'. rewrite stem_svg_of by done. by apply has_ext_xml_of. }
  set (s4 := snd (_svg_to_xml E svg' s3)) in *.
  split; [|split; [|split; [|split]]].
  - etransitivity; [exact Hch|].
    etransitivity; [eapply changes_only_mono; [|exact Hch3] |
                    eapply changes_only_mono; [|exact Hch4]]; done.
  - etransitivity; [exact Hw|].
    etransitivity; [exact Hw3 | by apply extends_writes].
  - destruct Hch4 as (_ & _ & Hf & _). rewrite Hf.
    + specialize (HR m). by rewrite Hgone in HR.
    + by eapply (has_ext_ne ".xml" ".updatesvg").
  - intros d k Hd Hmatch Hv. apply (Hclean d k Hd Hmatch).
    apply (invalidated_no_new _ _ _ _ _ HR).
    by apply (extends_no_new _ _ Hex4).
  - destruct Hch4 as (_ & _ & Hf & _). rewrite Hf; [done|].
    by eapply (has_ext_ne ".xml" ".svg").
Qed.

(** The regeneration from a ready state. *)
Lemma regenerate_ready name st m svg svg' c s :
  has_ext ".svg" svg' = true ->
  has_ext ".updatesvg" m = true ->
  regen_ready E st m svg svg' c s ->
  (exists b, fst (regenerate E name (Some svg') s) = Ok (Return b)) /\
  (fst (regenerate E name (Some svg') s) = Ok (Return true) ->
   let s' := snd (regenerate E name (Some svg') s) in
   folder s' !! m = None /\
   folder s' !! svg' = Some (File c) /\
   (forall d k, in_formats d ->
      glob_match E (variant_pattern (stem svg) d) k = true ->
      has_variant s' d k -> OpWrite [d; k] ∈ variant_writes (stem svg')) /\
   (forall size, size ∈ SIZES ->
      has_variant s' "png" (variant_name (stem svg') size "png") /\
      has_variant s' "jpg" (variant_name (stem svg') size "jpg") /\
      has_variant s' "ico" (variant_name (stem svg') size "ico")) /\
   (exists t, trace s' = (trace st ++ t)%list /\
              sub_writes t = variant_writes (stem svg') /\
              OpLedgerWrite ∉ t) /\
   converted_files s' = converted_files st /\
   ledger_file s' = ledger_file st).
Proof.
  intros Hext Hme (Hch & Hw & Hgone & Hclean & Hnew).
  rewrite regenerate_eq.
  destruct Hnew as [Hfile | [kids Hdir]].
  2:{ rewrite Hdir. split; [by exists false | done]. }
  rewrite Hfile, no_fault.
  destruct (declares_800 E c); [|split; [by exists false | done]].
  cbn [negb andb].
  pose proof (create_variants_changes E svg' (stem svg') s) as Hch5.
  assert (Hsafe : safe (_create_variants E svg' (stem svg')))
    by apply safe_catch, safe_ret.
  destruct (safe_run _ s Hsafe) as [success Hgen]. rewrite Hgen in *.
  set (s' := snd (_create_variants E svg' (stem svg') s)) in *.
  destruct success; cbn [fst snd]; [|split; [by eexists | done]].
  split; [by eexists|]. intros _. cbn [snd] in Hch5.
  apply create_variants_ok in Hgen as (Hex & Hall & _).
  assert (Hm5 : ~ (m = temp_name (stem svg') \/ in_formats m)).
  { intros [Heq | Hin].
    - revert Heq. eapply has_ext_ne; [exact Hme | apply has_ext_temp | done].
    - revert Hin. by apply (not_format_with_ext ".updatesvg"). }
  assert (Hs5 : ~ (svg' = temp_name (stem svg') \/ in_formats svg')).
  { intros [Heq | Hin].
    - revert Heq. eapply has_ext_ne; [exact Hext | apply has_ext_temp | done].
    - revert Hin. by apply (not_format_with_ext ".svg"). }
  assert (Hall5 : changes_only (fun _ => True) st s').
  { etransitivity; [exact Hch|]. eapply changes_only_mono; [|exact Hch5]. done. }
  destruct Hch5 as (_ & _ & Hf5 & _).
  split; [by rewrite Hf5|]. split; [by rewrite Hf5|].
  split; [|split; [exact Hall|]].
  - intros d k Hd Hmatch Hv. destruct Hex as (_ & Hback & _).
    destruct (Hback d k Hv) as [Hold|Hin]; [|done].
    by destruct (Hclean d k Hd Hmatch).
  - destruct Hall5 as (Hconv & Hledger & _ & l & Hl & Hnl).
    split; [|done].
    destruct (writes_trans _ _ _ _ _ Hw (extends_writes _ _ _ Hex))
      as (t & Ht & Hsub).
    exists t. split; [done|]. split; [done|].
    rewrite Ht in Hl. by apply app_inv_head in Hl as ->.
Qed.

End Regeneration.

Lemma filter_absent (name : string) (l : list string) :
  name ∉ l -> filter (fun n => n = name) l = [].
Proof.
  induction l as [|x l IH]; intros Hout; [done|].
  apply not_elem_of_cons in Hout as [Hne Hout].
  rewrite filter_cons_False by (by intros ->). by apply IH.
Qed.

(** A name of the in-memory ledger occurs once in its enumeration. *)
Lemma ledger_once (name : string) (ledger : gset string) :
  name ∈ ledger ->
  List.length (filter (fun n => n = name) (elements ledger)) = 1.
Proof.
  intros Hin. apply elem_of_elements in Hin.
  pose proof (NoDup_elements ledger) as Hnd.
  induction Hnd as [|x l Hx Hnd IH]; [by apply elem_of_nil in Hin|].
  apply list.elem_of_cons in Hin as [->|Hin].
  - rewrite filter_cons_True by done. by rewrite filter_absent.
  - rewrite filter_cons_False; [by apply IH|]. by intros ->.
Qed.

(** ** The claims *)

(** Closed side conditions on concrete folders, settled by evaluation. *)
Ltac ledgered := apply (bool_decide_unpack _); vm_compute; exact I.
Ltac holds_file name c := exists name, c; split; vm_compute; reflexivity.
Ltac holds_none := apply pick_listing_None; vm_compute; reflexivity.

(** *** C6: the skip rule *)

(** C6.  A folder whose name is in the ledger and which holds no update
    marker is reported successful and the state is left as it was: the
    folder, the ledger and the trace of mutations are unchanged (no
    filesystem write is performed), so a second run starts from the same
    state and gives the same outcome. *)
Theorem C6_skip_is_idempotent (E : externals) (name : string) (st : state) :
  name ∈ converted_files st ->
  no_file ".updatesvg" (folder st) ->
  no_file ".updatexml" (folder st) ->
  process_icon_folder E name st = (Ok true, st) /\
  process_icon_folder E name (snd (process_icon_folder E name st)) = (Ok true, st).
Proof.
  intros Hin Hs Hx.
  assert (H : process_icon_folder E name st = (Ok true, st)).
  { rewrite process_icon_folder_unfold.
    rewrite update_svg_file_pick, update_xml_file_pick.
    rewrite (proj2 (pick_listing_None _ _) Hs).
    rewrite (proj2 (pick_listing_None _ _) Hx). simpl.
    by apply normal_processing_ledgered. }
  split; [done|]. by rewrite H.
Qed.

Lemma C6_skip_is_idempotent_witness :
  "foo" ∈ converted_files Examples.converted /\
  no_file ".updatesvg" (folder Examples.converted) /\
  no_file ".updatexml" (folder Examples.converted) /\
  process_icon_folder Toy.calm "foo" Examples.converted
    = (Ok true, Examples.converted).
Proof.
  assert (H1 : "foo" ∈ converted_files Examples.converted)
    by ledgered.
  assert (H2 : no_file ".updatesvg" (folder Examples.converted))
    by holds_none.
  assert (H3 : no_file ".updatexml" (folder Examples.converted))
    by holds_none.
  split; [exact H1|]. split; [exact H2|]. split; [exact H3|].
  exact (proj1 (C6_skip_is_idempotent Toy.calm "foo" Examples.converted H1 H2 H3)).
Defined.

(** *** C1: an update marker without its vector file *)

(** C1, as the claim states it, fails: a ledgered folder that holds a
    [.updatesvg] marker and an XML file but no vector file is reported
    successful, not failed. *)
Lemma C1_counterexample :
  "foo" ∈ converted_files Examples.marker_no_vector /\
  has_file ".updatesvg" (folder Examples.marker_no_vector) /\
  no_file ".svg" (folder Examples.marker_no_vector) /\
  fst (process_icon_folder Toy.calm "foo" Examples.marker_no_vector) <> Ok false.
Proof.
  split; [ledgered|].
  split; [holds_file "redo.updatesvg" ""|].
  split; [holds_none|].
  vm_compute. discriminate.
Qed.

(** C1, amended.  For a ledgered folder that holds a [.updatesvg] marker
    and no vector file, the [.updatesvg] block is skipped.  Unless the
    folder also holds both a [.updatexml] marker and an XML file, the folder
    is reported successful and nothing is changed.  When it holds both, the
    [.updatexml] block runs, finds no vector file to rebuild from, and the
    folder is reported failed. *)
Theorem C1_marker_without_vector (E : externals) (name : string) (st : state) :
  name ∈ converted_files st ->
  has_file ".updatesvg" (folder st) ->
  no_file ".svg" (folder st) ->
  (~ (has_file ".updatexml" (folder st) /\ has_file ".xml" (folder st)) ->
   process_icon_folder E name st = (Ok true, st)) /\
  (has_file ".updatexml" (folder st) -> has_file ".xml" (folder st) ->
   fst (process_icon_folder E name st) = Ok false).
Proof.
  intros Hin Hm Hnosvg.
  destruct (pick_listing_has _ _ Hm) as [m Hm'].
  apply pick_listing_None in Hnosvg.
  assert (Hrun : process_icon_folder E name st =
            match pick (file_with ".updatexml") (listing (folder st)) None,
                  pick (file_with ".xml") (listing (folder st)) None with
            | Some mx, Some x => (Ok false, snd (invalidate E x mx st))
            | _, _ => (Ok true, st)
            end).
  { rewrite process_icon_folder_unfold.
    rewrite update_svg_file_pick, update_xml_file_pick, Hm'. simpl orb. cbv iota.
    rewrite marker_processing_ledgered by done. cbv zeta.
    rewrite svg_file_pick, xml_file_pick, Hnosvg.
    unfold bind at 1, ret at 1.
    destruct (pick (file_with ".updatexml") (listing (folder st)) None)
      as [mx|] eqn:Hmx;
      destruct (pick (file_with ".xml") (listing (folder st)) None)
        as [x|] eqn:Hx.
    - by rewrite (bind_Ok _ _ _ _ _ (handle_updatexml_no_vector E mx x st)).
    - unfold regenerate, bind, ret. cbv beta iota. by rewrite normal_processing_ledgered.
    - unfold regenerate, bind, ret. cbv beta iota. by rewrite normal_processing_ledgered.
    - unfold regenerate, bind, ret. cbv beta iota. by rewrite normal_processing_ledgered. }
  rewrite Hrun. split.
  - intros Hno.
    destruct (pick (file_with ".updatexml") (listing (folder st)) None)
      as [mx|] eqn:Hmx; [|done].
    destruct (pick (file_with ".xml") (listing (folder st)) None)
      as [x|] eqn:Hx; [|done].
    destruct Hno.
    apply pick_listing_Some in Hmx as (c1 & ? & ?).
    apply pick_listing_Some in Hx as (c2 & ? & ?).
    split; eexists _, _; eauto.
  - intros H1 H2.
    destruct (pick_listing_has _ _ H1) as [mx ->].
    destruct (pick_listing_has _ _ H2) as [x ->]. done.
Qed.

Lemma C1_marker_without_vector_witness :
  "foo" ∈ converted_files Examples.marker_no_vector /\
  has_file ".updatesvg" (folder Examples.marker_no_vector) /\
  no_file ".svg" (folder Examples.marker_no_vector) /\
  ~ (has_file ".updatexml" (folder Examples.marker_no_vector) /\
     has_file ".xml" (folder Examples.marker_no_vector)) /\
  process_icon_folder Toy.calm "foo" Examples.marker_no_vector
    = (Ok true, Examples.marker_no_vector).
Proof.
  assert (H1 : "foo" ∈ converted_files Examples.marker_no_vector)
    by ledgered.
  assert (H2 : has_file ".updatesvg" (folder Examples.marker_no_vector))
    by (holds_file "redo.updatesvg" "").
  assert (H3 : no_file ".svg" (folder Examples.marker_no_vector))
    by holds_none.
  assert (H4 : ~ (has_file ".updatexml" (folder Examples.marker_no_vector) /\
                  has_file ".xml" (folder Examples.marker_no_vector))).
  { intros [H _]. destruct (pick_listing_has _ _ H) as [n Hn].
    vm_compute in Hn. discriminate. }
  split; [exact H1|]. split; [exact H2|]. split; [exact H3|]. split; [exact H4|].
  exact (proj1 (C1_marker_without_vector Toy.calm "foo" _ H1 H2 H3) H4).
Defined.

(** *** C9: the intermediate raster *)

(** C9.  The generator is run on a new folder whose [jpg] entry is a
    regular file: the rendering succeeds, [mkdir] raises on [jpg], the
    generator returns [False], and the intermediate raster, which was not
    in the folder before, is left in it.  The same happens when the lossy
    encoder raises. *)
Theorem C9_temp_left_behind :
  folder Examples.jpg_is_a_file !! temp_name "foo" = None /\
  fst (_create_variants Toy.calm "foo.svg" "foo" Examples.jpg_is_a_file)
    = Ok false /\
  folder (snd (_create_variants Toy.calm "foo.svg" "foo" Examples.jpg_is_a_file))
    !! temp_name "foo" = Some (File ("raster:" ++ Toy.good)) /\
  fst (_create_variants Toy.broken_jpeg "foo.svg" "foo" Examples.fresh)
    = Ok false /\
  folder (snd (_create_variants Toy.broken_jpeg "foo.svg" "foo" Examples.fresh))
    !! temp_name "foo" = Some (File ("raster:" ++ Toy.good)).
Proof. repeat split; vm_compute; reflexivity. Qed.

(** *** C2: a ledger file that cannot be written *)

Section LedgerFailure.

Context (E : externals).

Lemma process_icon_folder_no_marker name st :
  no_file ".updatesvg" (folder st) ->
  no_file ".updatexml" (folder st) ->
  process_icon_folder E name st = normal_processing E name st.
Proof.
  intros Hs Hx. rewrite process_icon_folder_unfold.
  rewrite update_svg_file_pick, update_xml_file_pick.
  rewrite (proj2 (pick_listing_None _ _) Hs).
  by rewrite (proj2 (pick_listing_None _ _) Hx).
Qed.

(** The normal processing of a new folder whose generation succeeds ends
    in [record]. *)
Lemma normal_processing_generated name st svg :
  name ∉ converted_files st ->
  generation_succeeds E st svg ->
  normal_processing E name st
    = (record E name ;; ret true) (generated E st svg).
Proof.
  intros Hnew (Hsync & Hsize & Hgen). unfold generated.
  unfold normal_processing, bind at 1, gets at 1.
  rewrite bool_decide_eq_false_2 by done.
  unfold bind at 1.
  destruct (sync_asset_pair E st) as [r st1]. simpl in *. subst r.
  unfold convert_new.
  apply check_svg_size_true in Hsize as (c & Hfile & Hsize).
  unfold bind at 1, path_exists at 1, gets at 1. rewrite Hfile.
  unfold bind at 1. rewrite Hsize. simpl negb. cbv iota.
  destruct (_create_variants E svg (stem svg) st1) as [r st2] eqn:Hcv.
  simpl in *. subst r. by rewrite (bind_Ok _ _ _ _ _ Hcv).
Qed.

Lemma record_unwritable name st :
  faulty E OpLedgerWrite = true ->
  (record E name ;; ret true) st = (Raised, add_to_ledger name st).
Proof.
  intros Hro. unfold record, bind, modify, _save_converted_list.
  by rewrite Hro.
Qed.

Lemma record_writable name st :
  faulty E OpLedgerWrite = false ->
  (record E name ;; ret true) st =
    (Ok true,
     mkState ({[name]} ∪ converted_files st)
       (Some (merge_sort String.le (elements ({[name]} ∪ converted_files st))))
       (folder st) (trace st ++ [OpLedgerWrite])).
Proof.
  intros Hrw. unfold record, bind, modify, _save_converted_list.
  by rewrite Hrw.
Qed.

End LedgerFailure.

(** C2, as the claim states it, fails.  In an icons root with the new
    folders [aaa] and [bbb] and a ledger file that cannot be written, the
    variants of [aaa] are generated, and then no failed result is reported
    for [aaa]: the exception leaves [process_icon_folder] and [run], and
    [bbb] is never processed. *)
Lemma C2_counterexample :
  generation_succeeds Toy.read_only_ledger
    (enter Examples.two_folders (list_to_map [("foo.svg", File Toy.good)]))
    "foo.svg" /\
  fst (process_in Toy.read_only_ledger "aaa" Examples.two_folders) <> Ok false /\
  fst (run Toy.read_only_ledger Examples.two_folders) = Raised /\
  icon_folder (snd (run Toy.read_only_ledger Examples.two_folders)) "bbb"
    = icon_folder Examples.two_folders "bbb" /\
  filter (fun e => fst e = "bbb")
    (w_trace (snd (run Toy.read_only_ledger Examples.two_folders))) = [].
Proof.
  split; [repeat split; vm_compute; reflexivity|].
  split; [vm_compute; discriminate|].
  repeat split; vm_compute; reflexivity.
Qed.

(** C2, amended.  When the variants of a new folder without markers are
    generated and the ledger file cannot be written, the exception of the
    write leaves [process_icon_folder]: no result is reported for that
    folder.  The pass stops there: [run] raises, every other folder of the
    icons root is as it was when this folder was reached, the ledger file is
    not written, the trace ends with the mutations of this folder, and
    [main] exits with code 1. *)
Theorem C2_ledger_failure_aborts_the_run (E : externals) (w w1 : world)
    (icons : gmap string rentry) (pre post : list string) (name svg : string)
    (tally : nat * nat) (d : gmap string node) :
  faulty E OpLedgerWrite = true ->
  w_icons w = Some icons ->
  icon_folders icons = (pre ++ name :: post)%list ->
  run_loop E pre 0 0 w = (Ok tally, w1) ->
  icon_folder w1 name = Some (RDir d) ->
  name ∉ w_converted w1 ->
  no_file ".updatesvg" d ->
  no_file ".updatexml" d ->
  generation_succeeds E (enter w1 d) svg ->
  fst (process_icon_folder E name (enter w1 d)) = Raised /\
  fst (run E w) = Raised /\
  fst (main E w) = 1 /\
  (forall other, other <> name ->
     icon_folder (snd (run E w)) other = icon_folder w1 other) /\
  w_ledger (snd (run E w)) = w_ledger w1 /\
  w_trace (snd (run E w))
    = (w_trace w1 ++ map (pair name) (trace (generated E (enter w1 d) svg)))%list.
Proof.
  intros Hro Hicons Hsorted Hpre Hdir Hnew Hs Hx Hgen.
  assert (Hproc : process_icon_folder E name (enter w1 d)
                  = (Raised, add_to_ledger name (generated E (enter w1 d) svg))).
  { rewrite process_icon_folder_no_marker by done.
    rewrite (normal_processing_generated E name _ svg) by done.
    by apply record_unwritable. }
  assert (Hloop : run_loop E (pre ++ name :: post)%list 0 0 w
                  = (Raised, snd (process_in E name w1))).
  { rewrite run_loop_app, Hpre. destruct tally as [s f]. simpl.
    rewrite (process_in_folder E name w1 d Hdir), Hproc. done. }
  assert (Hrun : run E w = (Raised, snd (process_in E name w1))).
  { unfold run. rewrite Hicons, Hsorted. clear Hsorted Hpre.
    destruct pre as [|p pre]; simpl app in *; cbv iota; by rewrite Hloop. }
  split; [by rewrite Hproc|].
  unfold main. rewrite Hrun. split; [done|]. split; [done|].
  rewrite (process_in_folder E name w1 d Hdir), Hproc. simpl.
  split; [|split].
  - intros other Hother. unfold icon_folder in *. simpl.
    destruct (w_icons w1); [|done]. simpl. by rewrite lookup_insert_ne.
  - pose proof (create_variants_changes E svg (stem svg)
                  (snd (sync_asset_pair E (enter w1 d)))) as (_ & Hl & _).
    unfold generated. rewrite Hl. clear Hl.
    destruct Hgen as (Hsync & _).
    unfold sync_asset_pair, bind, gets in *.
    destruct (fst (scan_sources (folder (enter w1 d)))) as [s|],
      (snd (scan_sources (folder (enter w1 d)))) as [x|]; simpl; try done.
    + pose proof (svg_to_xml_changes E s (enter w1 d)) as (_ & Hl & _).
      destruct (_svg_to_xml E s (enter w1 d)) as [[b|] st1]; simpl in *; done.
    + pose proof (xml_to_svg_changes E x (enter w1 d)) as (_ & Hl & _).
      destruct (_xml_to_svg E x (enter w1 d)) as [[b|] st1]; simpl in *; done.
  - done.
Qed.

Lemma C2_ledger_failure_aborts_the_run_witness :
  faulty Toy.read_only_ledger OpLedgerWrite = true /\
  ("aaa" ∉ w_converted Examples.two_folders) /\
  generation_succeeds Toy.read_only_ledger
    (enter Examples.two_folders (list_to_map [("foo.svg", File Toy.good)]))
    "foo.svg" /\
  fst (run Toy.read_only_ledger Examples.two_folders) = Raised /\
  fst (main Toy.read_only_ledger Examples.two_folders) = 1.
Proof.
  assert (H1 : faulty Toy.read_only_ledger OpLedgerWrite = true) by reflexivity.
  assert (H2 : "aaa" ∉ w_converted Examples.two_folders)
    by apply not_elem_of_empty.
  assert (H3 : generation_succeeds Toy.read_only_ledger
            (enter Examples.two_folders (list_to_map [("foo.svg", File Toy.good)]))
            "foo.svg")
    by (repeat split; vm_compute; reflexivity).
  split; [exact H1|]. split; [exact H2|]. split; [exact H3|].
  pose proof (C2_ledger_failure_aborts_the_run Toy.read_only_ledger
    Examples.two_folders Examples.two_folders
    (list_to_map
       [("aaa", RDir (list_to_map [("foo.svg", File Toy.good)]));
        ("bbb", RDir (list_to_map [("bar.svg", File Toy.good)]))])
    [] ["bbb"] "aaa" "foo.svg" (0, 0)
    (list_to_map [("foo.svg", File Toy.good)])
    H1 eq_refl) as H.
  destruct H as (_ & Hrun & Hmain & _).
  - vm_compute; reflexivity.
  - reflexivity.
  - vm_compute; reflexivity.
  - exact H2.
  - holds_none.
  - holds_none.
  - exact H3.
  - split; [exact Hrun | exact Hmain].
Defined.

(** *** C10: what a marker-driven invalidation deletes *)

(** The toy glob matches the patterns of [foo] literally. *)
Lemma toy_glob_is_literal : literal_glob Toy.calm "foo".
Proof.
  intros d k Hd Hg.
  apply list_elem_of_In in Hd. simpl in Hd.
  destruct Hd as [<-|[<-|[<-|[]]]];
    apply andb_true_iff in Hg as [Hg Hpost];
    apply andb_true_iff in Hg as [Hlen Hpre];
    (split; [exact Hpre|]); unfold ends_with;
    (apply andb_true_iff; split; [|exact Hpost]);
    apply Nat.leb_le; apply Nat.leb_le in Hlen; simpl in *; lia.
Qed.

(** C10, as the claim states it, fails: files with a different base name
    are not all left unchanged.  In a folder that holds the icons [foo]
    and [foo_bar], the invalidation for [foo.svg] deletes the variant
    [png/foo_bar_64.png] of the other icon, whose name matches the pattern
    [foo_*.png]. *)
Lemma C10_counterexample :
  let st' := snd (invalidate Toy.calm "foo.svg" "redo.updatesvg"
                    Samples.two_icons) in
  stem "foo_bar.svg" <> stem "foo.svg" /\
  has_variant Samples.two_icons "png"
    (variant_name (stem "foo_bar.svg") 64 "png") /\
  ~ has_variant st' "png" (variant_name (stem "foo_bar.svg") 64 "png") /\
  folder st' !! "foo_bar.svg" = Some (File Toy.good).
Proof.
  intros st'.
  split; [vm_compute; discriminate|].
  split.
  { eexists _, "sibling". split; vm_compute; reflexivity. }
  split; [|vm_compute; reflexivity].
  intros (kids & c & Hd & Hk).
  vm_compute in Hd. injection Hd as <-. vm_compute in Hk. discriminate.
Qed.

(** C10, amended.  The invalidation that an update marker triggers (the
    deletions of lines 296-312 and 324-340, for the stale source [source]
    and the marker [marker]) creates and modifies nothing.  A regular file
    of the icon folder other than [source] and [marker] is kept.  A
    sub-directory stays in place; the entries of a sub-directory that is
    not an output directory are all kept; in an output directory every
    entry whose name does not match the pattern [{base_name}_*.{format}]
    is kept, and so is every entry that is a directory.  The ledger is not
    touched.  Where the glob matches literally, an entry of an output
    directory is kept when its name does not begin with [{base_name}_], or
    does not end with the extension of that directory; a variant of
    another icon whose base name begins with [{base_name}_] matches the
    pattern, and is not protected. *)
Theorem C10_invalidation_deletes_only_its_targets
    (E : externals) (source marker : string) (st : state) :
  let st' := snd (invalidate E source marker st) in
  (forall n c, folder st !! n = Some (File c) ->
     n <> source -> n <> marker -> folder st' !! n = Some (File c)) /\
  (forall n c, folder st !! n = Some (File c) ->
     folder st' !! n = Some (File c) \/ folder st' !! n = None) /\
  (forall n, folder st !! n = None -> folder st' !! n = None) /\
  (forall n kids, folder st !! n = Some (Dir kids) ->
     exists kids',
       folder st' !! n = Some (Dir kids') /\
       (~ in_formats n -> kids' = kids) /\
       (forall k, glob_match E (variant_pattern (stem source) n) k = false ->
          kids' !! k = kids !! k) /\
       (forall k, kids !! k = Some LDir -> kids' !! k = Some LDir) /\
       (forall k, kids' !! k = kids !! k \/ kids' !! k = None) /\
       (literal_glob E (stem source) ->
        forall k,
          String.prefix (stem source ++ "_") k = false \/
          ends_with (String "." n) k = false ->
          kids' !! k = kids !! k)) /\
  converted_files st' = converted_files st /\
  ledger_file st' = ledger_file st.
Proof.
  intros st'.
  pose proof (invalidate_invalidated E source marker st) as HR.
  pose proof (invalidate_changes E source marker st) as (Hconv & Hledger & _).
  fold st' in HR, Hconv, Hledger.
  split; [|split; [|split; [|split; [|done]]]].
  - intros n c Hn Hs Hm. specialize (HR n). rewrite Hn in HR.
    destruct HR as [HR | [[?|?] _]]; done.
  - intros n c Hn. specialize (HR n). rewrite Hn in HR.
    destruct HR as [HR | [_ HR]]; auto.
  - intros n Hn. specialize (HR n). by rewrite Hn in HR.
  - intros n kids Hn. specialize (HR n). rewrite Hn in HR.
    destruct HR as (kids' & Hn' & Hk). exists kids'. split; [done|].
    split; [|split; [|split; [|split]]].
    + intros Hnf. apply map_eq. intros k.
      destruct (Hk k) as [? | (_ & ? & _)]; done.
    + intros k Hg. destruct (Hk k) as [? | (_ & _ & Hg' & _)]; [done|].
      congruence.
    + intros k Hd. destruct (Hk k) as [Hs | (_ & _ & _ & c & Hc)]; congruence.
    + intros k. destruct (Hk k) as [? | (? & _)]; auto.
    + intros Hlit k Hout.
      destruct (Hk k) as [? | (_ & Hfmt & Hg & _)]; [done|].
      destruct (Hlit n k Hfmt Hg) as (Hpre & Hpost).
      destruct Hout; congruence.
Qed.

Lemma C10_invalidation_deletes_only_its_targets_witness :
  let st' := snd (invalidate Toy.calm "foo.svg" "redo.updatesvg" Examples.cluttered) in
  let st2 := snd (invalidate Toy.calm "foo.svg" "redo.updatesvg"
                    Samples.two_icons) in
  folder st' !! "foo.svg" = None /\
  folder st' !! "redo.updatesvg" = None /\
  folder st' !! "notes.txt" = Some (File "keep") /\
  folder st' !! "foo.xml" = Some (File Toy.good) /\
  folder st' !! "thumbs" = folder Examples.cluttered !! "thumbs" /\
  (exists kids',
    folder st' !! "png" = Some (Dir kids') /\
    kids' !! "foo_64.png" = None /\
    kids' !! "foo_32.png" = None /\
    kids' !! "bar_64.png" = Some (LFile "other") /\
    kids' !! "foo_64.jpg" = Some (LFile "stray") /\
    kids' !! "foo_dir.png" = Some LDir) /\
  literal_glob Toy.calm "foo" /\
  exists kids2,
    folder st2 !! "png" = Some (Dir kids2) /\
    kids2 !! "foobar_64.png" = Some (LFile "other") /\
    kids2 !! "foo_64.jpg" = Some (LFile "stray").
Proof.
  intros st' st2.
  destruct (C10_invalidation_deletes_only_its_targets Toy.calm
              "foo.svg" "redo.updatesvg" Examples.cluttered)
    as (Hfile & _ & _ & Hdir & _).
  fold st' in Hfile, Hdir.
  split; [vm_compute; reflexivity|]. split; [vm_compute; reflexivity|].
  split; [apply Hfile; [vm_compute; reflexivity | discriminate | discriminate]|].
  split; [apply Hfile; [vm_compute; reflexivity | discriminate | discriminate]|].
  split.
  { destruct (Hdir "thumbs" (list_to_map [("foo_1.png", LFile "mine")]))
      as (kids' & -> & Hsame & _); [vm_compute; reflexivity|].
    rewrite Hsame; [vm_compute; reflexivity|].
    unfold in_formats, OUTPUT_FORMATS. rewrite list_elem_of_In. simpl.
    intros [H|[H|[H|[]]]]; discriminate. }
  split.
  { destruct (Hdir "png"
      (list_to_map
         [("foo_64.png", LFile "old"); ("foo_32.png", LFile "old");
          ("bar_64.png", LFile "other"); ("foo_64.jpg", LFile "stray");
          ("foo_dir.png", LDir)]))
      as (kids' & Hpng & _ & Hkeep & Hsub & _); [vm_compute; reflexivity|].
    exists kids'. split; [exact Hpng|].
    assert (Hv : folder st' !! "png" = Some (Dir kids')) by exact Hpng.
    vm_compute in Hv. injection Hv as Hv.
    split; [rewrite <- Hv; vm_compute; reflexivity|].
    split; [rewrite <- Hv; vm_compute; reflexivity|].
    split; [rewrite Hkeep; vm_compute; reflexivity|].
    split; [rewrite Hkeep; vm_compute; reflexivity|].
    apply Hsub. vm_compute; reflexivity. }
  split; [exact toy_glob_is_literal|].
  destruct (C10_invalidation_deletes_only_its_targets Toy.calm
              "foo.svg" "redo.updatesvg" Samples.two_icons)
    as (_ & _ & _ & Hdir2 & _).
  fold st2 in Hdir2.
  destruct (Hdir2 "png"
    (list_to_map
       [("foo_64.png", LFile "old");
        ("foo_bar_64.png", LFile "sibling");
        ("foobar_64.png", LFile "other");
        ("foo_64.jpg", LFile "stray")]))
    as (kids2 & Hpng & _ & _ & _ & _ & Hlit); [vm_compute; reflexivity|].
  exists kids2. split; [exact Hpng|].
  split.
  - rewrite (Hlit toy_glob_is_literal "foobar_64.png");
      [vm_compute; reflexivity | left; vm_compute; reflexivity].
  - rewrite (Hlit toy_glob_is_literal "foo_64.jpg");
      [vm_compute; reflexivity | right; vm_compute; reflexivity].
Defined.

(** *** C5: the asset pair is made complete *)

(** C5, as the claim states it, fails: a ledgered folder without marker
    that holds a vector file and no XML file is skipped, and holds no XML
    file afterwards. *)
Lemma C5_counterexample :
  has_file ".svg" (folder Examples.converted_then_edited) /\
  no_file ".xml" (folder Examples.converted_then_edited) /\
  no_file ".xml"
    (folder (snd (process_icon_folder Toy.calm "foo" Examples.converted_then_edited))) /\
  folder (snd (process_icon_folder Toy.calm "foo" Examples.converted_then_edited))
    !! "foo.xml" = None.
Proof.
  split; [holds_file "foo.svg" Toy.small|].
  split; [holds_none|]. split; [holds_none|]. vm_compute; reflexivity.
Qed.

(** C5, amended.  For a folder that is not in the ledger and holds no
    update marker: when it holds no XML file and the scan selects the
    vector file [svg], and reading [svg] and writing its XML partner do not
    fail, then after [process_icon_folder] the XML file with the base name
    of [svg] exists and holds the text of [svg], which is still in place;
    and the same with the roles of the vector file and the XML file
    exchanged. *)
Theorem C5_new_folder_pair_is_completed (E : externals) (name : string)
    (st : state) :
  name ∉ converted_files st ->
  no_file ".updatesvg" (folder st) ->
  no_file ".updatexml" (folder st) ->
  let st' := snd (process_icon_folder E name st) in
  (forall svg c,
     no_file ".xml" (folder st) ->
     fst (scan_sources (folder st)) = Some svg ->
     folder st !! svg = Some (File c) ->
     folder st !! (stem svg ++ ".xml") = None ->
     faulty E (OpRead [svg]) = false ->
     faulty E (OpWrite [stem svg ++ ".xml"]) = false ->
     folder st' !! (stem svg ++ ".xml") = Some (File c) /\
     folder st' !! svg = Some (File c)) /\
  (forall xml c,
     no_file ".svg" (folder st) ->
     snd (scan_sources (folder st)) = Some xml ->
     folder st !! xml = Some (File c) ->
     folder st !! (stem xml ++ ".svg") = None ->
     faulty E (OpRead [xml]) = false ->
     faulty E (OpWrite [stem xml ++ ".svg"]) = false ->
     folder st' !! (stem xml ++ ".svg") = Some (File c) /\
     folder st' !! xml = Some (File c)).
Proof.
  intros Hnew Hs Hx st'. subst st'.
  rewrite process_icon_folder_no_marker by done.
  rewrite normal_processing_new, sync_asset_pair_eq by done.
  split.
  - intros svg c Hnoxml Hsvg Hfile Hfree Hr Hw.
    assert (Hext : has_ext ".svg" svg = true).
    { rewrite svg_file_pick in Hsvg.
      by apply pick_listing_Some in Hsvg as (? & _ & ?). }
    assert (Hstem : stem svg <> "")
      by (by apply (has_ext_stem_nonempty ".svg")).
    rewrite Hsvg, xml_file_pick, (proj2 (pick_listing_None _ _) Hnoxml).
    rewrite (svg_to_xml_copies E svg c st) by (done || by rewrite Hfree).
    cbn [snd].
    match goal with
    | |- context [convert_new E name svg ?s] =>
        pose proof (convert_new_touches E name svg s) as Hframe; set (st1 := s) in *
    end.
    split.
    + rewrite Hframe.
      * subst st1. cbn [folder log_op set_folder]. by rewrite lookup_insert_eq.
      * intros [Heq | Hin].
        -- revert Heq. eapply has_ext_ne;
             [by apply has_ext_xml_of | apply has_ext_temp | done].
        -- revert Hin. intros Hin. apply has_ext_format in Hin.
           eapply (has_ext_ne ".xml" ""); [by apply has_ext_xml_of | exact Hin | done | done].
    + rewrite Hframe.
      * subst st1. cbn [folder log_op set_folder].
        rewrite lookup_insert_ne; [done|].
        eapply has_ext_ne; [by apply has_ext_xml_of | exact Hext | done].
      * intros [Heq | Hin].
        -- revert Heq. eapply has_ext_ne; [exact Hext | apply has_ext_temp | done].
        -- apply has_ext_format in Hin.
           eapply (has_ext_ne ".svg" ""); [exact Hext | exact Hin | done | done].
  - intros xml c Hnosvg Hxml Hfile Hfree Hr Hw.
    assert (Hext : has_ext ".xml" xml = true).
    { rewrite xml_file_pick in Hxml.
      by apply pick_listing_Some in Hxml as (? & _ & ?). }
    assert (Hstem : stem xml <> "")
      by (by apply (has_ext_stem_nonempty ".xml")).
    rewrite Hxml, svg_file_pick, (proj2 (pick_listing_None _ _) Hnosvg).
    rewrite (xml_to_svg_copies E xml c st) by (done || by rewrite Hfree).
    cbn [snd].
    match goal with
    | |- context [convert_new E name ?v ?s] =>
        pose proof (convert_new_touches E name v s) as Hframe; set (st1 := s) in *
    end.
    rewrite stem_svg_of in Hframe by done.
    split.
    + rewrite Hframe.
      * subst st1. cbn [folder log_op set_folder]. by rewrite lookup_insert_eq.
      * intros [Heq | Hin].
        -- revert Heq. eapply has_ext_ne;
             [by apply has_ext_svg_of | apply has_ext_temp | done].
        -- apply has_ext_format in Hin.
           eapply (has_ext_ne ".svg" ""); [by apply has_ext_svg_of | exact Hin | done | done].
    + rewrite Hframe.
      * subst st1. cbn [folder log_op set_folder].
        rewrite lookup_insert_ne; [done|].
        eapply has_ext_ne; [by apply has_ext_svg_of | exact Hext | done].
      * intros [Heq | Hin].
        -- revert Heq. eapply has_ext_ne; [exact Hext | apply has_ext_temp | done].
        -- apply has_ext_format in Hin.
           eapply (has_ext_ne ".xml" ""); [exact Hext | exact Hin | done | done].
Qed.

Lemma C5_new_folder_pair_is_completed_witness :
  ("foo" ∉ converted_files Examples.fresh) /\
  no_file ".xml" (folder Examples.fresh) /\
  folder Examples.fresh !! "foo.svg" = Some (File Toy.good) /\
  folder (snd (process_icon_folder Toy.calm "foo" Examples.fresh)) !! "foo.xml"
    = Some (File Toy.good) /\
  no_file ".svg" (folder Examples.fresh_xml) /\
  folder (snd (process_icon_folder Toy.calm "foo" Examples.fresh_xml)) !! "foo.svg"
    = Some (File Toy.good).
Proof.
  assert (H1 : "foo" ∉ converted_files Examples.fresh) by apply not_elem_of_empty.
  assert (H2 : no_file ".xml" (folder Examples.fresh)) by holds_none.
  assert (H3 : folder Examples.fresh !! "foo.svg" = Some (File Toy.good))
    by (vm_compute; reflexivity).
  assert (H4 : no_file ".svg" (folder Examples.fresh_xml)) by holds_none.
  split; [exact H1|]. split; [exact H2|]. split; [exact H3|].
  split; [|split; [exact H4|]].
  - refine (proj1 (proj1 (C5_new_folder_pair_is_completed Toy.calm "foo"
              Examples.fresh H1 _ _) "foo.svg" Toy.good H2 _ H3 _ _ _)).
    + holds_none.
    + holds_none.
    + vm_compute; reflexivity.
    + vm_compute; reflexivity.
    + reflexivity.
    + reflexivity.
  - refine (proj1 (proj2 (C5_new_folder_pair_is_completed Toy.calm "foo"
              Examples.fresh_xml _ _ _) "foo.xml" Toy.good H4 _ _ _ _ _)).
    + apply not_elem_of_empty.
    + holds_none.
    + holds_none.
    + vm_compute; reflexivity.
    + vm_compute; reflexivity.
    + vm_compute; reflexivity.
    + reflexivity.
    + reflexivity.
Defined.

(** *** C4: the size gate *)

(** C4, as the claim states it, fails: a folder whose vector file declares
    500x500 but whose name is in the ledger, without marker, is skipped and
    reported successful. *)
Lemma C4_counterexample :
  folder Examples.converted_then_edited !! "foo.svg" = Some (File Toy.small) /\
  declares_800 Toy.calm Toy.small = false /\
  fst (process_icon_folder Toy.calm "foo" Examples.converted_then_edited)
    <> Ok false.
Proof.
  split; [vm_compute; reflexivity|]. split; [vm_compute; reflexivity|].
  vm_compute. discriminate.
Qed.

(** C4, amended.  For a folder that is not in the ledger and holds no
    update marker, whose vector file declares a width or a height other
    than 800: [process_icon_folder] returns a failed result and generates
    nothing.  The only entry of the folder that may differ afterwards is the
    XML partner of the vector file, the only mutation in the trace is the
    write of that partner, every sub-directory is as it was, and the ledger
    is untouched.  In a marker-driven regeneration the same gate ends the
    processing: when the vector file it is about to use declares another
    size, [regenerate] returns a failed result and changes nothing. *)
Theorem C4_size_gate (E : externals) (name svg : string) (c : content)
    (st : state) :
  folder st !! svg = Some (File c) ->
  declares_800 E c = false ->
  (name ∉ converted_files st ->
   no_file ".updatesvg" (folder st) ->
   no_file ".updatexml" (folder st) ->
   fst (scan_sources (folder st)) = Some svg ->
   let st' := snd (process_icon_folder E name st) in
   fst (process_icon_folder E name st) = Ok false /\
   (forall n, n <> stem svg ++ ".xml" -> folder st' !! n = folder st !! n) /\
   (forall n kids, folder st !! n = Some (Dir kids) ->
      folder st' !! n = Some (Dir kids)) /\
   (trace st' = trace st \/
    trace st' = (trace st ++ [OpWrite [(stem svg ++ ".xml")%string]])%list) /\
   converted_files st' = converted_files st /\
   ledger_file st' = ledger_file st) /\
  regenerate E name (Some svg) st = (Ok (Return false), st).
Proof.
  intros Hfile Hsize. split; [|by eapply regenerate_wrong_size].
  intros Hnew Hs Hx Hsvg st'. subst st'.
  assert (Hext : has_ext ".svg" svg = true).
  { rewrite svg_file_pick in Hsvg.
    by apply pick_listing_Some in Hsvg as (? & _ & ?). }
  assert (Hstem : stem svg <> "") by (by apply (has_ext_stem_nonempty ".svg")).
  assert (Hne : svg <> stem svg ++ ".xml").
  { eapply has_ext_ne; [exact Hext | by apply has_ext_xml_of | done]. }
  rewrite process_icon_folder_no_marker by done.
  rewrite normal_processing_new, sync_asset_pair_eq, Hsvg by done.
  destruct (snd (scan_sources (folder st))) as [xml|].
  { rewrite (convert_new_wrong_size E name svg c st) by done. simpl.
    repeat split; auto. }
  destruct (svg_to_xml_cases E svg st) as [Hcopy | (c' & Hc' & Hdir & Hcopy)];
    rewrite Hcopy; cbn [snd].
  - rewrite (convert_new_wrong_size E name svg c st) by done. simpl.
    repeat split; auto.
  - rewrite (convert_new_wrong_size E name svg c) by
      first [done | by cbn [folder log_op set_folder]; rewrite lookup_insert_ne].
    cbn [fst snd folder log_op set_folder trace converted_files ledger_file].
    split; [done|]. split; [|split; [|split; [by right | done]]].
    + intros n Hn. by rewrite lookup_insert_ne.
    + intros n kids Hn. rewrite lookup_insert_ne; [done|].
      intros <-. by destruct (Hdir kids).
Qed.

Lemma C4_size_gate_witness :
  folder Examples.fresh_small !! "foo.svg" = Some (File Toy.small) /\
  declares_800 Toy.calm Toy.small = false /\
  ("foo" ∉ converted_files Examples.fresh_small) /\
  fst (process_icon_folder Toy.calm "foo" Examples.fresh_small) = Ok false /\
  folder (snd (process_icon_folder Toy.calm "foo" Examples.fresh_small)) !! "png"
    = folder Examples.fresh_small !! "png".
Proof.
  assert (H1 : folder Examples.fresh_small !! "foo.svg" = Some (File Toy.small))
    by (vm_compute; reflexivity).
  assert (H2 : declares_800 Toy.calm Toy.small = false) by (vm_compute; reflexivity).
  assert (H3 : "foo" ∉ converted_files Examples.fresh_small)
    by apply not_elem_of_empty.
  split; [exact H1|]. split; [exact H2|]. split; [exact H3|].
  destruct (proj1 (C4_size_gate Toy.calm "foo" "foo.svg" Toy.small
                     Examples.fresh_small H1 H2) H3)
    as (Hres & Hsame & _).
  - holds_none.
  - holds_none.
  - vm_compute; reflexivity.
  - split; [exact Hres|]. apply Hsame. discriminate.
Defined.

(** *** C7: the matrix of variants *)

(** C7.  When the processing of a folder that is not in the ledger and
    holds no update marker selects the vector file [svg] and returns
    success, the writes it performed into sub-directories are exactly the
    writes of the matrix: fifteen pairwise different files, one for each of
    the five sizes and the three formats, the file of size [s] and format
    [f] being [f/<base>_<s>.<f>] with [<base>] the base name of [svg].
    Each of them is a regular file afterwards, the folder name is in the
    ledger, and the vector file declares 800x800. *)
Theorem C7_matrix_is_complete (E : externals) (name svg : string) (st : state) :
  name ∉ converted_files st ->
  no_file ".updatesvg" (folder st) ->
  no_file ".updatexml" (folder st) ->
  fst (scan_sources (folder st)) = Some svg ->
  fst (process_icon_folder E name st) = Ok true ->
  let st' := snd (process_icon_folder E name st) in
  (exists t, trace st' = (trace st ++ t)%list /\
             sub_writes t = variant_writes (stem svg)) /\
  List.length (variant_writes (stem svg)) = 15 /\
  NoDup (variant_writes (stem svg)) /\
  (forall size, size ∈ SIZES ->
     has_variant st' "png" (variant_name (stem svg) size "png") /\
     has_variant st' "jpg" (variant_name (stem svg) size "jpg") /\
     has_variant st' "ico" (variant_name (stem svg) size "ico")) /\
  name ∈ converted_files st' /\
  (exists c, folder st !! svg = Some (File c) /\ declares_800 E c = true).
Proof.
  intros Hnew Hs Hx Hsvg Hok st'. subst st'. revert Hok.
  assert (Hext : has_ext ".svg" svg = true).
  { rewrite svg_file_pick in Hsvg.
    by apply pick_listing_Some in Hsvg as (? & _ & ?). }
  assert (Hstem : stem svg <> "") by (by apply (has_ext_stem_nonempty ".svg")).
  assert (Hfile : exists c0, folder st !! svg = Some (File c0)).
  { rewrite svg_file_pick in Hsvg.
    apply pick_listing_Some in Hsvg as (? & ? & _). eauto. }
  destruct Hfile as [c0 Hfile].
  rewrite process_icon_folder_no_marker by done.
  rewrite normal_processing_new, sync_asset_pair_eq, Hsvg by done.
  assert (Hgo : forall st1,
            extends [] st st1 -> folder st1 !! svg = folder st !! svg ->
            converted_files st1 = converted_files st ->
            fst (convert_new E name svg st1) = Ok true ->
            (exists t, trace (snd (convert_new E name svg st1)) = (trace st ++ t)%list /\
               sub_writes t = variant_writes (stem svg)) /\
            List.length (variant_writes (stem svg)) = 15 /\
            NoDup (variant_writes (stem svg)) /\
            (forall size, size ∈ SIZES ->
               has_variant (snd (convert_new E name svg st1)) "png"
                 (variant_name (stem svg) size "png") /\
               has_variant (snd (convert_new E name svg st1)) "jpg"
                 (variant_name (stem svg) size "jpg") /\
               has_variant (snd (convert_new E name svg st1)) "ico"
                 (variant_name (stem svg) size "ico")) /\
            name ∈ converted_files (snd (convert_new E name svg st1)) /\
            (exists c, folder st !! svg = Some (File c) /\ declares_800 E c = true)).
  { intros st1 E1 Hsame Hconv Hok.
    destruct (convert_new E name svg st1) as [r st2] eqn:Hrun.
    simpl in Hok. subst r.
    apply convert_new_ok in Hrun as ((c & Hc & Hsize) & E2 & V & _ & Hin).
    pose proof (extends_nil_l _ _ _ _ E1 E2) as (_ & _ & Htrace).
    cbn [snd]. split; [exact Htrace|].
    split; [apply variant_writes_length|].
    split; [apply variant_writes_NoDup|].
    split; [exact V|]. split; [rewrite Hin; apply elem_of_union_l, elem_of_singleton; done|].
    exists c. by rewrite <- Hsame. }
  destruct (snd (scan_sources (folder st))) as [xml|].
  - apply Hgo; [apply extends_refl | done | done].
  - apply Hgo; [apply svg_to_xml_extends | |].
    + pose proof (svg_to_xml_changes E svg st) as (_ & _ & Hf & _).
      apply Hf. intros Heq. revert Heq.
      eapply has_ext_ne; [by apply has_ext_xml_of | exact Hext | done].
    + by pose proof (svg_to_xml_changes E svg st) as (? & _).
Qed.

Lemma C7_matrix_is_complete_witness :
  ("foo" ∉ converted_files Examples.fresh) /\
  fst (scan_sources (folder Examples.fresh)) = Some "foo.svg" /\
  fst (process_icon_folder Toy.calm "foo" Examples.fresh) = Ok true /\
  sub_writes (trace (snd (process_icon_folder Toy.calm "foo" Examples.fresh)))
    = variant_writes "foo" /\
  variant_writes "foo" =
    [OpWrite ["png"; "foo_64.png"]; OpWrite ["jpg"; "foo_64.jpg"];
     OpWrite ["ico"; "foo_64.ico"];
     OpWrite ["png"; "foo_128.png"]; OpWrite ["jpg"; "foo_128.jpg"];
     OpWrite ["ico"; "foo_128.ico"];
     OpWrite ["png"; "foo_256.png"]; OpWrite ["jpg"; "foo_256.jpg"];
     OpWrite ["ico"; "foo_256.ico"];
     OpWrite ["png"; "foo_512.png"]; OpWrite ["jpg"; "foo_512.jpg"];
     OpWrite ["ico"; "foo_512.ico"];
     OpWrite ["png"; "foo_1024.png"]; OpWrite ["jpg"; "foo_1024.jpg"];
     OpWrite ["ico"; "foo_1024.ico"]] /\
  has_variant (snd (process_icon_folder Toy.calm "foo" Examples.fresh))
    "ico" "foo_1024.ico".
Proof.
  assert (H1 : "foo" ∉ converted_files Examples.fresh) by apply not_elem_of_empty.
  assert (H2 : fst (scan_sources (folder Examples.fresh)) = Some "foo.svg")
    by (vm_compute; reflexivity).
  assert (H3 : fst (process_icon_folder Toy.calm "foo" Examples.fresh) = Ok true)
    by (vm_compute; reflexivity).
  split; [exact H1|]. split; [exact H2|]. split; [exact H3|].
  destruct (C7_matrix_is_complete Toy.calm "foo" "foo.svg" Examples.fresh H1)
    as ((t & Ht & Hw) & _ & _ & Hall & _).
  - holds_none.
  - holds_none.
  - exact H2.
  - exact H3.
  - split; [|split].
    + rewrite Ht. exact Hw.
    + vm_compute; reflexivity.
    + refine (proj2 (proj2 (Hall 1024%N _))).
      apply list_elem_of_In. simpl. tauto.
Defined.

(** *** Both markers: the order of the deletions *)

Lemma invalidate_unlinks_marker (E : externals) (source marker : string)
    (c : content) (st : state) :
  faulty E (OpUnlink [marker]) = false ->
  folder st !! marker = Some (File c) ->
  marker <> source ->
  ~ in_formats marker ->
  folder (snd (invalidate E source marker st)) !! marker = None /\
  exists l,
    trace (snd (invalidate E source marker st))
      = (trace st ++ l ++ [OpUnlink [marker]])%list.
Proof.
  intros Hok Hm Hne Hfmt. unfold invalidate.
  destruct (bind_safe (_delete_converted_files E (stem source))
              (fun _ => attempt (fs_unlink E source) ;;
                        attempt (fs_unlink E marker))
              st (safe_delete_converted_files E _)) as ([] & _ & ->).
  pose proof (delete_converted_files_changes E (stem source) st)
    as (_ & _ & Hf1 & l1 & Ht1 & _).
  set (sA := snd (_delete_converted_files E (stem source) st)) in *.
  destruct (bind_safe (attempt (fs_unlink E source))
              (fun _ => attempt (fs_unlink E marker))
              sA (safe_attempt _)) as ([] & _ & ->).
  pose proof (preserves_attempt (changes_only (eq source)) _
                (fs_unlink_changes E source) sA)
    as (_ & _ & Hf2 & l2 & Ht2 & _).
  set (sB := snd (attempt (fs_unlink E source) sA)) in *.
  assert (HmB : folder sB !! marker = Some (File c)).
  { rewrite Hf2 by congruence. by rewrite Hf1. }
  unfold attempt, catch, fs_unlink. rewrite HmB, Hok. simpl.
  split; [by rewrite lookup_delete_eq|].
  exists (l1 ++ l2)%list. rewrite Ht2, Ht1. by rewrite !app_assoc.
Qed.

Lemma consumed_in_order_step (m mx : string) (Q : string -> Prop)
    (st s s' : state) :
  consumed_in_order m mx st s ->
  changes_only Q s s' -> ~ Q m -> ~ Q mx ->
  consumed_in_order m mx st s'.
Proof.
  intros (Hm & Hmx & t1 & t2 & t3 & Ht) (_ & _ & Hf & l & Hl & _) Hqm Hqmx.
  split; [by rewrite Hf|]. split; [by rewrite Hf|].
  exists t1, t2, (t3 ++ l)%list. rewrite Hl, Ht. by rewrite <- !app_assoc.
Qed.

(** *** C8: both markers at once *)

(** C8, as the claim states it, fails.  On a ledgered folder that holds
    both markers and a vector file but no XML file, the handling of the
    [.updatesvg] marker fails for want of an XML file and the call returns
    at once (line 320): the [.updatexml] marker is not handled, it is
    still in place and no deletion of it was tried.  On a ledgered folder
    that holds the two markers and nothing else, neither marker is handled
    and the folder is reported successful. *)
Lemma C8_counterexample :
  "foo" ∈ converted_files Examples.both_markers_no_xml /\
  has_file ".updatesvg" (folder Examples.both_markers_no_xml) /\
  has_file ".updatexml" (folder Examples.both_markers_no_xml) /\
  fst (process_icon_folder Toy.calm "foo" Examples.both_markers_no_xml)
    = Ok false /\
  folder (snd (process_icon_folder Toy.calm "foo" Examples.both_markers_no_xml))
    !! "a.updatesvg" = None /\
  folder (snd (process_icon_folder Toy.calm "foo" Examples.both_markers_no_xml))
    !! "b.updatexml" = Some (File "") /\
  (OpUnlink ["b.updatexml"]
     ∉ trace (snd (process_icon_folder Toy.calm "foo"
                     Examples.both_markers_no_xml))) /\
  "foo" ∈ converted_files Samples.markers_only /\
  has_file ".updatesvg" (folder Samples.markers_only) /\
  has_file ".updatexml" (folder Samples.markers_only) /\
  process_icon_folder Toy.calm "foo" Samples.markers_only
    = (Ok true, Samples.markers_only).
Proof.
  split; [ledgered|].
  split; [holds_file "a.updatesvg" ""|].
  split; [holds_file "b.updatexml" ""|].
  split; [vm_compute; reflexivity|].
  split; [vm_compute; reflexivity|].
  split; [vm_compute; reflexivity|].
  split.
  { intros H. apply list_elem_of_In in H. vm_compute in H.
    repeat destruct H as [H|H]; try discriminate H. done. }
  split; [ledgered|].
  split; [holds_file "a.updatesvg" ""|].
  split; [holds_file "b.updatexml" ""|].
  vm_compute. reflexivity.
Qed.

(** C8, amended.  On a ledgered folder in which the scans select the
    [.updatesvg] marker [m] and the [.updatexml] marker [mx], what is
    handled depends on the files the scans find.
    - With a vector file and an XML file, the two markers are handled in
      sequence: when their deletion is not refused, both are deleted, [m]
      before [mx].
    - With a vector file and no XML file, the handling of [m] invalidates
      and then fails: the folder is reported failed at once, in the state
      that invalidation left, and [mx] is kept as it was.
    - With an XML file and no vector file, [m] is skipped and kept as it
      was; the handling of [mx] invalidates and then fails, and the folder
      is reported failed.
    - With neither, no marker is handled: the folder is reported
      successful and nothing is changed. *)
Theorem C8_both_markers (E : externals) (name m mx : string) (st : state) :
  name ∈ converted_files st ->
  fst (scan_markers (folder st)) = Some m ->
  snd (scan_markers (folder st)) = Some mx ->
  let r := process_icon_folder E name st in
  (forall svg xml,
     fst (scan_sources (folder st)) = Some svg ->
     snd (scan_sources (folder st)) = Some xml ->
     faulty E (OpUnlink [m]) = false ->
     faulty E (OpUnlink [mx]) = false ->
     consumed_in_order m mx st (snd r)) /\
  (forall svg,
     fst (scan_sources (folder st)) = Some svg ->
     snd (scan_sources (folder st)) = None ->
     r = (Ok false, snd (invalidate E svg m st)) /\
     folder (snd r) !! mx = folder st !! mx) /\
  (forall xml,
     fst (scan_sources (folder st)) = None ->
     snd (scan_sources (folder st)) = Some xml ->
     r = (Ok false, snd (invalidate E xml mx st)) /\
     folder (snd r) !! m = folder st !! m) /\
  (fst (scan_sources (folder st)) = None ->
   snd (scan_sources (folder st)) = None ->
   r = (Ok true, st)).
Proof.
  intros Hin Hm Hmx r.
  assert (Hp : process_icon_folder E name st =
            match marker_processing E name (Some m) (Some mx) st with
            | (Ok (Return b), st1) => (Ok b, st1)
            | (Ok (Continue _), st1) => (Ok true, st1)
            | (Raised, st1) => (Raised, st1)
            end).
  { rewrite process_icon_folder_ledgered by done. by rewrite Hm, Hmx. }
  assert (Hmarker : exists cm, folder st !! m = Some (File cm) /\
                      has_ext ".updatesvg" m = true).
  { rewrite update_svg_file_pick in Hm. by apply pick_listing_Some in Hm. }
  assert (Hmarkerx : exists cx, folder st !! mx = Some (File cx) /\
                       has_ext ".updatexml" mx = true).
  { rewrite update_xml_file_pick in Hmx. by apply pick_listing_Some in Hmx. }
  destruct Hmarker as (cm & Hfm & Hem). destruct Hmarkerx as (cmx & Hfmx & Hemx).
  assert (Hmm : m <> mx) by (by apply (has_ext_ne ".updatesvg" ".updatexml")).
  subst r.
  split; [|split; [|split]].
  - intros svg xml Hsvg Hxml Hok Hokx. rewrite Hp.
    rewrite marker_processing_ledgered by done. cbv zeta.
    rewrite Hsvg, Hxml.
    rewrite svg_file_pick in Hsvg. rewrite xml_file_pick in Hxml.
    apply pick_listing_Some in Hsvg as (cs & Hfs & Hes).
    apply pick_listing_Some in Hxml as (cx & Hfx & Hex).
    assert (Hstem : stem xml <> "") by (by apply (has_ext_stem_nonempty ".xml")).
    assert (Hes' : has_ext ".svg" (stem xml ++ ".svg") = true)
      by (by apply has_ext_svg_of).
    assert (Hex' : has_ext ".xml" (stem (stem xml ++ ".svg") ++ ".xml") = true).
    { apply has_ext_xml_of. by rewrite stem_svg_of. }
    assert (Hnf : forall e n, e <> "" -> has_ext e n = true -> ~ in_formats n).
    { intros e n He Hn Hf%has_ext_format.
      by pose proof (has_ext_functional _ _ _ Hn Hf). }
    (* the [.updatesvg] block *)
    rewrite (bind_Ok _ _ _ _ _
      (handle_updatesvg_with_xml E m svg xml cx st Hfx
         (has_ext_ne ".xml" ".svg" _ _ Hex Hes ltac:(done))
         (has_ext_ne ".xml" ".updatesvg" _ _ Hex Hem ltac:(done)))).
    destruct (invalidate_unlinks_marker E svg m cm st Hok Hfm
                (has_ext_ne ".updatesvg" ".svg" _ _ Hem Hes ltac:(done))
                (Hnf ".updatesvg" m ltac:(done) Hem)) as (Hgone1 & l1 & Ht1).
    pose proof (invalidate_keeps_file E svg m mx cmx st Hfmx
                  (has_ext_ne ".updatexml" ".svg" _ _ Hemx Hes ltac:(done))
                  (not_eq_sym Hmm)) as Hkeepx.
    set (s1 := snd (invalidate E svg m st)) in *.
    pose proof (xml_to_svg_changes E xml s1) as (_ & _ & Hf2 & l2 & Ht2 & _).
    set (s2 := snd (_xml_to_svg E xml s1)) in *.
    assert (Hm2 : folder s2 !! m = None).
    { rewrite Hf2; [done|]. intros <-.
      by pose proof (has_ext_functional _ _ _ Hem Hes'). }
    assert (Hmx2 : folder s2 !! mx = Some (File cmx)).
    { rewrite Hf2; [done|]. intros <-.
      by pose proof (has_ext_functional _ _ _ Hemx Hes'). }
    (* the [.updatexml] block *)
    destruct (invalidate_unlinks_marker E xml mx cmx s2 Hokx Hmx2
                (has_ext_ne ".updatexml" ".xml" _ _ Hemx Hex ltac:(done))
                (Hnf ".updatexml" mx ltac:(done) Hemx)) as (Hgone3 & l3 & Ht3).
    assert (Hm3 : folder (snd (invalidate E xml mx s2)) !! m = None).
    { pose proof (invalidate_invalidated E xml mx s2 m) as HR.
      by rewrite Hm2 in HR. }
    set (s3 := snd (invalidate E xml mx s2)) in *.
    assert (H3 : consumed_in_order m mx st s3).
    { split; [done|]. split; [done|]. exists l1, (l2 ++ l3)%list, [].
      rewrite Ht3, Ht2, Ht1. rewrite app_nil_r. by rewrite <- !app_assoc. }
    destruct (folder s3 !! (stem xml ++ ".svg")) as [e|] eqn:Hnew.
    2:{ by rewrite (bind_Ok _ _ _ _ _
          (handle_updatexml_svg_gone E mx xml _ s2 Hnew)). }
    rewrite (bind_Ok _ _ _ _ _ (handle_updatexml_with_svg E mx xml _ e s2 Hnew)).
    fold s3.
    assert (H4 : consumed_in_order m mx st
                   (snd (_svg_to_xml E (stem xml ++ ".svg") s3))).
    { eapply consumed_in_order_step;
        [exact H3 | apply svg_to_xml_changes | |]; intros <-.
      - by pose proof (has_ext_functional _ _ _ Hem Hex').
      - by pose proof (has_ext_functional _ _ _ Hemx Hex'). }
    set (s4 := snd (_svg_to_xml E (stem xml ++ ".svg") s3)) in *.
    (* the regeneration *)
    rewrite regenerate_eq.
    destruct (folder s4 !! (stem xml ++ ".svg")) as [entry|]; [|done].
    match goal with |- context [if ?b then _ else _] => destruct b end;
      [|done].
    pose proof (create_variants_changes E (stem xml ++ ".svg")
                  (stem (stem xml ++ ".svg")) s4) as Hgen.
    assert (H5 : consumed_in_order m mx st
                   (snd (_create_variants E (stem xml ++ ".svg")
                           (stem (stem xml ++ ".svg")) s4))).
    { eapply consumed_in_order_step; [exact H4 | exact Hgen | |].
      - intros [->|Hf]; [|by apply (Hnf ".updatesvg" m ltac:(done) Hem)].
        by pose proof (has_ext_functional _ _ _ Hem (has_ext_temp _)).
      - intros [->|Hf]; [|by apply (Hnf ".updatexml" mx ltac:(done) Hemx)].
        by pose proof (has_ext_functional _ _ _ Hemx (has_ext_temp _)). }
    by destruct (_create_variants E _ _ s4) as [[[]|] s5].
  - intros svg Hsvg Hxml.
    assert (Hrun : marker_processing E name (Some m) (Some mx) st
                   = (Ok (Return false), snd (invalidate E svg m st))).
    { rewrite marker_processing_ledgered by done. cbv zeta.
      rewrite Hsvg, Hxml.
      by rewrite (bind_Ok _ _ _ _ _ (handle_updatesvg_no_xml E m svg st)). }
    rewrite Hp, Hrun. split; [done|]. simpl.
    rewrite svg_file_pick in Hsvg.
    apply pick_listing_Some in Hsvg as (cs & Hfs & Hes).
    rewrite Hfmx. apply invalidate_keeps_file; [done| |by apply not_eq_sym].
    by apply (has_ext_ne ".updatexml" ".svg").
  - intros xml Hsvg Hxml.
    assert (Hrun : marker_processing E name (Some m) (Some mx) st
                   = (Ok (Return false), snd (invalidate E xml mx st))).
    { rewrite marker_processing_ledgered by done. cbv zeta.
      rewrite Hsvg, Hxml. unfold bind at 1, ret at 1.
      by rewrite (bind_Ok _ _ _ _ _ (handle_updatexml_no_vector E mx xml st)). }
    rewrite Hp, Hrun. split; [done|]. simpl.
    rewrite xml_file_pick in Hxml.
    apply pick_listing_Some in Hxml as (cx & Hfx & Hex).
    rewrite Hfm. apply invalidate_keeps_file; [done| |done].
    by apply (has_ext_ne ".updatesvg" ".xml").
  - intros Hsvg Hxml. rewrite Hp.
    rewrite marker_processing_ledgered by done. cbv zeta.
    rewrite Hsvg, Hxml.
    unfold bind, ret, regenerate. cbv beta iota. done.
Qed.

Lemma C8_both_markers_witness :
  consumed_in_order "a.updatesvg" "b.updatexml" Examples.both_markers
    (snd (process_icon_folder Toy.calm "foo" Examples.both_markers)) /\
  process_icon_folder Toy.calm "foo" Examples.both_markers_no_xml
    = (Ok false,
       snd (invalidate Toy.calm "foo.svg" "a.updatesvg"
              Examples.both_markers_no_xml)) /\
  folder (snd (process_icon_folder Toy.calm "foo" Examples.both_markers_no_xml))
    !! "b.updatexml" = Some (File "") /\
  folder (snd (process_icon_folder Toy.calm "foo" Samples.both_markers_no_svg))
    !! "a.updatesvg" = Some (File "").
Proof.
  assert (H1 : "foo" ∈ converted_files Examples.both_markers) by ledgered.
  assert (H2 : "foo" ∈ converted_files Examples.both_markers_no_xml) by ledgered.
  assert (H3 : "foo" ∈ converted_files Samples.both_markers_no_svg) by ledgered.
  split.
  { refine (proj1 (C8_both_markers Toy.calm "foo" "a.updatesvg" "b.updatexml"
                     Examples.both_markers H1 _ _) "foo.svg" "foo.xml" _ _ _ _);
      vm_compute; reflexivity. }
  destruct (proj1 (proj2 (C8_both_markers Toy.calm "foo" "a.updatesvg"
                            "b.updatexml" Examples.both_markers_no_xml H2
                            ltac:(vm_compute; reflexivity)
                            ltac:(vm_compute; reflexivity)))
              "foo.svg" ltac:(vm_compute; reflexivity)
              ltac:(vm_compute; reflexivity)) as (G1 & G2).
  split; [exact G1|]. split; [exact G2|].
  exact (proj2 (proj1 (proj2 (proj2
    (C8_both_markers Toy.calm "foo" "a.updatesvg" "b.updatexml"
       Samples.both_markers_no_svg H3
       ltac:(vm_compute; reflexivity) ltac:(vm_compute; reflexivity))))
    "foo.xml" ltac:(vm_compute; reflexivity) ltac:(vm_compute; reflexivity))).
Defined.

(** *** C3: the consumption of a [.updatesvg] marker *)

(** C3, as the claim states it, fails.  On a ledgered folder with a
    [.updatesvg] marker, a vector file and its XML file: when the marker
    cannot be deleted, the failure is logged, the regeneration goes on and
    the run is successful with the marker still in the folder; when the XML
    file cannot be read, the copy fails, nothing is regenerated, and the
    run is still reported successful, with the old variant deleted and no
    vector file left. *)
Lemma C3_counterexample :
  "foo" ∈ converted_files Examples.marked /\
  scan_markers (folder Examples.marked) = (Some "redo.updatesvg", None) /\
  scan_sources (folder Examples.marked) = (Some "foo.svg", Some "foo.xml") /\
  fst (process_icon_folder (Toy.undeletable "redo.updatesvg") "foo" Examples.marked)
    = Ok true /\
  folder (snd (process_icon_folder (Toy.undeletable "redo.updatesvg") "foo"
                 Examples.marked)) !! "redo.updatesvg" = Some (File "") /\
  fst (process_icon_folder (Toy.unreadable "foo.xml") "foo" Examples.marked)
    = Ok true /\
  folder (snd (process_icon_folder (Toy.unreadable "foo.xml") "foo"
                 Examples.marked)) !! "foo.svg" = None /\
  folder (snd (process_icon_folder (Toy.unreadable "foo.xml") "foo"
                 Examples.marked)) !! "png" = Some (Dir ∅).
Proof.
  split; [ledgered|]. repeat split; vm_compute; reflexivity.
Qed.

(** C3, amended.  On a ledgered folder in which the scans select the
    [.updatesvg] marker [m], the vector file [svg] and the XML file [xml]
    with text [c], and in an environment in which no operation of the
    operating system fails, a run of [process_icon_folder] that returns
    success leaves: the marker deleted; the vector file with the base name
    of [xml] holding the text [c]; in the output directories no regular
    file matching the pattern of the old base name other than those the run
    wrote, and the whole matrix for the base name of [xml] written, these
    being the only writes into sub-directories; the in-memory ledger and
    the ledger file as they were, with no write of the ledger file in the
    trace, so the folder name still occurs once in the ledger. *)
Theorem C3_marker_consumption (E : externals) (name m svg xml : string)
    (c : content) (st : state) :
  (forall o, faulty E o = false) ->
  name ∈ converted_files st ->
  fst (scan_markers (folder st)) = Some m ->
  fst (scan_sources (folder st)) = Some svg ->
  snd (scan_sources (folder st)) = Some xml ->
  folder st !! xml = Some (File c) ->
  fst (process_icon_folder E name st) = Ok true ->
  let st' := snd (process_icon_folder E name st) in
  folder st' !! m = None /\
  folder st' !! (stem xml ++ ".svg") = Some (File c) /\
  (forall d k, in_formats d ->
     glob_match E (variant_pattern (stem svg) d) k = true ->
     has_variant st' d k -> OpWrite [d; k] ∈ variant_writes (stem xml)) /\
  (forall size, size ∈ SIZES ->
     has_variant st' "png" (variant_name (stem xml) size "png") /\
     has_variant st' "jpg" (variant_name (stem xml) size "jpg") /\
     has_variant st' "ico" (variant_name (stem xml) size "ico")) /\
  (exists t, trace st' = (trace st ++ t)%list /\
             sub_writes t = variant_writes (stem xml) /\
             OpLedgerWrite ∉ t) /\
  converted_files st' = converted_files st /\
  ledger_file st' = ledger_file st /\
  name ∈ converted_files st' /\
  List.length (filter (fun n => n = name) (elements (converted_files st'))) = 1.
Proof.
  intros Hcalm Hin Hm Hsvg Hxml Hc.
  assert (Hunlink : forall p, faulty E (OpUnlink p) = false) by (intros; apply Hcalm).
  assert (Hme : has_ext ".updatesvg" m = true).
  { rewrite update_svg_file_pick in Hm.
    by apply pick_listing_Some in Hm as (? & _ & ?). }
  assert (Hxe : has_ext ".xml" xml = true).
  { rewrite xml_file_pick in Hxml.
    by apply pick_listing_Some in Hxml as (? & _ & ?). }
  assert (Hstem : stem xml <> "") by (by apply (has_ext_stem_nonempty ".xml")).
  assert (Hnew : has_ext ".svg" (stem xml ++ ".svg") = true)
    by (by apply has_ext_svg_of).
  assert (Hend : exists s,
            regen_ready E st m svg (stem xml ++ ".svg") c s /\
            marker_processing E name (Some m) (snd (scan_markers (folder st))) st
              = regenerate E name (Some (stem xml ++ ".svg")) s).
  { pose proof (ready_after_updatesvg E Hunlink Hcalm st m svg xml c
                  Hm Hsvg Hxml Hc) as Hready.
    rewrite marker_processing_ledgered by done. cbv zeta.
    rewrite Hsvg, Hxml.
    rewrite (bind_Ok _ _ _ _ _ (handle_updatesvg_with_xml E m svg xml c st Hc
               (scanned_names_differ _ ".xml" ".svg" _ _
                  ltac:(by rewrite <- xml_file_pick) ltac:(by rewrite <- svg_file_pick)
                  ltac:(done))
               (scanned_names_differ _ ".xml" ".updatesvg" _ _
                  ltac:(by rewrite <- xml_file_pick)
                  ltac:(by rewrite <- update_svg_file_pick) ltac:(done)))).
    destruct (snd (scan_markers (folder st))) as [mx|] eqn:Hmx.
    - destruct (ready_after_updatexml E st m svg xml mx c _
                  Hm Hmx Hxml Hready) as (s4 & Hrun & Hready4).
      exists s4. split; [done|]. by rewrite (bind_Ok _ _ _ _ _ Hrun).
    - eexists. split; [exact Hready|]. reflexivity. }
  destruct Hend as (s & Hready & Hrun).
  rewrite process_icon_folder_ledgered, Hm by done. cbn [is_Some_b orb].
  rewrite Hrun.
  destruct (regenerate_ready E Hcalm name st m svg _ c s Hnew Hme Hready)
    as ([b Hb] & Hgoal).
  rewrite stem_svg_of in Hgoal by done.
  destruct (regenerate E name (Some (stem xml ++ ".svg")) s) as [r s'] eqn:Hreg.
  cbn [fst snd] in *. subst r. intros Hok. cbn [fst] in Hok.
  injection Hok as ->. cbn [snd].
  destruct (Hgoal eq_refl) as (G1 & G2 & G3 & G4 & G5 & G6 & G7).
  split; [done|]. split; [done|]. split; [done|]. split; [done|].
  split; [done|]. split; [done|]. split; [done|].
  rewrite G6. split; [done|]. by apply ledger_once.
Qed.

Lemma C3_marker_consumption_witness :
  (forall o, faulty Toy.calm o = false) /\
  "foo" ∈ converted_files Examples.marked /\
  fst (process_icon_folder Toy.calm "foo" Examples.marked) = Ok true /\
  folder (snd (process_icon_folder Toy.calm "foo" Examples.marked))
    !! "redo.updatesvg" = None /\
  folder (snd (process_icon_folder Toy.calm "foo" Examples.marked))
    !! "foo.svg" = Some (File Toy.good) /\
  ~ has_variant (snd (process_icon_folder Toy.calm "foo" Examples.marked))
      "png" "foo_32.png".
Proof.
  assert (H0 : forall o, faulty Toy.calm o = false) by reflexivity.
  assert (H1 : "foo" ∈ converted_files Examples.marked) by ledgered.
  assert (H2 : fst (process_icon_folder Toy.calm "foo" Examples.marked) = Ok true)
    by (vm_compute; reflexivity).
  split; [exact H0|]. split; [exact H1|]. split; [exact H2|].
  destruct (C3_marker_consumption Toy.calm "foo" "redo.updatesvg" "foo.svg"
              "foo.xml" Toy.good Examples.marked H0 H1)
    as (G1 & G2 & G3 & _).
  - vm_compute; reflexivity.
  - vm_compute; reflexivity.
  - vm_compute; reflexivity.
  - vm_compute; reflexivity.
  - exact H2.
  - split; [exact G1|]. split; [exact G2|].
    intros Hv. apply (G3 "png" "foo_32.png") in Hv.
    + revert Hv. apply (bool_decide_unpack _). vm_compute. exact I.
    + apply list_elem_of_In. simpl. tauto.
    + vm_compute; reflexivity.
Defined.

(** ** Further properties of the program *)

(** *** Folders that are left alone *)

(** X1.  A folder whose name is not in the ledger and which holds an update
    marker of either kind is reported successful, and nothing is changed:
    neither the folder, nor the ledger, nor the trace of mutations. *)
Theorem unledgered_marker_is_skipped (E : externals) (name : string) (st : state) :
  name ∉ converted_files st ->
  has_file ".updatesvg" (folder st) \/ has_file ".updatexml" (folder st) ->
  process_icon_folder E name st = (Ok true, st).
Proof.
  intros Hnew Hm.
  rewrite process_icon_folder_unfold.
  rewrite update_svg_file_pick, update_xml_file_pick.
  assert (Hsome :
    is_Some_b (pick (file_with ".updatesvg") (listing (folder st)) None)
    || is_Some_b (pick (file_with ".updatexml") (listing (folder st)) None)
    = true).
  { destruct Hm as [Hm|Hm]; apply pick_listing_has in Hm as [m Hm];
      rewrite Hm; simpl; [done|apply orb_true_r]. }
  rewrite Hsome. by rewrite marker_processing_unledgered.
Qed.

Lemma unledgered_marker_is_skipped_witness :
  ("foo" ∉ converted_files Samples.dropped_in) /\
  has_file ".updatesvg" (folder Samples.dropped_in) /\
  process_icon_folder Toy.calm "foo" Samples.dropped_in
    = (Ok true, Samples.dropped_in).
Proof.
  assert (H1 : "foo" ∉ converted_files Samples.dropped_in)
    by (apply (bool_decide_unpack _); vm_compute; exact I).
  assert (H2 : has_file ".updatesvg" (folder Samples.dropped_in))
    by holds_file "redo.updatesvg" "".
  split; [exact H1|]. split; [exact H2|].
  exact (unledgered_marker_is_skipped Toy.calm "foo" Samples.dropped_in H1
           (or_introl H2)).
Defined.

(** X2.  A new folder without markers that holds neither a vector file nor
    an XML file is reported failed, and nothing is changed. *)
Theorem new_folder_without_sources_fails (E : externals) (name : string)
    (st : state) :
  name ∉ converted_files st ->
  no_file ".updatesvg" (folder st) ->
  no_file ".updatexml" (folder st) ->
  no_file ".svg" (folder st) ->
  no_file ".xml" (folder st) ->
  process_icon_folder E name st = (Ok false, st).
Proof.
  intros Hnew Hus Hux Hs Hx.
  rewrite process_icon_folder_no_marker by done.
  rewrite normal_processing_new by done.
  rewrite sync_asset_pair_eq, svg_file_pick, xml_file_pick.
  rewrite (proj2 (pick_listing_None _ _) Hs).
  by rewrite (proj2 (pick_listing_None _ _) Hx).
Qed.

Lemma new_folder_without_sources_fails_witness :
  ("foo" ∉ converted_files Samples.no_sources) /\
  no_file ".svg" (folder Samples.no_sources) /\
  no_file ".xml" (folder Samples.no_sources) /\
  process_icon_folder Toy.calm "foo" Samples.no_sources
    = (Ok false, Samples.no_sources).
Proof.
  assert (H1 : "foo" ∉ converted_files Samples.no_sources)
    by (apply (bool_decide_unpack _); vm_compute; exact I).
  assert (H2 : no_file ".updatesvg" (folder Samples.no_sources)) by holds_none.
  assert (H3 : no_file ".updatexml" (folder Samples.no_sources)) by holds_none.
  assert (H4 : no_file ".svg" (folder Samples.no_sources)) by holds_none.
  assert (H5 : no_file ".xml" (folder Samples.no_sources)) by holds_none.
  split; [exact H1|]. split; [exact H4|]. split; [exact H5|].
  exact (new_folder_without_sources_fails Toy.calm "foo" Samples.no_sources
           H1 H2 H3 H4 H5).
Defined.

(** *** The variant generator *)

(** X3.  The variant generator never raises.  It leaves the ledger and the
    ledger file as they were, and every entry of the icon folder other than
    its temporary raster and the three output directories; its source file
    in particular is never changed or deleted. *)
Theorem generator_touches_only_its_outputs (E : externals)
    (src base : string) (st : state) :
  let st' := snd (_create_variants E src base st) in
  (exists b, fst (_create_variants E src base st) = Ok b) /\
  (forall n, n <> temp_name base -> ~ in_formats n ->
     folder st' !! n = folder st !! n) /\
  folder st' !! src = folder st !! src /\
  converted_files st' = converted_files st /\
  ledger_file st' = ledger_file st /\
  exists l, trace st' = (trace st ++ l)%list /\ OpLedgerWrite ∉ l.
Proof.
  intros st'.
  destruct (create_variants_changes E src base st) as (Hc & Hl & Hf & Ht).
  split; [apply safe_catch, safe_ret|].
  split; [intros n Hn Hfmt; apply Hf; tauto|].
  split; [|done].
  destruct (has_ext ".svg" src) eqn:Hext.
  - apply Hf. intros [->|Hfmt].
    + pose proof (has_ext_temp base) as Hpng.
      pose proof (has_ext_functional _ _ _ Hext Hpng). done.
    + apply has_ext_format in Hfmt.
      pose proof (has_ext_functional _ _ _ Hext Hfmt). done.
  - subst st'. unfold _create_variants, catch. by rewrite Hext.
Qed.

Lemma generator_touches_only_its_outputs_witness :
  folder (snd (_create_variants Toy.calm "foo.svg" "foo" Examples.cluttered))
    !! "notes.txt" = Some (File "keep").
Proof.
  refine (eq_trans
    (proj1 (proj2 (generator_touches_only_its_outputs Toy.calm "foo.svg" "foo"
                     Examples.cluttered)) "notes.txt" _ _) _).
  - vm_compute. discriminate.
  - intros H. apply list_elem_of_In in H. vm_compute in H.
    repeat destruct H as [H|H]; try discriminate H. done.
  - vm_compute. reflexivity.
Defined.

Lemma create_variants_refuses (E : externals) (src base : string) (st : state) :
  cairosvg_installed E = false \/ has_ext ".svg" src = false ->
  _create_variants E src base st = (Ok false, st).
Proof.
  intros H. unfold _create_variants, catch.
  destruct (has_ext ".svg" src); [|done].
  destruct H as [H|H]; [|done].
  unfold bind at 1. unfold _svg_to_png, catch. rewrite H. done.
Qed.

(** X4.  When cairosvg is not installed, [_svg_to_png] returns [False]
    and changes nothing.  When cairosvg is not installed, or when the
    source does not have the extension [.svg] (in any letter case), the
    variant generator returns [False] and changes nothing: no temporary
    raster, no output directory. *)
Theorem generator_refuses (E : externals) (src base : string) (st : state) :
  (cairosvg_installed E = false ->
   forall out, _svg_to_png E src out st = (Ok false, st)) /\
  (cairosvg_installed E = false \/ has_ext ".svg" src = false ->
   _create_variants E src base st = (Ok false, st)).
Proof.
  assert (Hpng : cairosvg_installed E = false ->
            forall out, _svg_to_png E src out st = (Ok false, st)).
  { intros H out. unfold _svg_to_png, catch. by rewrite H. }
  split; [exact Hpng|].
  intros H. unfold _create_variants, catch.
  destruct (has_ext ".svg" src) eqn:Hext.
  - destruct H as [H|H]; [|done].
    unfold bind at 1. by rewrite (Hpng H).
  - done.
Qed.

Lemma generator_refuses_witness :
  _create_variants Toy.calm "foo.xml" "foo" Examples.converted
    = (Ok false, Examples.converted) /\
  _create_variants Samples.no_cairosvg "foo.svg" "foo" Examples.converted
    = (Ok false, Examples.converted).
Proof.
  split.
  - apply (proj2 (generator_refuses Toy.calm "foo.xml" "foo" Examples.converted)).
    right. vm_compute. reflexivity.
  - apply (proj2 (generator_refuses Samples.no_cairosvg "foo.svg" "foo"
                    Examples.converted)).
    left. reflexivity.
Defined.

(** X5.  On a machine without cairosvg no new folder is ever converted: a
    new folder without markers is reported failed, its name is not put in
    the ledger, and the only change is the one the completion of the asset
    pair makes. *)
Theorem without_cairosvg_nothing_is_converted (E : externals) (name : string)
    (st : state) :
  cairosvg_installed E = false ->
  name ∉ converted_files st ->
  no_file ".updatesvg" (folder st) ->
  no_file ".updatexml" (folder st) ->
  process_icon_folder E name st = (Ok false, snd (sync_asset_pair E st)) /\
  converted_files (snd (sync_asset_pair E st)) = converted_files st /\
  ledger_file (snd (sync_asset_pair E st)) = ledger_file st.
Proof.
  intros Hno Hnew Hus Hux.
  assert (Hconv : forall svg s, convert_new E name svg s = (Ok false, s)).
  { intros svg s. unfold convert_new.
    unfold bind at 1. unfold path_exists, gets.
    destruct (folder s !! svg) as [e|]; [|done].
    unfold bind at 1. rewrite check_svg_size_eq.
    match goal with |- context [negb ?b] => destruct b end; [|done].
    cbn [negb]. unfold bind at 1.
    rewrite create_variants_refuses by (by left). done. }
  split.
  - rewrite process_icon_folder_no_marker by done.
    rewrite normal_processing_new by done.
    rewrite sync_asset_pair_eq.
    destruct (fst (scan_sources (folder st))) as [svg|],
      (snd (scan_sources (folder st))) as [xml|]; simpl; by rewrite ?Hconv.
  - rewrite sync_asset_pair_eq.
    destruct (fst (scan_sources (folder st))) as [svg|],
      (snd (scan_sources (folder st))) as [xml|]; simpl; try done.
    + destruct (svg_to_xml_changes E svg st) as (? & ? & _). done.
    + destruct (xml_to_svg_changes E xml st) as (? & ? & _). done.
Qed.

Lemma without_cairosvg_nothing_is_converted_witness :
  process_icon_folder Samples.no_cairosvg "foo" Examples.fresh
    = (Ok false, snd (sync_asset_pair Samples.no_cairosvg Examples.fresh)).
Proof.
  refine (proj1 (without_cairosvg_nothing_is_converted Samples.no_cairosvg
                   "foo" Examples.fresh eq_refl _ _ _)).
  - apply (bool_decide_unpack _); vm_compute; exact I.
  - holds_none.
  - holds_none.
Defined.

(** *** The ledger *)

Lemma sorted_elements (X : gset string) :
  let l := merge_sort String.le (elements X) in
  StronglySorted String.le l /\ NoDup l /\ forall n, n ∈ l <-> n ∈ X.
Proof.
  intros l. split; [apply StronglySorted_merge_sort; apply _|].
  assert (Hp : l ≡ₚ elements X) by apply merge_sort_Permutation.
  split.
  - rewrite Hp. apply NoDup_elements.
  - intros n. rewrite Hp. apply elem_of_elements.
Qed.

(** X6.  When the write of the ledger file is not refused,
    [_save_converted_list] replaces the file by the names of the in-memory
    ledger, each exactly once and in ascending order, and changes nothing
    else. *)
Theorem saved_ledger_is_sorted_and_exact (E : externals) (st : state) :
  faulty E OpLedgerWrite = false ->
  exists lines,
    _save_converted_list E st
      = (Ok tt, mkState (converted_files st) (Some lines) (folder st)
                  (trace st ++ [OpLedgerWrite])%list) /\
    StronglySorted String.le lines /\
    NoDup lines /\
    forall n, n ∈ lines <-> n ∈ converted_files st.
Proof.
  intros Hw. unfold _save_converted_list. rewrite Hw.
  eexists. split; [reflexivity|]. apply sorted_elements.
Qed.

Lemma saved_ledger_is_sorted_and_exact_witness :
  exists lines,
    _save_converted_list Toy.calm Samples.two_names
      = (Ok tt, mkState (converted_files Samples.two_names) (Some lines)
                  (folder Samples.two_names)
                  (trace Samples.two_names ++ [OpLedgerWrite])%list) /\
    StronglySorted String.le lines /\
    NoDup lines /\
    forall n, n ∈ lines <-> n ∈ converted_files Samples.two_names.
Proof.
  exact (saved_ledger_is_sorted_and_exact Toy.calm Samples.two_names eq_refl).
Defined.

Section Safety.

Context (E : externals).

Lemma safe_path_exists n : safe (path_exists n).
Proof. apply safe_gets. Qed.

Lemma safe_check_svg_size svg : safe (_check_svg_size E svg).
Proof. apply safe_catch, safe_ret. Qed.

Lemma safe_create_variants src base : safe (_create_variants E src base).
Proof. apply safe_catch, safe_ret. Qed.

Lemma safe_handle_updatesvg marker svg xml_file :
  safe (handle_updatesvg E marker svg xml_file).
Proof.
  unfold handle_updatesvg. apply safe_bind; [apply safe_invalidate|].
  intros _. destruct xml_file as [xml|]; [|apply safe_ret].
  apply safe_bind; [apply safe_path_exists|].
  intros [|]; [|apply safe_ret].
  apply safe_bind; [apply safe_xml_to_svg | intros _; apply safe_ret].
Qed.

Lemma safe_handle_updatexml marker xml svg_file :
  safe (handle_updatexml E marker xml svg_file).
Proof.
  unfold handle_updatexml. apply safe_bind; [apply safe_invalidate|].
  intros _. destruct svg_file as [svg|]; [|apply safe_ret].
  apply safe_bind; [apply safe_path_exists|].
  intros [|]; [|apply safe_ret].
  apply safe_bind; [apply safe_svg_to_xml | intros _; apply safe_ret].
Qed.

Lemma safe_regenerate name svg_file : safe (regenerate E name svg_file).
Proof.
  unfold regenerate. destruct svg_file as [svg|]; [|apply safe_ret].
  apply safe_bind; [apply safe_path_exists|].
  intros [|]; [|apply safe_ret].
  apply safe_bind; [apply safe_check_svg_size|].
  intros [|]; cbn [negb].
  - apply safe_bind; [apply safe_create_variants|].
    intros [|]; apply safe_ret.
  - apply safe_bind; [apply safe_ret | intros _; apply safe_ret].
Qed.

Lemma safe_marker_processing name usf uxf :
  safe (marker_processing E name usf uxf).
Proof.
  unfold marker_processing. apply safe_bind; [apply safe_gets|].
  intros ledger. destruct (negb _); [apply safe_ret|].
  apply safe_bind; [apply safe_gets|]. intros d.
  apply safe_bind.
  { destruct usf; [|apply safe_ret].
    destruct (fst (scan_sources d)); [|apply safe_ret].
    apply safe_handle_updatesvg. }
  intros [b|svg_file]; [apply safe_ret|].
  apply safe_bind.
  { destruct uxf; [|apply safe_ret].
    destruct (snd (scan_sources d)); [|apply safe_ret].
    apply safe_handle_updatexml. }
  intros [b|?]; [apply safe_ret|]. apply safe_regenerate.
Qed.

Lemma safe_sync_asset_pair : safe (sync_asset_pair E).
Proof.
  unfold sync_asset_pair. apply safe_bind; [apply safe_gets|]. intros d.
  destruct (fst (scan_sources d)), (snd (scan_sources d));
    try apply safe_ret.
  - apply safe_bind; [apply safe_svg_to_xml | intros _; apply safe_ret].
  - apply safe_bind; [apply safe_xml_to_svg | intros _; apply safe_ret].
Qed.

End Safety.

Lemma convert_new_eq (E : externals) (name svg : string) (st : state) :
  convert_new E name svg st =
    match folder st !! svg with
    | None => (Ok false, st)
    | Some entry =>
        if match entry with
           | File c => negb (faulty E (OpRead [svg])) && declares_800 E c
           | Dir _ => false
           end
        then
          match _create_variants E svg (stem svg) st with
          | (Ok true, st1) => (record E name ;; ret true) st1
          | (Ok false, st1) => (Ok false, st1)
          | (Raised, st1) => (Raised, st1)
          end
        else (Ok false, st)
    end.
Proof.
  unfold convert_new, bind at 1, path_exists at 1, gets at 1.
  destruct (folder st !! svg) as [entry|] eqn:Hentry; [|done].
  unfold bind at 1. rewrite check_svg_size_eq, Hentry.
  destruct entry as [c|kids]; [|done].
  destruct (negb (faulty E (OpRead [svg])) && declares_800 E c); [|done].
  cbn [negb]. unfold bind at 1.
  destruct (_create_variants E svg (stem svg) st) as [[[]|] st1]; done.
Qed.

(** What the conversion of a new folder does to the ledger: nothing, and
    the folder fails; or the name is added and the file rewritten; or the
    name is added and the write of the file raises. *)
Lemma convert_new_ledger (E : externals) (name svg : string) (st : state) :
  let r := convert_new E name svg st in
  (fst r = Ok false /\ converted_files (snd r) = converted_files st /\
   ledger_file (snd r) = ledger_file st) \/
  (converted_files (snd r) = {[name]} ∪ converted_files st /\
   ((fst r = Ok true /\ faulty E OpLedgerWrite = false /\
     ledger_file (snd r)
       = Some (merge_sort String.le (elements (converted_files (snd r))))) \/
    (fst r = Raised /\ faulty E OpLedgerWrite = true /\
     ledger_file (snd r) = ledger_file st))).
Proof.
  intros r. subst r. rewrite convert_new_eq.
  destruct (folder st !! svg) as [e|]; [|by left].
  match goal with |- context [if ?b then _ else _] => destruct b end;
    [|by left].
  destruct (create_variants_changes E svg (stem svg) st) as (Hc & Hl & _).
  destruct (safe_create_variants E svg (stem svg) st) as [b Hb].
  destruct (_create_variants E svg (stem svg) st) as [r s] eqn:Hcv.
  simpl in Hb, Hc, Hl. subst r.
  destruct b; [|by left].
  right. destruct (faulty E OpLedgerWrite) eqn:Hw.
  - rewrite record_unwritable by done. simpl. rewrite Hc, Hl. eauto 10.
  - rewrite record_writable by done. simpl. rewrite Hc. eauto 10.
Qed.

Lemma process_ledger_cases (E : externals) (name : string) (st : state) :
  let r := process_icon_folder E name st in
  (exists b, fst r = Ok b /\
     converted_files (snd r) = converted_files st /\
     ledger_file (snd r) = ledger_file st /\
     (b = true -> name ∉ converted_files st ->
      has_file ".updatesvg" (folder st) \/ has_file ".updatexml" (folder st))) \/
  ((name ∉ converted_files st) /\
   no_file ".updatesvg" (folder st) /\ no_file ".updatexml" (folder st) /\
   converted_files (snd r) = {[name]} ∪ converted_files st /\
   ((fst r = Ok true /\ faulty E OpLedgerWrite = false /\
     ledger_file (snd r)
       = Some (merge_sort String.le (elements (converted_files (snd r))))) \/
    (fst r = Raised /\ faulty E OpLedgerWrite = true /\
     ledger_file (snd r) = ledger_file st))).
Proof.
  intros r. subst r.
  destruct (decide (name ∈ converted_files st)) as [Hin|Hnew].
  { left. rewrite process_icon_folder_ledgered by done.
    destruct (_ || _); [|exists true; by eauto].
    pose proof (marker_processing_changes E name
      (fst (scan_markers (folder st))) (snd (scan_markers (folder st))) st)
      as (Hc & Hl & _).
    destruct (safe_marker_processing E name
      (fst (scan_markers (folder st))) (snd (scan_markers (folder st))) st)
      as [a Ha].
    destruct (marker_processing E name _ _ st) as [r s].
    simpl in Ha, Hc, Hl. subst r.
    destruct a as [b|?]; [exists b | exists true]; simpl; by eauto. }
  rewrite process_icon_folder_unfold.
  rewrite update_svg_file_pick, update_xml_file_pick.
  destruct (pick (file_with ".updatesvg") (listing (folder st)) None)
    as [m|] eqn:Hm.
  { left. simpl orb. cbv iota. rewrite marker_processing_unledgered by done.
    exists true. simpl. split; [done|]. split; [done|]. split; [done|].
    intros _ _. left. apply pick_listing_Some in Hm as (c & ? & ?).
    by exists m, c. }
  destruct (pick (file_with ".updatexml") (listing (folder st)) None)
    as [mx|] eqn:Hmx.
  { left. simpl orb. cbv iota. rewrite marker_processing_unledgered by done.
    exists true. simpl. split; [done|]. split; [done|]. split; [done|].
    intros _ _. right. apply pick_listing_Some in Hmx as (c & ? & ?).
    by exists mx, c. }
  apply pick_listing_None in Hm, Hmx.
  simpl orb. cbv iota.
  rewrite normal_processing_new by done.
  assert (Hsync : exists a s, sync_asset_pair E st = (Ok a, s) /\
            converted_files s = converted_files st /\
            ledger_file s = ledger_file st /\
            (forall b, a = Return b -> b = false)).
  { rewrite sync_asset_pair_eq.
    destruct (fst (scan_sources (folder st))) as [svg|],
      (snd (scan_sources (folder st))) as [xml|];
      eexists _, _; (split; [reflexivity|]).
    - by repeat split.
    - destruct (svg_to_xml_changes E svg st) as (? & ? & _). by repeat split.
    - destruct (xml_to_svg_changes E xml st) as (? & ? & _). by repeat split.
    - repeat split. by intros b [= <-]. }
  destruct Hsync as (a & s & -> & Hc & Hl & Hret).
  destruct a as [b|svg].
  { left. exists b. simpl. repeat split; try done.
    intros ->. by specialize (Hret true eq_refl). }
  destruct (convert_new_ledger E name svg s) as [(Hr & Hc' & Hl')|(Hc' & Hcase)].
  - left. exists false. rewrite Hc', Hl'. by repeat split.
  - right. do 3 (split; [done|]). split; [by rewrite Hc', Hc|].
    destruct Hcase as [(? & ? & Hl')|(? & ? & Hl')]; [left|right];
      rewrite Hl', ?Hl; by repeat split.
Qed.

(** X7.  Processing a folder never removes a name from the in-memory
    ledger, and the only name it can add is the folder's own, when the
    folder was not yet in the ledger.  When the call returns, the ledger
    file is as it was, or was rewritten to hold the in-memory ledger in
    ascending order. *)
Theorem ledger_only_grows (E : externals) (name : string) (st : state) :
  let r := process_icon_folder E name st in
  (converted_files (snd r) = converted_files st \/
   ((name ∉ converted_files st) /\
    converted_files (snd r) = {[name]} ∪ converted_files st)) /\
  (fst r <> Raised ->
   ledger_file (snd r) = ledger_file st \/
   ledger_file (snd r)
     = Some (merge_sort String.le (elements (converted_files (snd r))))).
Proof.
  intros r. subst r.
  destruct (process_ledger_cases E name st)
    as [(b & _ & Hc & Hl & _)|(Hnew & _ & _ & Hc & Hcase)].
  - split; by left.
  - split; [by right|].
    destruct Hcase as [(_ & _ & Hl)|(Hr & _ & _)]; [by right | by rewrite Hr].
Qed.

Lemma ledger_only_grows_witness :
  ledger_file (snd (process_icon_folder Toy.calm "foo" Examples.fresh))
    = ledger_file Examples.fresh \/
  ledger_file (snd (process_icon_folder Toy.calm "foo" Examples.fresh))
    = Some (merge_sort String.le
              (elements (converted_files
                 (snd (process_icon_folder Toy.calm "foo" Examples.fresh))))).
Proof.
  apply (proj2 (ledger_only_grows Toy.calm "foo" Examples.fresh)).
  vm_compute. discriminate.
Defined.

(** X8.  If the ledger file holds exactly the names of the in-memory
    ledger before a folder is processed, and the call returns, then the
    ledger file holds exactly the names of the in-memory ledger
    afterwards. *)
Theorem ledger_stays_in_sync (E : externals) (name : string) (st : state) :
  in_sync st ->
  fst (process_icon_folder E name st) <> Raised ->
  in_sync (snd (process_icon_folder E name st)).
Proof.
  intros Hsync Hret.
  destruct (process_ledger_cases E name st)
    as [(b & Hr & Hc & Hl & _)|(Hnew & Hus & Hux & Hc & Hcase)].
  - unfold in_sync in *. by rewrite Hl, Hc.
  - destruct Hcase as [(Hr & _ & Hl)|(Hr & _ & _)]; [|done].
    unfold in_sync. rewrite Hl.
    intros n. apply (sorted_elements (converted_files _)).
Qed.

Lemma ledger_stays_in_sync_witness :
  in_sync Examples.fresh /\
  in_sync (snd (process_icon_folder Toy.calm "foo" Examples.fresh)).
Proof.
  assert (H : in_sync Examples.fresh) by reflexivity.
  split; [exact H|].
  apply (ledger_stays_in_sync Toy.calm "foo" Examples.fresh H).
  vm_compute. discriminate.
Defined.

(** X9.  Processing a folder whose name is in the ledger never touches
    the ledger, whatever markers the folder holds: the in-memory ledger and
    the ledger file are left as they were and the ledger file is not
    written. *)
Theorem converted_folder_keeps_the_ledger (E : externals) (name : string)
    (st : state) :
  name ∈ converted_files st ->
  let r := process_icon_folder E name st in
  converted_files (snd r) = converted_files st /\
  ledger_file (snd r) = ledger_file st /\
  exists l, trace (snd r) = (trace st ++ l)%list /\ OpLedgerWrite ∉ l.
Proof.
  intros Hin r. subst r.
  rewrite process_icon_folder_ledgered by done.
  destruct (_ || _).
  - pose proof (marker_processing_changes E name
      (fst (scan_markers (folder st))) (snd (scan_markers (folder st))) st)
      as (Hc & Hl & _ & Ht).
    destruct (marker_processing E name _ _ st) as [[[b|?]|] s]; simpl in *;
      eauto.
  - simpl. split; [done|]. split; [done|].
    exists []. split; [by rewrite app_nil_r | apply not_elem_of_nil].
Qed.

Lemma converted_folder_keeps_the_ledger_witness :
  "foo" ∈ converted_files Examples.marked /\
  ledger_file (snd (process_icon_folder Toy.calm "foo" Examples.marked))
    = ledger_file Examples.marked.
Proof.
  assert (H : "foo" ∈ converted_files Examples.marked) by ledgered.
  split; [exact H|].
  exact (proj1 (proj2
    (converted_folder_keeps_the_ledger Toy.calm "foo" Examples.marked H))).
Defined.

(** *** The pass over the icons root *)

Lemma icon_folders_elem (icons : gmap string rentry) (n : string) :
  n ∈ icon_folders icons <-> exists d, icons !! n = Some (RDir d).
Proof.
  unfold icon_folders. rewrite merge_sort_Permutation.
  rewrite list_elem_of_fmap. split.
  - intros ([n' e] & -> & H). apply list_elem_of_filter in H as [Hd H].
    apply elem_of_map_to_list in H. simpl in *.
    destruct e as [|d]; [done|]. by exists d.
  - intros [d H]. exists (n, RDir d). split; [done|].
    apply list_elem_of_filter. split; [done|]. by apply elem_of_map_to_list.
Qed.

(** X10.  The folders of one pass are exactly the sub-directories of the
    icons root, each once, in ascending order of their names; the regular
    files of the icons root (the ledger file among them) are not
    processed. *)
Theorem icon_folders_are_the_sorted_directories (icons : gmap string rentry) :
  StronglySorted String.le (icon_folders icons) /\
  NoDup (icon_folders icons) /\
  forall n, n ∈ icon_folders icons <-> exists d, icons !! n = Some (RDir d).
Proof.
  split; [apply StronglySorted_merge_sort; apply _|].
  split; [|apply icon_folders_elem].
  unfold icon_folders. rewrite merge_sort_Permutation.
  eapply sublist_NoDup; [apply (NoDup_fst_map_to_list icons)|].
  apply (fmap_sublist fst), sublist_filter.
Qed.

Lemma icon_folders_are_the_sorted_directories_witness :
  "aaa" ∈ icon_folders
    (list_to_map [("aaa", RDir ∅); ("README.md", RFile)] : gmap string rentry).
Proof.
  apply (proj2 (proj2 (icon_folders_are_the_sorted_directories _)) "aaa").
  exists ∅. vm_compute. reflexivity.
Defined.




(** X12.  When the icons root does not exist, or holds no sub-directory,
    [run] returns [False] and changes nothing. *)
Theorem run_without_folders (E : externals) (w : world) :
  (forall icons n d, w_icons w = Some icons -> icons !! n <> Some (RDir d)) ->
  run E w = (Ok false, w).
Proof.
  intros Hno. unfold run.
  destruct (w_icons w) as [icons|]; [|done].
  destruct (icon_folders icons) as [|n rest] eqn:Hl; [done|].
  assert (Hn : n ∈ icon_folders icons) by (rewrite Hl; left).
  apply icon_folders_elem in Hn as [d Hd]. by destruct (Hno icons n d).
Qed.

Lemma run_without_folders_witness :
  run Toy.calm Samples.no_folders = (Ok false, Samples.no_folders).
Proof.
  apply run_without_folders. intros icons n d [= <-].
  destruct (decide (n = "README.md")) as [->|Hne].
  - vm_compute. discriminate.
  - unfold Samples.no_folders. simpl. rewrite lookup_insert_ne by done.
    rewrite lookup_empty. discriminate.
Defined.

Lemma run_loop_skips (E : externals) (w : world) (icons : gmap string rentry) :
  w_icons w = Some icons ->
  (forall n d, icons !! n = Some (RDir d) ->
     n ∈ w_converted w /\ no_file ".updatesvg" d /\ no_file ".updatexml" d) ->
  forall folders successful failed,
    Forall (fun n => exists d, icons !! n = Some (RDir d)) folders ->
    run_loop E folders successful failed w
      = (Ok ((successful + List.length folders)%nat, failed), w).
Proof.
  intros Hi Hall folders.
  induction folders as [|n rest IH]; intros successful failed Hf.
  - simpl. by rewrite Nat.add_0_r.
  - apply Forall_cons in Hf as [[d Hd] Hrest]. simpl.
    destruct (Hall n d Hd) as (Hin & Hus & Hux).
    assert (Hp : process_icon_folder E n (enter w d) = (Ok true, enter w d)).
    { rewrite process_icon_folder_no_marker by done.
      by apply normal_processing_ledgered. }
    assert (Hw : process_in E n w = (Ok true, w)).
    { rewrite (process_in_folder E n w d) by (unfold icon_folder; by rewrite Hi).
      rewrite Hp, Hi. simpl. rewrite insert_id by done.
      rewrite app_nil_r. destruct w; simpl in *. by rewrite Hi. }
    rewrite Hw, IH by done. do 3 f_equal. lia.
Qed.

(** X13.  A pass over an icons root in which every folder is in the ledger
    and holds no marker changes nothing — no folder, not the ledger, no
    mutation is performed — and [run] returns [True]. *)
Theorem second_pass_changes_nothing (E : externals) (w : world)
    (icons : gmap string rentry) :
  w_icons w = Some icons ->
  (exists n d, icons !! n = Some (RDir d)) ->
  (forall n d, icons !! n = Some (RDir d) ->
     n ∈ w_converted w /\ no_file ".updatesvg" d /\ no_file ".updatexml" d) ->
  run E w = (Ok true, w).
Proof.
  intros Hi (n & d & Hn) Hall. unfold run. rewrite Hi.
  assert (Hf : Forall (fun n => exists d, icons !! n = Some (RDir d))
                 (icon_folders icons)).
  { apply Forall_forall. intros m. apply icon_folders_elem. }
  assert (H : n ∈ icon_folders icons) by (apply icon_folders_elem; eauto).
  destruct (icon_folders icons) as [|m rest] eqn:Hl.
  - by apply elem_of_nil in H.
  - by rewrite (run_loop_skips E w icons Hi Hall (m :: rest) 0 0 Hf).
Qed.

Lemma second_pass_changes_nothing_witness :
  run Toy.calm Samples.all_converted = (Ok true, Samples.all_converted).
Proof.
  apply (second_pass_changes_nothing Toy.calm Samples.all_converted _ eq_refl).
  - exists "aaa". eexists. vm_compute. reflexivity.
  - intros n d Hn.
    assert (Hcases : n = "aaa" \/ n = "bbb").
    { destruct (decide (n = "aaa")) as [|H1]; [by left|].
      destruct (decide (n = "bbb")) as [|H2]; [by right|].
      destruct (decide (n = "README.md")) as [->|H3]; [by vm_compute in Hn|].
      unfold Samples.all_converted in Hn. simpl in Hn.
      rewrite !lookup_insert_ne in Hn by done. by rewrite lookup_empty in Hn. }
    destruct Hcases as [-> | ->]; vm_compute in Hn; injection Hn as <-.
    + split; [ledgered|]. split; holds_none.
    + split; [ledgered|]. split; holds_none.
Defined.

(** *** The size check *)

Lemma rstrip_px_run (t : string) : px_run t = true -> rstrip_px t = "".
Proof.
  induction t as [|c t IH]; [done|]. simpl.
  intros [Hc Ht]%andb_true_iff. by rewrite IH, Hc.
Qed.

Lemma rstrip_px_app (s t : string) :
  px_run t = true -> rstrip_px (s ++ t) = rstrip_px s.
Proof.
  intros Ht. induction s as [|c s IH].
  - rewrite append_nil. by apply rstrip_px_run.
  - rewrite append_cons. simpl. by rewrite IH.
Qed.

(** X14.  The size check reads a width or a height up to its trailing run
    of the characters [p] and [x]: a non-empty value followed by any such
    run ([px], but also [x], [pp] or [xpx]) is judged as the value alone. *)
Theorem size_check_ignores_trailing_px (E : externals) (w h t u : string) :
  w <> "" -> h <> "" ->
  px_run t = true -> px_run u = true ->
  size_ok E (Some (w ++ t)) (Some (h ++ u)) = size_ok E (Some w) (Some h).
Proof.
  intros Hw Hh Ht Hu. unfold size_ok. simpl.
  destruct w as [|cw w]; [done|]. destruct h as [|ch h]; [done|].
  rewrite !append_cons. cbn [is_empty orb].
  rewrite <- !append_cons. by rewrite !rstrip_px_app.
Qed.

Lemma size_check_ignores_trailing_px_witness :
  size_ok Toy.calm (Some "800xpx") (Some "800pp")
    = size_ok Toy.calm (Some "800") (Some "800").
Proof.
  apply (size_check_ignores_trailing_px Toy.calm "800" "800" "xpx" "pp");
    [discriminate | discriminate | reflexivity | reflexivity].
Defined.

(** X24.  The size check never raises and never changes anything, and it
    answers [False] whenever the file is missing, is a directory, cannot
    be read or parsed, lacks a width or a height (or has an empty one), or
    has one that is not a number once its trailing [p] and [x] are
    dropped. *)
Theorem size_check_refusals (E : externals) (svg : string) (st : state) :
  (exists b, _check_svg_size E svg st = (Ok b, st)) /\
  ((forall c, folder st !! svg <> Some (File c)) \/
   faulty E (OpRead [svg]) = true \/
   (exists c, folder st !! svg = Some (File c) /\
      (root_size_attrs E c = None \/
       exists w h, root_size_attrs E c = Some (w, h) /\
         (w = None \/ w = Some "" \/ h = None \/ h = Some "" \/
          float_of E (rstrip_px (default "" w)) = None \/
          float_of E (rstrip_px (default "" h)) = None))) ->
   _check_svg_size E svg st = (Ok false, st)).
Proof.
  rewrite check_svg_size_eq. split; [eauto|].
  intros [Hno|[Hread|(c & Hc & Hbad)]].
  - destruct (folder st !! svg) as [[c|kids]|]; try done. by destruct (Hno c).
  - rewrite Hread. by destruct (folder st !! svg) as [[c|kids]|].
  - rewrite Hc. do 2 f_equal. apply andb_false_iff. right.
    unfold declares_800.
    destruct Hbad as [->|(w & h & -> & Hwh)]; [done|]. simpl.
    unfold size_ok.
    destruct Hwh as [->|[->|[->|[->|[H|H]]]]]; simpl; try done.
    + by rewrite orb_true_r.
    + by rewrite orb_true_r.
    + destruct (falsy w || falsy h); [done|]. by rewrite H.
    + destruct (falsy w || falsy h); [done|]. rewrite H.
      by destruct (float_of E (rstrip_px (default "" w))).
Qed.

Lemma size_check_refusals_witness :
  _check_svg_size Toy.calm "foo.svg" Samples.no_sources
    = (Ok false, Samples.no_sources).
Proof.
  apply (proj2 (size_check_refusals Toy.calm "foo.svg" Samples.no_sources)).
  left. intros c. vm_compute. discriminate.
Defined.

(** *** The asset pair *)

Lemma copy_contract (copy : M bool) (src dst : string) (st : state) :
  (copy st = (Ok false, st) \/
   exists c, folder st !! src = Some (File c) /\
     (forall kids, folder st !! dst <> Some (Dir kids)) /\
     copy st = (Ok true,
                log_op (OpWrite [dst])
                  (set_folder (<[dst := File c]> (folder st)) st))) ->
  (exists b, fst (copy st) = Ok b) /\
  (forall n, n <> dst -> folder (snd (copy st)) !! n = folder st !! n) /\
  converted_files (snd (copy st)) = converted_files st /\
  ledger_file (snd (copy st)) = ledger_file st /\
  (fst (copy st) = Ok true ->
   exists c, folder st !! src = Some (File c) /\
     folder (snd (copy st)) !! src = Some (File c) /\
     folder (snd (copy st)) = <[dst := File c]> (folder st) /\
     trace (snd (copy st)) = (trace st ++ [OpWrite [dst]])%list).
Proof.
  intros [H|(c & Hc & Hd & H)]; rewrite H; simpl.
  - split; [eauto|]. split; [done|]. split; [done|]. split; [done|].
    discriminate.
  - split; [eauto|].
    split; [intros n Hn; by rewrite lookup_insert_ne|].
    split; [done|]. split; [done|].
    intros _. exists c. split; [done|]. split; [|done].
    destruct (decide (dst = src)) as [->|Hne].
    + by rewrite lookup_insert_eq.
    + by rewrite lookup_insert_ne.
Qed.

(** X15.  [_svg_to_xml] and [_xml_to_svg] never raise, never touch the
    ledger, and never touch an entry of the icon folder other than the
    partner file (same stem, the other extension).  When they return
    [True], the file read is still in place with its text, and the partner
    file holds that text. *)
Theorem copies_write_the_partner_only (E : externals) (svg xml : string)
    (st : state) :
  let to_xml := _svg_to_xml E svg st in
  let to_svg := _xml_to_svg E xml st in
  ((exists b, fst to_xml = Ok b) /\
   (forall n, n <> stem svg ++ ".xml" ->
      folder (snd to_xml) !! n = folder st !! n) /\
   converted_files (snd to_xml) = converted_files st /\
   ledger_file (snd to_xml) = ledger_file st /\
   (fst to_xml = Ok true ->
    exists c, folder st !! svg = Some (File c) /\
      folder (snd to_xml) !! svg = Some (File c) /\
      folder (snd to_xml) = <[stem svg ++ ".xml" := File c]> (folder st) /\
      trace (snd to_xml)
        = (trace st ++ [OpWrite [(stem svg ++ ".xml")%string]])%list)) /\
  ((exists b, fst to_svg = Ok b) /\
   (forall n, n <> stem xml ++ ".svg" ->
      folder (snd to_svg) !! n = folder st !! n) /\
   converted_files (snd to_svg) = converted_files st /\
   ledger_file (snd to_svg) = ledger_file st /\
   (fst to_svg = Ok true ->
    exists c, folder st !! xml = Some (File c) /\
      folder (snd to_svg) !! xml = Some (File c) /\
      folder (snd to_svg) = <[stem xml ++ ".svg" := File c]> (folder st) /\
      trace (snd to_svg)
        = (trace st ++ [OpWrite [(stem xml ++ ".svg")%string]])%list)).
Proof.
  split.
  - apply (copy_contract (_svg_to_xml E svg) svg (stem svg ++ ".xml") st).
    apply svg_to_xml_cases.
  - apply (copy_contract (_xml_to_svg E xml) xml (stem xml ++ ".svg") st).
    apply xml_to_svg_cases.
Qed.

Lemma copies_write_the_partner_only_witness :
  exists c,
    folder Examples.fresh !! "foo.svg" = Some (File c) /\
    folder (snd (_svg_to_xml Toy.calm "foo.svg" Examples.fresh))
      = <["foo.xml" := File c]> (folder Examples.fresh).
Proof.
  destruct (proj1 (copies_write_the_partner_only Toy.calm "foo.svg" "foo.xml"
                     Examples.fresh)) as (_ & _ & _ & _ & H).
  destruct (H ltac:(vm_compute; reflexivity)) as (c & H1 & _ & H2 & _).
  exists c. split; [exact H1 | exact H2].
Defined.

(** X16.  Copying a vector file with the extension [.svg] to its XML
    partner and the partner back gives the vector file its own text again:
    in an environment that refuses nothing, the second copy succeeds and
    leaves every entry of the folder as the first copy left it. *)
Theorem copy_round_trip (E : externals) (svg : string) (st : state) :
  (forall o, faulty E o = false) ->
  suffix svg = ".svg" ->
  fst (_svg_to_xml E svg st) = Ok true ->
  let s1 := snd (_svg_to_xml E svg st) in
  fst (_xml_to_svg E (stem svg ++ ".xml") s1) = Ok true /\
  folder (snd (_xml_to_svg E (stem svg ++ ".xml") s1)) = folder s1.
Proof.
  intros Hcalm Hsuf Hok s1.
  assert (Hstem : stem svg <> "").
  { apply suffix_nonempty_stem. by rewrite Hsuf. }
  assert (Hname : stem (stem svg ++ ".xml") ++ ".svg" = svg).
  { rewrite stem_xml_of by done. rewrite (stem_suffix svg) at 2.
    by rewrite Hsuf. }
  destruct (svg_to_xml_cases E svg st) as [H|(c & Hc & Hd & H)].
  { rewrite H in Hok. discriminate. }
  assert (Hsvg : folder s1 !! svg = Some (File c)).
  { subst s1. rewrite H. simpl.
    destruct (decide (stem svg ++ ".xml" = svg)) as [->|Hne].
    - by rewrite lookup_insert_eq.
    - by rewrite lookup_insert_ne. }
  assert (Hxml : folder s1 !! (stem svg ++ ".xml") = Some (File c)).
  { subst s1. rewrite H. simpl. by rewrite lookup_insert_eq. }
  rewrite (xml_to_svg_copies E (stem svg ++ ".xml") c s1 Hxml);
    rewrite ?Hname; try done.
  - simpl. split; [done|]. by apply insert_id.
  - intros kids. by rewrite Hsvg.
Qed.

Lemma copy_round_trip_witness :
  folder (snd (_xml_to_svg Toy.calm "foo.xml"
                 (snd (_svg_to_xml Toy.calm "foo.svg" Examples.fresh))))
    = folder (snd (_svg_to_xml Toy.calm "foo.svg" Examples.fresh)).
Proof.
  refine (proj2 (copy_round_trip Toy.calm "foo.svg" Examples.fresh _ _ _)).
  - reflexivity.
  - vm_compute. reflexivity.
  - vm_compute. reflexivity.
Defined.

(** *** What the processing of a folder leaves alone *)

Section FolderFrame.

Context (E : externals).

Lemma touches_mono (P Q : string -> Prop) st st' :
  (forall n, P n -> Q n) -> touches P st st' -> touches Q st st'.
Proof. intros HPQ H n Hn. apply H. intros HP. apply Hn, HPQ, HP. Qed.

Lemma preserves_touches_mono {A} (P Q : string -> Prop) (m : M A) :
  (forall n, P n -> Q n) ->
  preserves (changes_only P) m -> preserves (touches Q) m.
Proof.
  intros HPQ Hm st. eapply touches_mono; [exact HPQ|].
  by apply changes_only_touches.
Qed.

Lemma xml_partner_is_own svg :
  has_ext ".svg" svg = true -> own_entry (stem svg ++ ".xml").
Proof.
  intros H. right. left. apply has_ext_xml_of.
  by apply (has_ext_stem_nonempty ".svg").
Qed.

Lemma svg_partner_is_own xml :
  has_ext ".xml" xml = true -> own_entry (stem xml ++ ".svg").
Proof.
  intros H. left. apply has_ext_svg_of.
  by apply (has_ext_stem_nonempty ".xml").
Qed.

Lemma create_variants_own (P : string -> Prop) src base :
  (forall n, own_entry n -> P n) ->
  preserves (touches P) (_create_variants E src base).
Proof.
  intros HP. eapply preserves_touches_mono; [|apply create_variants_changes].
  intros n [->|Hn]; apply HP; [right; right; left; by exists base|].
  by do 3 right.
Qed.

Lemma convert_new_own name svg :
  preserves (touches own_entry) (convert_new E name svg).
Proof.
  intros st. eapply touches_mono; [|apply convert_new_touches].
  intros n [->|Hn]; [right; right; left; by eexists | by do 3 right].
Qed.

Lemma normal_processing_own name st :
  touches own_entry st (snd (normal_processing E name st)).
Proof.
  destruct (decide (name ∈ converted_files st)) as [Hin|Hnew].
  { by rewrite normal_processing_ledgered. }
  rewrite normal_processing_new, sync_asset_pair_eq by done.
  rewrite svg_file_pick, xml_file_pick.
  destruct (pick (file_with ".svg") (listing (folder st)) None)
    as [svg|] eqn:Hsvg;
    destruct (pick (file_with ".xml") (listing (folder st)) None)
      as [xml|] eqn:Hxml.
  - apply convert_new_own.
  - apply pick_listing_Some in Hsvg as (c & _ & Hext).
    etransitivity; [|apply convert_new_own].
    eapply (preserves_touches_mono _ own_entry); [|apply svg_to_xml_changes].
    intros n <-. by apply xml_partner_is_own.
  - apply pick_listing_Some in Hxml as (c & _ & Hext).
    etransitivity; [|apply convert_new_own].
    eapply (preserves_touches_mono _ own_entry); [|apply xml_to_svg_changes].
    intros n <-. by apply svg_partner_is_own.
  - done.
Qed.

Local Abbreviation worked_on := (fun n => own_entry n \/ marker_entry n).

Lemma invalidate_worked_on source marker :
  worked_on source -> worked_on marker ->
  preserves (touches worked_on) (invalidate E source marker).
Proof.
  intros Hs Hm.
  eapply preserves_touches_mono; [|apply invalidate_changes].
  intros n [->| [->|Hn]]; [done|done|]. left. by do 3 right.
Qed.

Lemma regenerate_worked_on name svg_file :
  preserves (touches worked_on) (regenerate E name svg_file).
Proof.
  unfold regenerate. destruct svg_file as [svg|]; [|apply preserves_ret, _].
  apply preserves_bind; try apply _; [apply preserves_gets, _|].
  intros present. apply preserves_if; try apply _; [|apply preserves_ret, _].
  apply preserves_bind; try apply _.
  { intros st. rewrite check_svg_size_eq. reflexivity. }
  intros sized. apply preserves_if; try apply _.
  { apply preserves_bind; try apply _; intros; apply preserves_ret, _. }
  apply preserves_bind; try apply _.
  { apply create_variants_own. by left. }
  intros [|]; apply preserves_ret, _.
Qed.

Lemma handle_updatesvg_worked_on marker svg xml_file :
  has_ext ".updatesvg" marker = true ->
  has_ext ".svg" svg = true ->
  (forall xml, xml_file = Some xml -> has_ext ".xml" xml = true) ->
  preserves (touches worked_on) (handle_updatesvg E marker svg xml_file).
Proof.
  intros Hm Hs Hx. unfold handle_updatesvg.
  apply preserves_bind; try apply _.
  { apply invalidate_worked_on; [left; by left | right; by left]. }
  intros _. destruct xml_file as [xml|]; [|apply preserves_ret, _].
  apply preserves_bind; try apply _; [apply preserves_gets, _|].
  intros present. apply preserves_if; try apply _; [|apply preserves_ret, _].
  apply preserves_bind; try apply _; [|intros; apply preserves_ret, _].
  eapply preserves_touches_mono; [|apply xml_to_svg_changes].
  intros n <-. left. apply svg_partner_is_own. by apply Hx.
Qed.

Lemma handle_updatexml_worked_on marker xml svg_file :
  has_ext ".updatexml" marker = true ->
  has_ext ".xml" xml = true ->
  (forall svg, svg_file = Some svg -> has_ext ".svg" svg = true) ->
  preserves (touches worked_on) (handle_updatexml E marker xml svg_file).
Proof.
  intros Hm Hx Hs. unfold handle_updatexml.
  apply preserves_bind; try apply _.
  { apply invalidate_worked_on; [left; right; by left | right; by right]. }
  intros _. destruct svg_file as [svg|]; [|apply preserves_ret, _].
  apply preserves_bind; try apply _; [apply preserves_gets, _|].
  intros present. apply preserves_if; try apply _; [|apply preserves_ret, _].
  apply preserves_bind; try apply _; [|intros; apply preserves_ret, _].
  eapply preserves_touches_mono; [|apply svg_to_xml_changes].
  intros n <-. left. apply xml_partner_is_own. by apply Hs.
Qed.

(** The [.updatesvg] block returns, or continues with the vector file
    that has the base name of the XML file. *)
Lemma handle_updatesvg_result marker svg xml_file st r s :
  handle_updatesvg E marker svg xml_file st = (Ok r, s) ->
  r = Return false \/
  exists xml, xml_file = Some xml /\ r = Continue (Some (stem xml ++ ".svg")).
Proof.
  unfold handle_updatesvg.
  rewrite (bind_Ok _ _ _ _ _ (invalidate_run E svg marker st)).
  destruct xml_file as [xml|]; [|intros [= <- _]; by left].
  unfold bind at 1. unfold path_exists, gets.
  destruct (folder _ !! xml); [|intros [= <- _]; by left].
  unfold bind, ret.
  destruct (_xml_to_svg E xml _) as [[b|] s2]; [|done].
  intros [= <- _]. right. by exists xml.
Qed.

Lemma marker_processing_worked_on name st :
  touches worked_on st
    (snd (marker_processing E name (fst (scan_markers (folder st)))
            (snd (scan_markers (folder st))) st)).
Proof.
  destruct (decide (name ∈ converted_files st)) as [Hin|Hnew].
  2:{ by rewrite marker_processing_unledgered. }
  rewrite marker_processing_ledgered by done. cbv zeta.
  rewrite update_svg_file_pick, update_xml_file_pick.
  rewrite svg_file_pick, xml_file_pick.
  assert (Hext : forall ext n,
            pick (file_with ext) (listing (folder st)) None = Some n ->
            has_ext ext n = true).
  { intros ext n H. by apply pick_listing_Some in H as (c & _ & ?). }
  set (usf := pick (file_with ".updatesvg") (listing (folder st)) None) in *.
  set (uxf := pick (file_with ".updatexml") (listing (folder st)) None) in *.
  set (svg_file := pick (file_with ".svg") (listing (folder st)) None) in *.
  set (xml_file := pick (file_with ".xml") (listing (folder st)) None) in *.
  assert (Hrest : forall sv,
            (forall v, sv = Some v -> has_ext ".svg" v = true) ->
            preserves (touches worked_on)
              (let* after_xml :=
                 match uxf with
                 | Some marker =>
                     match xml_file with
                     | Some xml => handle_updatexml E marker xml sv
                     | None => ret (Continue tt)
                     end
                 | None => ret (Continue tt)
                 end in
               match after_xml with
               | Return b => ret (Return b)
               | Continue _ => regenerate E name sv
               end)).
  { intros sv Hsv. apply preserves_bind; try apply _.
    - destruct uxf as [mx|] eqn:Hmx; [|apply preserves_ret, _].
      destruct xml_file as [xml|] eqn:Hxml; [|apply preserves_ret, _].
      apply handle_updatexml_worked_on; [by apply Hext | by apply Hext | done].
    - intros [b|?]; [apply preserves_ret, _ | apply regenerate_worked_on]. }
  destruct usf as [m|] eqn:Hm; [destruct svg_file as [svg|] eqn:Hsvg|].
  - pose proof (handle_updatesvg_worked_on m svg xml_file
                  (Hext _ _ Hm) (Hext _ _ Hsvg) (Hext ".xml")) as Hfirst.
    specialize (Hfirst st).
    destruct (safe_handle_updatesvg E m svg xml_file st) as [r Hr].
    destruct (handle_updatesvg E m svg xml_file st) as [r' s1] eqn:Hrun.
    simpl in Hr, Hfirst. subst r'.
    rewrite (bind_Ok _ _ _ _ _ Hrun).
    destruct (handle_updatesvg_result _ _ _ _ _ _ Hrun)
      as [->|(xml & Hxml & ->)]; [done|].
    etransitivity; [exact Hfirst|]. apply Hrest.
    intros v [= <-]. apply has_ext_svg_of.
    apply (has_ext_stem_nonempty ".xml"); [done|]. by apply Hext.
  - unfold bind at 1, ret at 1. apply Hrest. intros v [=].
  - unfold bind at 1, ret at 1. apply Hrest. intros v Hv. by apply Hext.
Qed.

Lemma process_icon_folder_worked_on name st :
  touches worked_on st (snd (process_icon_folder E name st)).
Proof.
  rewrite process_icon_folder_unfold.
  destruct (_ || _).
  - pose proof (marker_processing_worked_on name st) as Hm.
    destruct (marker_processing E name _ _ st) as [[[b|?]|] s1];
      simpl in Hm |- *; try done.
    etransitivity; [exact Hm|].
    eapply touches_mono; [|apply normal_processing_own]. by left.
  - eapply touches_mono; [|apply normal_processing_own]. by left.
Qed.

End FolderFrame.

(** X17.  Processing a folder never creates, changes or deletes an entry of
    the icon folder other than vector files, XML files, update markers,
    temporary rasters [_temp_*.png] and the three output directories;
    without a marker in the folder, the markers are out of reach as
    well. *)
Theorem other_entries_are_left_alone (E : externals) (name n : string)
    (st : state) :
  let st' := snd (process_icon_folder E name st) in
  (~ own_entry n -> ~ marker_entry n -> folder st' !! n = folder st !! n) /\
  (no_file ".updatesvg" (folder st) -> no_file ".updatexml" (folder st) ->
   ~ own_entry n -> folder st' !! n = folder st !! n).
Proof.
  intros st'. subst st'. split.
  - intros Ho Hm. apply (process_icon_folder_worked_on E name st). tauto.
  - intros Hus Hux Ho. rewrite process_icon_folder_no_marker by done.
    by apply (normal_processing_own E name st).
Qed.

Lemma other_entries_are_left_alone_witness :
  folder (snd (process_icon_folder Toy.calm "foo" Examples.cluttered))
    !! "notes.txt" = Some (File "keep").
Proof.
  refine (eq_trans
    (proj1 (other_entries_are_left_alone Toy.calm "foo" "notes.txt"
              Examples.cluttered) _ _) _).
  - intros [H|[H|[[base H]|H]]]; try discriminate H.
    apply list_elem_of_In in H. vm_compute in H.
    repeat destruct H as [H|H]; try discriminate H. done.
  - intros [H|H]; discriminate H.
  - vm_compute. reflexivity.
Defined.

Lemma marker_not_own (n : string) : marker_entry n -> ~ own_entry n.
Proof.
  intros Hm [H|[H|[[base ->]|H]]].
  - destruct Hm as [Hm|Hm]; by pose proof (has_ext_functional _ _ _ Hm H).
  - destruct Hm as [Hm|Hm]; by pose proof (has_ext_functional _ _ _ Hm H).
  - pose proof (has_ext_temp base) as H.
    destruct Hm as [Hm|Hm]; by pose proof (has_ext_functional _ _ _ Hm H).
  - apply has_ext_format in H.
    destruct Hm as [Hm|Hm]; by pose proof (has_ext_functional _ _ _ Hm H).
Qed.

(** X18.  Processing is idempotent on success: when a folder without
    markers has been reported successful, its name is in the ledger and it
    still holds no marker, so processing it again reports success and
    changes nothing. *)
Theorem successful_folder_is_skipped_next_time (E : externals)
    (name : string) (st : state) :
  no_file ".updatesvg" (folder st) ->
  no_file ".updatexml" (folder st) ->
  fst (process_icon_folder E name st) = Ok true ->
  let st' := snd (process_icon_folder E name st) in
  name ∈ converted_files st' /\
  process_icon_folder E name st' = (Ok true, st').
Proof.
  intros Hus Hux Hok st'.
  assert (Hin : name ∈ converted_files st').
  { subst st'.
    destruct (process_ledger_cases E name st)
      as [(b & Hr & Hc & _ & Hb)|(_ & _ & _ & Hc & _)].
    - rewrite Hc. rewrite Hr in Hok. injection Hok as ->.
      destruct (decide (name ∈ converted_files st)) as [|Hnew]; [done|].
      destruct (Hb eq_refl Hnew) as [(n & c & Hn & He)|(n & c & Hn & He)].
      + by rewrite (Hus n c Hn) in He.
      + by rewrite (Hux n c Hn) in He.
    - rewrite Hc. apply elem_of_union_l, elem_of_singleton. done. }
  assert (Hkeep : forall n, marker_entry n -> folder st' !! n = folder st !! n).
  { intros n Hn. subst st'. rewrite process_icon_folder_no_marker by done.
    apply (normal_processing_own E name st). by apply marker_not_own. }
  split; [done|].
  rewrite process_icon_folder_no_marker.
  - by apply normal_processing_ledgered.
  - intros n c Hn. destruct (has_ext ".updatesvg" n) eqn:He; [|done].
    rewrite Hkeep in Hn by (by left). by rewrite (Hus n c Hn) in He.
  - intros n c Hn. destruct (has_ext ".updatexml" n) eqn:He; [|done].
    rewrite Hkeep in Hn by (by right). by rewrite (Hux n c Hn) in He.
Qed.

Lemma successful_folder_is_skipped_next_time_witness :
  fst (process_icon_folder Toy.calm "foo" Examples.fresh) = Ok true /\
  fst (process_icon_folder Toy.calm "foo"
         (snd (process_icon_folder Toy.calm "foo" Examples.fresh))) = Ok true.
Proof.
  assert (H1 : no_file ".updatesvg" (folder Examples.fresh)) by holds_none.
  assert (H2 : no_file ".updatexml" (folder Examples.fresh)) by holds_none.
  assert (H3 : fst (process_icon_folder Toy.calm "foo" Examples.fresh) = Ok true)
    by (vm_compute; reflexivity).
  split; [exact H3|].
  exact (f_equal fst
    (proj2 (successful_folder_is_skipped_next_time Toy.calm "foo"
              Examples.fresh H1 H2 H3))).
Defined.

(** *** Regenerations that fail after the invalidation *)

(** The marker blocks of a regeneration leave the folder ready for the
    variant generator. *)
Lemma marker_blocks_reach_regenerate (E : externals) (name m svg xml : string)
    (c : content) (st : state) :
  (forall o, faulty E o = false) ->
  name ∈ converted_files st ->
  fst (scan_markers (folder st)) = Some m ->
  fst (scan_sources (folder st)) = Some svg ->
  snd (scan_sources (folder st)) = Some xml ->
  folder st !! xml = Some (File c) ->
  exists s,
    regen_ready E st m svg (stem xml ++ ".svg") c s /\
    marker_processing E name (Some m) (snd (scan_markers (folder st))) st
      = regenerate E name (Some (stem xml ++ ".svg")) s.
Proof.
  intros Hcalm Hin Hm Hsvg Hxml Hc.
  assert (Hunlink : forall p, faulty E (OpUnlink p) = false)
    by (intros; apply Hcalm).
  pose proof (ready_after_updatesvg E Hunlink Hcalm st m svg xml c
                Hm Hsvg Hxml Hc) as Hready.
  rewrite marker_processing_ledgered by done. cbv zeta.
  rewrite Hsvg, Hxml.
  rewrite (bind_Ok _ _ _ _ _ (handle_updatesvg_with_xml E m svg xml c st Hc
             (scanned_names_differ _ ".xml" ".svg" _ _
                ltac:(by rewrite <- xml_file_pick)
                ltac:(by rewrite <- svg_file_pick) ltac:(done))
             (scanned_names_differ _ ".xml" ".updatesvg" _ _
                ltac:(by rewrite <- xml_file_pick)
                ltac:(by rewrite <- update_svg_file_pick) ltac:(done)))).
  destruct (snd (scan_markers (folder st))) as [mx|] eqn:Hmx.
  - destruct (ready_after_updatexml E st m svg xml mx c _
                Hm Hmx Hxml Hready) as (s4 & Hrun & Hready4).
    exists s4. split; [done|]. by rewrite (bind_Ok _ _ _ _ _ Hrun).
  - eexists. split; [exact Hready|]. reflexivity.
Qed.

(** X19.  A regeneration is not transactional.  On a ledgered folder with
    an [.updatesvg] marker, a vector file and an XML file whose markup
    does not declare 800 by 800, in an environment that refuses nothing,
    the folder is reported failed only after the invalidation: the marker
    is deleted, no regular file matching the pattern of the old base name
    is left in an output directory, and no variant is written. *)
Theorem wrong_size_regeneration_destroys_variants (E : externals)
    (name m svg xml : string) (c : content) (st : state) :
  (forall o, faulty E o = false) ->
  name ∈ converted_files st ->
  fst (scan_markers (folder st)) = Some m ->
  fst (scan_sources (folder st)) = Some svg ->
  snd (scan_sources (folder st)) = Some xml ->
  folder st !! xml = Some (File c) ->
  declares_800 E c = false ->
  let st' := snd (process_icon_folder E name st) in
  fst (process_icon_folder E name st) = Ok false /\
  folder st' !! m = None /\
  (forall d k, in_formats d ->
     glob_match E (variant_pattern (stem svg) d) k = true ->
     ~ has_variant st' d k) /\
  (exists t, trace st' = (trace st ++ t)%list /\ sub_writes t = []) /\
  converted_files st' = converted_files st /\
  ledger_file st' = ledger_file st.
Proof.
  intros Hcalm Hin Hm Hsvg Hxml Hc Hsize.
  destruct (marker_blocks_reach_regenerate E name m svg xml c st
              Hcalm Hin Hm Hsvg Hxml Hc)
    as (s & (Hchg & Hwr & Hgone & Hold & Hnew) & Hrun).
  assert (Hreg : regenerate E name (Some (stem xml ++ ".svg")) s
                 = (Ok (Return false), s)).
  { rewrite regenerate_eq.
    destruct Hnew as [Hnew|[kids Hnew]]; rewrite Hnew; [|done].
    by rewrite Hsize, andb_false_r. }
  assert (Hp : process_icon_folder E name st = (Ok false, s)).
  { rewrite process_icon_folder_ledgered, Hm by done. cbn [is_Some_b orb].
    by rewrite Hrun, Hreg. }
  rewrite Hp. simpl.
  destruct Hchg as (Hcv & Hl & _).
  by repeat split.
Qed.

Lemma wrong_size_regeneration_destroys_variants_witness :
  fst (process_icon_folder Toy.calm "foo" Samples.marked_small) = Ok false /\
  ~ has_variant (snd (process_icon_folder Toy.calm "foo" Samples.marked_small))
      "png" "foo_32.png".
Proof.
  destruct (wrong_size_regeneration_destroys_variants Toy.calm "foo"
              "redo.updatesvg" "foo.svg" "foo.xml" Toy.small
              Samples.marked_small)
    as (G1 & _ & G3 & _).
  - reflexivity.
  - ledgered.
  - vm_compute; reflexivity.
  - vm_compute; reflexivity.
  - vm_compute; reflexivity.
  - vm_compute; reflexivity.
  - vm_compute; reflexivity.
  - split; [exact G1|]. apply G3.
    + apply list_elem_of_In. simpl. tauto.
    + vm_compute. reflexivity.
Defined.

(** X20.  On a ledgered folder with an [.updatesvg] marker and a vector
    file but no XML file, the folder is reported failed, and only after the
    invalidation: when no deletion is refused, the vector file and the
    marker are deleted and no regular file matching the pattern of the base
    name is left in an output directory, although there is nothing to
    regenerate from. *)
Theorem marker_without_xml_destroys_the_vector (E : externals)
    (name m svg : string) (st : state) :
  name ∈ converted_files st ->
  fst (scan_markers (folder st)) = Some m ->
  fst (scan_sources (folder st)) = Some svg ->
  snd (scan_sources (folder st)) = None ->
  let st' := snd (process_icon_folder E name st) in
  process_icon_folder E name st = (Ok false, snd (invalidate E svg m st)) /\
  ((forall p, faulty E (OpUnlink p) = false) ->
   folder st' !! svg = None /\
   folder st' !! m = None /\
   forall d k, in_formats d ->
     glob_match E (variant_pattern (stem svg) d) k = true ->
     ~ has_variant st' d k).
Proof.
  intros Hin Hm Hsvg Hxml.
  assert (Hp : process_icon_folder E name st
               = (Ok false, snd (invalidate E svg m st))).
  { rewrite process_icon_folder_ledgered, Hm by done. cbn [is_Some_b orb].
    rewrite marker_processing_ledgered by done. cbv zeta.
    rewrite Hsvg, Hxml.
    by rewrite (bind_Ok _ _ _ _ _ (handle_updatesvg_no_xml E m svg st)). }
  intros st'. subst st'. rewrite Hp. split; [done|]. simpl.
  intros Hunlink.
  destruct (invalidate_complete E Hunlink svg m st) as (Hold & Hgone).
  rewrite update_svg_file_pick in Hm. rewrite svg_file_pick in Hsvg.
  apply pick_listing_Some in Hm as (c2 & Hm & Hme).
  apply pick_listing_Some in Hsvg as (c1 & Hsvg & Hse).
  destruct (Hgone c1 c2 Hsvg Hm) as (G1 & G2).
  - intros H%has_ext_format. by pose proof (has_ext_functional _ _ _ Hse H).
  - intros H%has_ext_format. by pose proof (has_ext_functional _ _ _ Hme H).
  - done.
Qed.

Lemma marker_without_xml_destroys_the_vector_witness :
  fst (process_icon_folder Toy.calm "foo" Examples.both_markers_no_xml)
    = Ok false /\
  folder (snd (process_icon_folder Toy.calm "foo" Examples.both_markers_no_xml))
    !! "foo.svg" = None.
Proof.
  destruct (marker_without_xml_destroys_the_vector Toy.calm "foo"
              "a.updatesvg" "foo.svg" Examples.both_markers_no_xml)
    as (G1 & G2).
  - ledgered.
  - vm_compute; reflexivity.
  - vm_compute; reflexivity.
  - vm_compute; reflexivity.
  - split; [by rewrite G1|]. by apply G2.
Defined.

(** *** The constructor *)

(** X21.  The search for the icons root looks in the parent directory
    first and in the directory of the program second, and fails when
    neither holds a directory [icons]: the loop over the sub-directories
    never finds anything, since it looks for the directory the second
    search has just missed. *)
Theorem find_icons_folder_searches_two_places (parent same : gmap string bool) :
  _find_icons_folder parent same
    = if is_dir parent "icons" then Some InParent
      else if is_dir same "icons" then Some InSame
      else None.
Proof.
  unfold _find_icons_folder.
  destruct (is_dir parent "icons"); [done|].
  destruct (is_dir same "icons") eqn:Hsame; [done|].
  destruct (filter _ (map_to_list same)) as [|[n b] rest] eqn:Hf; [done|].
  assert (Hin : (n, b) ∈ filter
            (fun item : string * bool =>
               snd item && String.eqb (fst item) "icons" = true)
            (map_to_list same)) by (rewrite Hf; left).
  apply list_elem_of_filter in Hin as [Hp Hin]. simpl in Hp.
  apply andb_true_iff in Hp as [-> Hn]. apply eqb_true in Hn as ->.
  apply elem_of_map_to_list in Hin.
  unfold is_dir in Hsame. by rewrite Hin in Hsame.
Qed.

(** *** The ledger file, written and read back *)

Lemma list_ascii_of_string_app (s t : string) :
  list_ascii_of_string (s ++ t)
    = (list_ascii_of_string s ++ list_ascii_of_string t)%list.
Proof.
  induction s as [|c s IH]; [done|].
  rewrite append_cons. simpl. by rewrite IH.
Qed.

Lemma py_strip_line (s : string) : py_strip (s ++ newline) = py_strip s.
Proof.
  unfold py_strip. rewrite list_ascii_of_string_app. simpl.
  by rewrite rev_unit.
Qed.

Lemma text_lines_line (name rest cur : string) :
  one_line name = true ->
  text_lines cur (name ++ newline ++ rest)
    = (cur ++ name ++ newline) :: text_lines "" rest.
Proof.
  unfold one_line. revert cur.
  induction name as [|c name IH]; intros cur Hn.
  - done.
  - simpl in Hn. apply andb_true_iff in Hn as [Hc Hn].
    apply negb_true_iff, orb_false_iff in Hc as [Hc1 Hc2].
    rewrite append_cons. simpl text_lines. rewrite Hc1, Hc2.
    rewrite IH by done. f_equal.
    by rewrite append_assoc.
Qed.

Lemma text_lines_ledger_text (names : list string) :
  Forall (fun n => one_line n = true) names ->
  text_lines "" (ledger_text names) = map (fun n => n ++ newline) names.
Proof.
  induction 1 as [|n names Hn _ IH]; [done|].
  simpl. rewrite text_lines_line by done. by rewrite IH.
Qed.

Lemma parse_ledger_text (names : list string) :
  Forall (fun n => one_line n = true /\ py_strip n = n /\ n <> "") names ->
  parse_ledger (ledger_text names) = list_to_set names.
Proof.
  intros Hall. unfold parse_ledger.
  rewrite text_lines_ledger_text.
  2:{ eapply Forall_impl; [exact Hall|]. by intros n (? & _). }
  f_equal. induction Hall as [|n names (_ & Hs & Hne) _ IH]; [done|].
  simpl. rewrite py_strip_line, Hs.
  rewrite filter_cons_True by (by destruct n).
  by rewrite IH.
Qed.

(** X22.  Writing the ledger and loading it again gives the same ledger,
    when every name in it is one non-empty line of text without leading or
    trailing white space: [_load_converted_list] then leaves the state as
    [_save_converted_list] left it.  A ledger file that does not exist
    loads as the empty ledger. *)
Theorem ledger_round_trip (E : externals) (st : state) :
  faulty E OpLedgerWrite = false ->
  faulty E ledger_read = false ->
  (forall n, n ∈ converted_files st ->
     one_line n = true /\ py_strip n = n /\ n <> "") ->
  let saved := snd (_save_converted_list E st) in
  _load_converted_list E saved = (Ok tt, saved) /\
  converted_files saved = converted_files st /\
  (ledger_file st = None ->
   converted_files (snd (_load_converted_list E st)) = ∅).
Proof.
  intros Hw Hr Hnames saved. subst saved.
  unfold _save_converted_list, _load_converted_list. rewrite Hw. simpl.
  rewrite Hr. split; [|split; [done|by intros ->]].
  rewrite parse_ledger_text.
  - do 2 f_equal.
    pose proof (sorted_elements (converted_files st)) as (_ & _ & Hel).
    apply set_eq. intros n. rewrite elem_of_list_to_set. apply Hel.
  - apply Forall_forall. intros n Hn. apply Hnames.
    by apply (sorted_elements (converted_files st)).
Qed.

Lemma ledger_round_trip_witness :
  _load_converted_list Toy.calm
    (snd (_save_converted_list Toy.calm Samples.two_names))
  = (Ok tt, snd (_save_converted_list Toy.calm Samples.two_names)).
Proof.
  refine (proj1 (ledger_round_trip Toy.calm Samples.two_names eq_refl eq_refl _)).
  intros n Hn.
  assert (Hcases : n = "my icon" \/ n = "logo").
  { unfold Samples.two_names in Hn. simpl in Hn.
    apply elem_of_union in Hn as [Hn|Hn]; apply elem_of_singleton in Hn; tauto. }
  destruct Hcases as [-> | ->]; (split; [reflexivity|]);
    (split; [reflexivity | discriminate]).
Defined.

(** *** Deleting the variants twice *)

Section Settled.

Context (E : externals) (base : string).

Lemma sub_unlink_settles d k st :
  has_variant (snd (attempt (sub_unlink E d k) st)) d k ->
  faulty E (OpUnlink [d; k]) = true.
Proof.
  unfold attempt, catch, sub_unlink.
  destruct (folder st !! d) as [[c|kids]|] eqn:Hd;
    try (intros (kids' & c' & Hdir & _); simpl in Hdir; congruence).
  destruct (kids !! k) as [[c|]|] eqn:Hk;
    try (intros (kids' & c' & Hdir & Hk'); simpl in Hdir; congruence).
  destruct (faulty E (OpUnlink [d; k])); [done|].
  intros (kids' & c' & Hdir & Hk').
  cbn [snd folder log_op set_folder] in Hdir.
  rewrite lookup_insert_eq in Hdir. injection Hdir as <-.
  by rewrite lookup_delete_eq in Hk'.
Qed.

Lemma for_each_unlink_settles d l st k :
  k ∈ l ->
  has_variant
    (snd (for_each l (fun file => attempt (sub_unlink E d file)) st)) d k ->
  faulty E (OpUnlink [d; k]) = true.
Proof.
  revert st. induction l as [|x l IH]; intros st Hin.
  { by apply elem_of_nil in Hin. }
  cbn [for_each].
  destruct (bind_safe (attempt (sub_unlink E d x))
              (fun _ => for_each l (fun file => attempt (sub_unlink E d file)))
              st (safe_attempt _)) as ([] & _ & ->).
  apply list.elem_of_cons in Hin as [->|Hin]; [|by apply IH].
  intros Hv. apply (sub_unlink_settles d x st).
  revert Hv. apply (preserves_for_each no_new_variant).
  intros file. apply preserves_attempt; try apply _. apply sub_unlink_no_new.
Qed.

(** After [delete_in], every regular file of [d] that matches the pattern
    is one whose deletion is refused. *)
Lemma delete_in_settles d st :
  forall k, has_variant (snd (delete_in E base d st)) d k ->
    glob_match E (variant_pattern base d) k = true ->
    faulty E (OpUnlink [d; k]) = true.
Proof.
  intros k Hv Hmatch. revert Hv.
  unfold delete_in, bind at 1, gets at 1.
  destruct (folder st !! d) as [[c|kids]|] eqn:Hd;
    try (intros (kids' & c' & Hdir & _); simpl in Hdir; congruence).
  destruct (decide (k ∈ glob E (variant_pattern base d) kids)) as [Hin|Hout].
  - by apply for_each_unlink_settles.
  - intros Hv.
    apply (preserves_for_each no_new_variant) in Hv;
      [|intros file; apply preserves_attempt; try apply _; apply sub_unlink_no_new].
    destruct Hv as (kids' & c' & Hdir & Hk).
    assert (kids' = kids) as -> by congruence.
    destruct Hout. unfold glob. apply list_elem_of_filter. split; [done|].
    apply list_elem_of_fmap. exists (k, LFile c'). split; [done|].
    by apply elem_of_map_to_list.
Qed.

Lemma for_each_delete_in_settles l d st :
  d ∈ l ->
  forall k, has_variant (snd (for_each l (delete_in E base) st)) d k ->
    glob_match E (variant_pattern base d) k = true ->
    faulty E (OpUnlink [d; k]) = true.
Proof.
  revert st. induction l as [|x l IH]; intros st Hin.
  { by apply elem_of_nil in Hin. }
  cbn [for_each].
  destruct (bind_safe (delete_in E base x) (fun _ => for_each l (delete_in E base))
              st (safe_delete_in E base x)) as ([] & _ & ->).
  destruct (decide (d = x)) as [->|Hne].
  - intros k Hv. apply (delete_in_settles x st k).
    revert Hv. apply (preserves_for_each no_new_variant).
    intros d'. apply delete_in_no_new.
  - apply IH. apply list.elem_of_cons in Hin as [?|?]; done.
Qed.

Lemma for_each_noop {A} (l : list A) (body : A -> M unit) st :
  (forall x, x ∈ l -> body x st = (Ok tt, st)) ->
  for_each l body st = (Ok tt, st).
Proof.
  induction l as [|x l IH]; intros Hb; [done|].
  cbn [for_each]. rewrite (bind_Ok _ _ _ _ _ (Hb x ltac:(left))).
  apply IH. intros y Hy. apply Hb. by right.
Qed.

Lemma delete_in_settled d st :
  (forall k, has_variant (st) d k ->
    glob_match E (variant_pattern base d) k = true ->
    faulty E (OpUnlink [d; k]) = true) ->
  delete_in E base d st = (Ok tt, st).
Proof.
  intros Hs. unfold delete_in, bind at 1, gets at 1.
  destruct (folder st !! d) as [[c|kids]|] eqn:Hd; try done.
  apply for_each_noop. intros k Hk.
  unfold glob in Hk. apply list_elem_of_filter in Hk as [Hmatch _].
  unfold attempt, catch, sub_unlink. rewrite Hd.
  destruct (kids !! k) as [[c|]|] eqn:Hkid; try done.
  rewrite Hs; [done| |done]. by exists kids, c.
Qed.

Lemma delete_converted_files_settled st :
  _delete_converted_files E base (snd (_delete_converted_files E base st))
    = (Ok tt, snd (_delete_converted_files E base st)).
Proof.
  unfold _delete_converted_files at 1. apply for_each_noop.
  intros d Hd. apply delete_in_settled.
  by apply for_each_delete_in_settles.
Qed.

End Settled.

(** X23.  Deleting the variants of a base name a second time does nothing:
    after [_delete_converted_files] every regular file of an output
    directory that matches the pattern is one whose deletion was refused,
    and a second call leaves the state as the first one left it. *)
Theorem deleting_variants_is_idempotent (E : externals) (base : string)
    (st : state) :
  let st' := snd (_delete_converted_files E base st) in
  _delete_converted_files E base st' = (Ok tt, st') /\
  forall d k, in_formats d ->
    glob_match E (variant_pattern base d) k = true ->
    has_variant st' d k -> faulty E (OpUnlink [d; k]) = true.
Proof.
  intros st'. split; [apply delete_converted_files_settled|].
  intros d k Hd Hmatch Hv.
  by apply (for_each_delete_in_settles E base OUTPUT_FORMATS d st Hd k).
Qed.

Lemma deleting_variants_is_idempotent_witness :
  _delete_converted_files Toy.calm "foo"
    (snd (_delete_converted_files Toy.calm "foo" Examples.cluttered))
  = (Ok tt, snd (_delete_converted_files Toy.calm "foo" Examples.cluttered)).
Proof.
  exact (proj1 (deleting_variants_is_idempotent Toy.calm "foo"
                  Examples.cluttered)).
Defined.
